(** * MasterpackCarton: the packing solvers

    A shallow embedding of the solvers of the repository and of the
    properties its specification states about them:

    - [InnerPack]            src/solver/innerPack.js   (unit arrangement)
    - [Palletizer]           src/solver/palletizer.js  (layer / pallet stacking)
    - [MultiSku]             src/solver/multiSkuOptimizer.js (dimension search)
    - [MasterpackOptimizer]  src/algorithms/masterpackOptimizer.js
    - [KitAnalysis]          src/utils/kitAnalysis.js
    - [UnitConversion]       src/utils/unitConversion.js, src/utils/units.js
    - [Doubles]              the arithmetic of these files on binary64 numbers

    Numbers.  In the first five modules JavaScript numbers are idealised as
    exact rationals ([Q]); rounding is not modelled there.  What is proved
    of a computed length, area, volume, ratio or score holds over exact
    arithmetic and is stated as such; the comparisons, branches and counts
    are those of the source.  Where rounding changes an outcome, the module
    [Doubles] has the same functions over binary64 numbers and is evaluated
    on an input that shows it.

    [Math.floor] is [Qfloor], so every count is an integer ([Z]) that is
    injected back into [Q] where the source multiplies it with a length.
    With strictly positive extents and compression allowances below 1 no
    divisor of the source is zero, except the length of an empty catalog:
    the [NaN] of that average ([0 / 0]) is modelled as [None] in [option Q]
    and propagates through arithmetic the way [NaN] does.  A quotient by a
    zero extent ([Infinity] or [NaN] in the source) is outside the exact
    model, where it evaluates to 0; the concrete instances below never
    divide by zero.

    Loops.  The sweep of candidate dimensions does not terminate for a
    non-positive step on a non-empty range; the exact model returns [None]
    there and [Some] result otherwise.  Over binary64 numbers a positive
    step can be too small to change the loop variable; the loops of
    [Doubles] take the number of iterations allowed as an argument. *)

From Stdlib Require Import QArith Qround Qminmax ZArith List String Bool.
From Stdlib Require Import Sorted Lia Lqa.
From Stdlib Require PrimFloat.
Import ListNotations.

Open Scope Q_scope.

(** ** JavaScript numbers and arrays *)

(** [a > b] on finite numbers. *)
Definition Qgtb (a b : Q) : bool := negb (Qle_bool a b).

(** [Math.min(a, b, c)]. *)
Definition min3 (a b c : Q) : Q := Qmin a (Qmin b c).

(** [Math.max] of a non-empty argument list. *)
Definition maxOf (a : Q) (l : list Q) : Q := fold_left Qmax l a.

(** [arr.sort((a, b) => key(b) - key(a))]: a stable sort, descending in
    [key].  An element goes in front of the first element whose key does
    not exceed its own, so equal keys keep their original order. *)
Section Sort.
Context {A : Type} (key : A -> Q).

Fixpoint insertDesc (x : A) (l : list A) : list A :=
  match l with
  | [] => [x]
  | y :: l' =>
      if Qle_bool (key y) (key x) then x :: y :: l'
      else y :: insertDesc x l'
  end.

Definition sortDesc (l : list A) : list A := fold_right insertDesc [] l.

End Sort.

(** [arr.sort(cmp)] for a comparator [cmp] that returns a number: a stable
    sort in which [x] goes in front of the first element [y] with
    [cmp(x, y) <= 0]. *)
Section SortWith.
Context {A : Type} (cmp : A -> A -> Q).

Fixpoint insertWith (x : A) (l : list A) : list A :=
  match l with
  | [] => [x]
  | y :: l' =>
      if Qle_bool (cmp x y) 0 then x :: y :: l'
      else y :: insertWith x l'
  end.

Definition sortWith (l : list A) : list A := fold_right insertWith [] l.

End SortWith.

(** ** Shared data *)

(** [{ L, W, H }]. *)
Record Dims := mkDims { dimL : Q; dimW : Q; dimH : Q }.

(** The property names ['L'], ['W'], ['H']. *)
Inductive Axis := AxL | AxW | AxH.

(** [dims[axis]]. *)
Definition getAxis (d : Dims) (a : Axis) : Q :=
  match a with AxL => dimL d | AxW => dimW d | AxH => dimH d end.

Definition axisName (a : Axis) : string :=
  match a with AxL => "L" | AxW => "W" | AxH => "H" end.

(** [solver.squish_pct = { x, y, z }]. *)
Record Squish := mkSquish { sqX : Q; sqY : Q; sqZ : Q }.

(** [config.masterpack]. *)
Record Masterpack := mkMasterpack {
  external : Dims;
  wall_thickness_in : Q;
  tare_lb : Q
}.

(** [config.solver].  [prefer_multiples_of] is a positive integer. *)
Record Solver := mkSolver {
  squish_pct : Squish;
  prefer_multiples_of : Z;
  max_overhang_in : Q;
  allow_patterns : option (list string)
}.

(** The configuration record ([data/config.json]). *)
Record Config := mkConfig {
  masterpack : Masterpack;
  solver : Solver;
  pallet : Dims
}.

(** One catalog entry.  [current_baseline] may be absent. *)
Record Sku := mkSku {
  sku_id : string;
  skuL : Q;
  skuW : Q;
  skuH : Q;
  oz : Q;
  current_baseline : option Q
}.

(** Well-formed inputs: strictly positive extents, and a compression
    allowance below 1 on every axis, so that a compressed unit keeps a
    positive extent.  The allowances of the data model, in [0, 1), are of
    this kind. *)
Definition posDims (d : Dims) : Prop := 0 < dimL d /\ 0 < dimW d /\ 0 < dimH d.

Definition okSquish (s : Squish) : Prop :=
  sqX s < 1 /\ sqY s < 1 /\ sqZ s < 1.

(** ** innerPack.js *)
Module InnerPack.

Definition calculateInternalDims (externalDims : Dims) (wallThickness : Q)
  : Dims :=
  {| dimL := dimL externalDims - 2 * wallThickness;
     dimW := dimW externalDims - 2 * wallThickness;
     dimH := dimH externalDims - 2 * wallThickness |}.

(** The six rotation labels; [rot r i] is the character [rotation[i]]. *)
Inductive Rotation := LWH | LHW | WLH | WHL | HLW | HWL.

Definition rot (r : Rotation) : Axis * Axis * Axis :=
  match r with
  | LWH => (AxL, AxW, AxH)
  | LHW => (AxL, AxH, AxW)
  | WLH => (AxW, AxL, AxH)
  | WHL => (AxW, AxH, AxL)
  | HLW => (AxH, AxL, AxW)
  | HWL => (AxH, AxW, AxL)
  end.

Definition rotations : list Rotation := [LWH; LHW; WLH; WHL; HLW; HWL].

Record Arrangement := mkArrangement {
  rotation : Rotation;
  nx : Z;
  ny : Z;
  nz : Z;
  count : Z;
  utilization : Q;
  rotatedDims : Dims;
  adjustedDims : Dims
}.

Definition tryRotation (unitDims internalDims : Dims) (rotation : Rotation)
    (squishPct : Squish) : Arrangement :=
  let '(a0, a1, a2) := rot rotation in
  let rotated :=
    {| dimL := getAxis unitDims a0;
       dimW := getAxis unitDims a1;
       dimH := getAxis unitDims a2 |} in
  let adjusted :=
    {| dimL := dimL rotated * (1 - sqX squishPct);
       dimW := dimW rotated * (1 - sqY squishPct);
       dimH := dimH rotated * (1 - sqZ squishPct) |} in
  let nx := Qfloor (dimL internalDims / dimL adjusted) in
  let ny := Qfloor (dimW internalDims / dimW adjusted) in
  let nz := Qfloor (dimH internalDims / dimH adjusted) in
  let count := (nx * ny * nz)%Z in
  let usedVolume :=
    inject_Z count * (dimL adjusted * dimW adjusted * dimH adjusted) in
  let availableVolume :=
    dimL internalDims * dimW internalDims * dimH internalDims in
  let utilization := usedVolume / availableVolume in
  {| rotation := rotation; nx := nx; ny := ny; nz := nz; count := count;
     utilization := utilization;
     rotatedDims := rotated; adjustedDims := adjusted |}.

(** [count % preferMultiplesOf] is the truncated remainder ([Z.rem]). *)
Definition scoreArrangement (arrangement : Arrangement)
    (preferMultiplesOf : Z) : Q :=
  let isPreferredMultiple :=
    (Z.rem (count arrangement) preferMultiplesOf =? 0)%Z in
  let distanceToMultiple := Z.rem (count arrangement) preferMultiplesOf in
  let score := 0 in
  let score :=
    if isPreferredMultiple then score + 1000
    else score + inject_Z (preferMultiplesOf - distanceToMultiple) * 10 in
  let score := score + utilization arrangement * 500 in
  let score := score - inject_Z (nz arrangement) * 0.1 in
  score.

(** [findFailingAxis]: the axes whose internal extent is smaller than the
    smallest extent of the unit, or [['all']] when there is none. *)
Definition findFailingAxis (unitDims internalDims : Dims) : list string :=
  let axes := [AxL; AxW; AxH] in
  let failing :=
    map axisName
      (filter (fun axis =>
                 let minUnitDim :=
                   min3 (dimL unitDims) (dimW unitDims) (dimH unitDims) in
                 Qgtb minUnitDim (getAxis internalDims axis))
              axes) in
  match failing with
  | [] => ["all"%string]
  | _ => failing
  end.

(** The [fits: true] object: the best arrangement, its score and the
    weight figures. *)
Record Fit := mkFit {
  best : Arrangement;
  score : Q;
  unitWeightLb : Q;
  totalProductWeight : Q;
  grossCaseWeight : Q;
  isLowDensity : bool;
  isHeavy : bool;
  internalDims : Dims
}.

Inductive Result :=
| NoFit (reason : string) (failingAxis : list string)
| Fits (r : Fit).

Definition fits (r : Result) : bool :=
  match r with NoFit _ _ => false | Fits _ => true end.

Definition findBestArrangement (sku : Sku) (config : Config) : Result :=
  let internalDims :=
    calculateInternalDims (external (masterpack config))
                          (wall_thickness_in (masterpack config)) in
  let unitDims := {| dimL := skuL sku; dimW := skuW sku; dimH := skuH sku |} in
  let arrangements :=
    map (fun rotation =>
           tryRotation unitDims internalDims rotation
                       (squish_pct (solver config)))
        rotations in
  let validArrangements :=
    filter (fun a => (0 <? count a)%Z) arrangements in
  let scoredArrangements :=
    map (fun arr =>
           (arr, scoreArrangement arr (prefer_multiples_of (solver config))))
        validArrangements in
  match validArrangements with
  | [] =>
      NoFit "SKU dimensions too large for masterpack"
            (findFailingAxis unitDims internalDims)
  | first :: _ =>
      (* [scoredArrangements[0]]; the sorted array is not empty here *)
      let '(best, score) :=
        hd (first, scoreArrangement first (prefer_multiples_of (solver config)))
           (sortDesc snd scoredArrangements) in
      let unitWeightLb := oz sku / 16 in
      let totalProductWeight := inject_Z (count best) * unitWeightLb in
      let grossCaseWeight :=
        totalProductWeight + tare_lb (masterpack config) in
      Fits {| best := best; score := score;
              unitWeightLb := unitWeightLb;
              totalProductWeight := totalProductWeight;
              grossCaseWeight := grossCaseWeight;
              isLowDensity := (count best <? 20)%Z;
              isHeavy := Qgtb grossCaseWeight 40;
              internalDims := internalDims |}
  end.

End InnerPack.

(** ** palletizer.js *)
Module Palletizer.

(** One layer plan.  The property [exceedsOverhang] is only present on the
    object built in the fall-back branch of [calculateColumnPattern]. *)
Record LayerResult := mkLayer {
  wide : Z;
  long : Z;
  overhangW : Q;
  overhangL : Q;
  exceedsOverhang : option bool
}.

(** [{ ...option, exceedsOverhang: true }]. *)
Definition flagged (o : LayerResult) : LayerResult :=
  {| wide := wide o; long := long o;
     overhangW := overhangW o; overhangL := overhangL o;
     exceedsOverhang := Some true |}.

Definition layerCount (o : LayerResult) : Z := (wide o * long o)%Z.

Section ColumnPattern.
Variables (caseDims palletDims : Dims) (maxOverhang : Q).

Let caseL := dimL caseDims.
Let caseW := dimW caseDims.
Let palletL := dimL palletDims.
Let palletW := dimW palletDims.

Definition option1 : LayerResult :=
  {| wide := Qfloor (palletW / caseW);
     long := Qfloor (palletL / caseL);
     overhangW := palletW - inject_Z (Qfloor (palletW / caseW)) * caseW;
     overhangL := palletL - inject_Z (Qfloor (palletL / caseL)) * caseL;
     exceedsOverhang := None |}.

Definition option2 : LayerResult :=
  {| wide := Qfloor (palletW / caseL);
     long := Qfloor (palletL / caseW);
     overhangW := palletW - inject_Z (Qfloor (palletW / caseL)) * caseL;
     overhangL := palletL - inject_Z (Qfloor (palletL / caseW)) * caseW;
     exceedsOverhang := None |}.

(** [overhangW <= maxOverhang && overhangL <= maxOverhang]. *)
Definition withinOverhang (o : LayerResult) : bool :=
  Qle_bool (overhangW o) maxOverhang && Qle_bool (overhangL o) maxOverhang.

Definition calculateColumnPattern : LayerResult :=
  let option1Valid := withinOverhang option1 in
  let option2Valid := withinOverhang option2 in
  let option1Count := layerCount option1 in
  let option2Count := layerCount option2 in
  if option1Valid && option2Valid then
    if (option1Count >=? option2Count)%Z then option1 else option2
  else if option1Valid then option1
  else if option2Valid then option2
  else
    if (option1Count >=? option2Count)%Z then flagged option1
    else flagged option2.

(** The three placeholders call the column pattern. *)
Definition calculateBrickPattern : LayerResult := calculateColumnPattern.
Definition calculatePinwheelPattern : LayerResult := calculateColumnPattern.
Definition calculateSwap4048Pattern : LayerResult := calculateColumnPattern.
End ColumnPattern.

Record PalletStacking := mkStacking {
  pattern : string;
  casesWide : Z;
  casesLong : Z;
  casesPerLayer : Z;
  maxLayers : Z;
  totalCases : Z;
  palletHeight : Q;
  coverage : Q;
  stackOverhangW : Q;
  stackOverhangL : Q;
  stackExceedsOverhang : bool
}.

(** [x || 0] on a number. *)
Definition orZero (x : Q) : Q := if Qeq_bool x 0 then 0 else x.

(** [x || false] on a property that is absent or a boolean. *)
Definition orFalse (x : option bool) : bool :=
  match x with Some b => b | None => false end.

Definition calculatePalletStacking (caseDims : Dims) (palletConfig : Config)
    (targetHeight : Q) (pattern : string) : PalletStacking :=
  let pallet := pallet palletConfig in
  let maxOverhang := max_overhang_in (solver palletConfig) in
  let layerResult :=
    if String.eqb pattern "brick" then
      calculateBrickPattern caseDims pallet maxOverhang
    else if String.eqb pattern "pinwheel" then
      calculatePinwheelPattern caseDims pallet maxOverhang
    else if String.eqb pattern "swap-40-48" then
      calculateSwap4048Pattern caseDims pallet maxOverhang
    else
      calculateColumnPattern caseDims pallet maxOverhang in
  let casesPerLayer := (wide layerResult * long layerResult)%Z in
  let availableHeight := targetHeight - dimH pallet in
  let maxLayers := Qfloor (availableHeight / dimH caseDims) in
  let totalCases := (casesPerLayer * maxLayers)%Z in
  let actualPalletHeight :=
    dimH pallet + inject_Z maxLayers * dimH caseDims in
  let palletArea := dimL pallet * dimW pallet in
  let usedArea :=
    (inject_Z (wide layerResult) * dimW caseDims) *
    (inject_Z (long layerResult) * dimL caseDims) in
  let coverage := usedArea / palletArea in
  {| pattern := pattern;
     casesWide := wide layerResult;
     casesLong := long layerResult;
     casesPerLayer := casesPerLayer;
     maxLayers := maxLayers;
     totalCases := totalCases;
     palletHeight := actualPalletHeight;
     coverage := coverage;
     stackOverhangW := orZero (overhangW layerResult);
     stackOverhangL := orZero (overhangL layerResult);
     stackExceedsOverhang := orFalse (exceedsOverhang layerResult) |}.

(** The same record with another [pattern] identifier. *)
Definition withPattern (p : string) (s : PalletStacking) : PalletStacking :=
  {| pattern := p;
     casesWide := casesWide s; casesLong := casesLong s;
     casesPerLayer := casesPerLayer s; maxLayers := maxLayers s;
     totalCases := totalCases s; palletHeight := palletHeight s;
     coverage := coverage s;
     stackOverhangW := stackOverhangW s; stackOverhangL := stackOverhangL s;
     stackExceedsOverhang := stackExceedsOverhang s |}.

(** The comparator of [findBestPalletPattern]: more cases first, then
    more coverage. *)
Definition comparePallets (a b : PalletStacking) : Q :=
  if negb (totalCases b =? totalCases a)%Z
  then inject_Z (totalCases b - totalCases a)
  else coverage b - coverage a.

(** [solver.allow_patterns || ['column']]: every array, also the empty one,
    is kept. *)
Definition allowedPatterns (palletConfig : Config) : list string :=
  match allow_patterns (solver palletConfig) with
  | Some patterns => patterns
  | None => ["column"%string]
  end.

(** [results[0]] is [undefined] ([None]) when no pattern is allowed. *)
Definition findBestPalletPattern (caseDims : Dims) (palletConfig : Config)
    (targetHeight : Q) : option PalletStacking :=
  let results :=
    map (fun pattern =>
           calculatePalletStacking caseDims palletConfig targetHeight pattern)
        (allowedPatterns palletConfig) in
  hd_error (sortWith comparePallets results).

End Palletizer.

(** ** multiSkuOptimizer.js *)
Module MultiSku.
Import InnerPack.

(** *** Numbers that may be [NaN] *)

(** [None] is [NaN]; it absorbs every operation and compares false. *)
Definition nanAdd (a b : option Q) : option Q :=
  match a, b with Some x, Some y => Some (x + y) | _, _ => None end.

Definition nanSub (a b : option Q) : option Q :=
  match a, b with Some x, Some y => Some (x - y) | _, _ => None end.

Definition nanMul (a b : option Q) : option Q :=
  match a, b with Some x, Some y => Some (x * y) | _, _ => None end.

(** [a > 0]. *)
Definition nanGt0 (a : option Q) : bool :=
  match a with Some x => Qgtb x 0 | None => false end.

(** Equality of such numbers up to the representation of rationals. *)
Definition nanEq (a b : option Q) : Prop :=
  match a, b with
  | Some x, Some y => x == y
  | None, None => True
  | _, _ => False
  end.

(** [l.reduce((sum, r) => sum + r, 0) / l.length]; [0 / 0] on an empty
    array. *)
Definition average (l : list Q) : option Q :=
  match l with
  | [] => None
  | _ => Some (fold_left Qplus l 0 / inject_Z (Z.of_nat (List.length l)))
  end.

(** *** Candidate generation *)

(** The values a loop [for (let x = x0; x <= maxDim; x += step)] runs its
    body with; [None] when [fuel] iterations do not end it. *)
Fixpoint forValues (fuel : nat) (x maxDim step : Q) : option (list Q) :=
  if Qle_bool x maxDim then
    match fuel with
    | O => None
    | S fuel' => option_map (cons x) (forValues fuel' (x + step) maxDim step)
    end
  else Some [].

(** Enough iterations for every loop that ends: the loop variable passes
    [maxDim] after [floor((maxDim - minDim) / step) + 1] steps. *)
Definition loopFuel (minDim maxDim step : Q) : nat :=
  Z.to_nat (Qfloor ((maxDim - minDim) / step) + 1).

Definition aspectOk (d : Dims) : bool :=
  let maxRatio :=
    maxOf (dimL d / dimW d)
          [dimW d / dimL d; dimL d / dimH d; dimH d / dimL d;
           dimW d / dimH d; dimH d / dimW d] in
  Qle_bool maxRatio 2.

(** The three nested loops run over the same values; the result is [None]
    when the loops do not terminate ([step <= 0] on a non-empty range). *)
Definition generateCandidateDimensions (minDim maxDim step : Q)
  : option (list Dims) :=
  match forValues (loopFuel minDim maxDim step) minDim maxDim step with
  | None => None
  | Some values =>
      Some (flat_map (fun l =>
              flat_map (fun w =>
                flat_map (fun h =>
                  let d := {| dimL := l; dimW := w; dimH := h |} in
                  if aspectOk d then [d] else [])
                values)
              values)
            values)
  end.

(** *** Pallet fit *)

Record PalletFit := mkPalletFit {
  canInterlock : bool;
  layer1Count : Z;
  layer2Count : Z;
  avgCoverage : Q;
  layer1Coverage : Q;
  layer2Coverage : Q
}.

Definition checkPalletFit (boxDims palletDims : Dims) : PalletFit :=
  let boxL := dimL boxDims in
  let boxW := dimW boxDims in
  let palletL := dimL palletDims in
  let palletW := dimW palletDims in
  let layer1Wide := Qfloor (palletW / boxW) in
  let layer1Long := Qfloor (palletL / boxL) in
  let layer1Count := (layer1Wide * layer1Long)%Z in
  let layer2Wide := Qfloor (palletW / boxL) in
  let layer2Long := Qfloor (palletL / boxW) in
  let layer2Count := (layer2Wide * layer2Long)%Z in
  let layer1Coverage :=
    (inject_Z layer1Wide * boxW * inject_Z layer1Long * boxL)
    / (palletL * palletW) in
  let layer2Coverage :=
    (inject_Z layer2Wide * boxL * inject_Z layer2Long * boxW)
    / (palletL * palletW) in
  let avgCoverage := (layer1Coverage + layer2Coverage) / 2 in
  let canInterlock := (0 <? layer1Count)%Z && (0 <? layer2Count)%Z in
  {| canInterlock := canInterlock;
     layer1Count := layer1Count;
     layer2Count := layer2Count;
     avgCoverage := avgCoverage;
     layer1Coverage := layer1Coverage;
     layer2Coverage := layer2Coverage |}.

(** *** Scoring one candidate *)

Record SkuResult := mkSkuResult {
  sr_sku : string;
  sr_fits : bool;
  sr_count : Z;
  sr_utilization : Q;
  sr_currentBaseline : Q
}.

(** [{ ...config, masterpack: { ...config.masterpack, external: boxDims } }]. *)
Definition testConfig (config : Config) (boxDims : Dims) : Config :=
  {| masterpack :=
       {| external := boxDims;
          wall_thickness_in := wall_thickness_in (masterpack config);
          tare_lb := tare_lb (masterpack config) |};
     solver := solver config;
     pallet := pallet config |}.

(** [sku.current_baseline || 0]. *)
Definition baselineOrZero (sku : Sku) : Q :=
  match current_baseline sku with
  | Some b => if Qeq_bool b 0 then 0 else b
  | None => 0
  end.

Definition skuResult (config : Config) (sku : Sku) : SkuResult :=
  let result := findBestArrangement sku config in
  {| sr_sku := sku_id sku;
     sr_fits := fits result;
     sr_count := match result with Fits r => count (best r) | NoFit _ _ => 0%Z end;
     sr_utilization :=
       match result with Fits r => utilization (best r) | NoFit _ _ => 0 end;
     sr_currentBaseline := baselineOrZero sku |}.

Definition baselineRatio (r : SkuResult) : Q :=
  if Qgtb (sr_currentBaseline r) 0
  then inject_Z (sr_count r) / sr_currentBaseline r
  else 1.

(** The object of the regular return. *)
Record Scored := mkScored {
  score : option Q;
  allFit : bool;
  avgUtilization : option Q;
  totalVolume : Q;
  avgBaselineRatio : option Q;
  palletFit : PalletFit;
  skuResults : list SkuResult
}.

(** The two shapes [scoreBoxCandidate] returns: [{ score: -1000,
    ...skuResults }], which has no [allFit] property, and the regular one. *)
Inductive BoxScore :=
| Rejected (sentinel : Q) (entries : list SkuResult)
| Accepted (s : Scored).

Definition scoreBoxCandidate (boxDims : Dims) (skus : list Sku)
    (config : Config) (palletFit : PalletFit) : BoxScore :=
  let testConfig := testConfig config boxDims in
  let skuResults := map (skuResult testConfig) skus in
  let allFit := forallb sr_fits skuResults in
  let avgUtilization := average (map sr_utilization skuResults) in
  let totalVolume := dimL boxDims * dimW boxDims * dimH boxDims in
  let baselineComparison := map baselineRatio skuResults in
  let avgBaselineRatio := average baselineComparison in
  let score := Some 0 in
  if negb allFit then Rejected (-1000) skuResults
  else
    let score := nanAdd score (nanMul avgUtilization (Some 500)) in
    let score := nanSub score (Some (totalVolume * 0.1)) in
    let score := nanAdd score (nanMul avgBaselineRatio (Some 300)) in
    let score :=
      if canInterlock palletFit then
        let score := nanAdd score (Some 200) in
        nanAdd score (Some (avgCoverage palletFit * 300))
      else score in
    Accepted {| score := score;
                allFit := allFit;
                avgUtilization := avgUtilization;
                totalVolume := totalVolume;
                avgBaselineRatio := avgBaselineRatio;
                palletFit := palletFit;
                skuResults := skuResults |}.

(** *** The search *)

(** [{ dims, ...score }]. *)
Record Candidate := mkCandidate {
  dims : Dims;
  boxScore : BoxScore
}.

(** [c.score]. *)
Definition candScore (c : Candidate) : option Q :=
  match boxScore c with
  | Rejected s _ => Some s
  | Accepted s => score s
  end.

(** [c.allFit]; the property is absent on a rejected candidate. *)
Definition candAllFit (c : Candidate) : option bool :=
  match boxScore c with
  | Rejected _ _ => None
  | Accepted s => Some (allFit s)
  end.

(** The key of the final sort; every candidate that reaches it has a
    finite score. *)
Definition sortKey (c : Candidate) : Q :=
  match candScore c with Some s => s | None => 0 end.

Record Options := mkOptions {
  minDim : option Q;
  maxDim : option Q;
  step : option Q
}.

Definition orDefault (d : Q) (o : option Q) : Q :=
  match o with Some x => x | None => d end.

Record SearchResult := mkSearchResult {
  optimal : option Candidate;
  topCandidates : list Candidate;
  totalTested : nat;
  validCandidates : nat
}.

Definition scoreCandidate (skus : list Sku) (config : Config) (dims : Dims)
  : Candidate :=
  let palletFit := checkPalletFit dims (pallet config) in
  let score := scoreBoxCandidate dims skus config palletFit in
  {| dims := dims; boxScore := score |}.

(** [None] when candidate generation does not terminate. *)
Definition findOptimalMasterpack (skus : list Sku) (config : Config)
    (options : Options) : option SearchResult :=
  let minDim := orDefault 12 (minDim options) in
  let maxDim := orDefault 24 (maxDim options) in
  let step := orDefault 1 (step options) in
  match generateCandidateDimensions minDim maxDim step with
  | None => None
  | Some candidates =>
      let scoredCandidates :=
        filter (fun c => nanGt0 (candScore c))
               (map (scoreCandidate skus config) candidates) in
      let scoredCandidates := sortDesc sortKey scoredCandidates in
      Some {| optimal := hd_error scoredCandidates;
              topCandidates := firstn 5 scoredCandidates;
              totalTested := List.length candidates;
              validCandidates := List.length scoredCandidates |}
  end.

(** *** Analysis of the current masterpack *)

(** A catalog entry with the properties only [analyzeCurrentMasterpack]
    reads; each of them may be absent. *)
Record SkuData := mkSkuData {
  sd_base : Sku;
  squish_factor : option Q;
  box_dims : option Dims;
  box_weight_lb : option Q;
  compressible : option bool;
  notes : option string;
  original_H : option Q
}.

Definition nanDiv (a b : option Q) : option Q :=
  match a, b with Some x, Some y => Some (x / y) | _, _ => None end.

(** Truthiness of a property that is absent or a number. *)
Definition truthy (x : option Q) : bool :=
  match x with Some q => negb (Qeq_bool q 0) | None => false end.

(** [x || 0] on a number that may be [NaN] or absent. *)
Definition nanOrZero (x : option Q) : Q :=
  match x with Some q => q | None => 0 end.

Record Analysis := mkAnalysis {
  a_sku : string;
  a_dims : Dims;
  theoretical : Z;
  actual : Q;
  squishFactor : Q;
  theoreticalUtil : Q;
  actualUtil : Q;
  boxUtilization : option Q;
  a_rotation : option Rotation;
  weight : Q;
  a_compressible : option bool;
  a_notes : option string;
  originalHeight : option Q;
  currentBoxDims : option Dims
}.

Definition analyzeSku (config : Config) (sd : SkuData) : Analysis :=
  let sku := sd_base sd in
  let theoretical := findBestArrangement sku config in
  let squishFactor :=
    if truthy (squish_factor sd) then nanOrZero (squish_factor sd)
    else
      match theoretical with
      | Fits r =>
          if truthy (current_baseline sku)
          then nanOrZero (current_baseline sku) / inject_Z (count (best r))
          else 1
      | NoFit _ _ => 1
      end in
  let boxUtilization :=
    match box_dims sd with
    | Some b =>
        let boxVolume := dimL b * dimW b * dimH b in
        let itemVolume := skuL sku * skuW sku * skuH sku in
        nanDiv (nanMul (Some itemVolume) (current_baseline sku))
               (Some boxVolume)
    | None => Some 0
    end in
  {| a_sku := sku_id sku;
     a_dims := {| dimL := skuL sku; dimW := skuW sku; dimH := skuH sku |};
     theoretical :=
       match theoretical with Fits r => count (best r) | NoFit _ _ => 0%Z end;
     actual := baselineOrZero sku;
     squishFactor := squishFactor;
     theoreticalUtil :=
       match theoretical with
       | Fits r => utilization (best r)
       | NoFit _ _ => 0
       end;
     actualUtil :=
       match theoretical with
       | Fits r =>
           if truthy (current_baseline sku)
           then nanOrZero (current_baseline sku) / inject_Z (count (best r))
                * utilization (best r)
           else 0
       | NoFit _ _ => 0
       end;
     boxUtilization := boxUtilization;
     a_rotation :=
       match theoretical with
       | Fits r => Some (rotation (best r))
       | NoFit _ _ => None
       end;
     weight :=
       match theoretical with
       | Fits r => grossCaseWeight r
       | NoFit _ _ => nanOrZero (box_weight_lb sd)
       end;
     a_compressible := compressible sd;
     a_notes := notes sd;
     originalHeight := original_H sd;
     currentBoxDims := box_dims sd |}.

Record Summary := mkSummary {
  totalSkus : nat;
  avgSquishFactor : option Q;
  avgTheoreticalUtil : option Q;
  avgActualUtil : option Q;
  avgBoxUtilization : option Q;
  problematicSkus : nat;
  underutilizedSkus : nat
}.

Definition isProblematic (r : Analysis) : bool :=
  Qgtb (squishFactor r) 1.2 || Qgtb 0.8 (squishFactor r).

Definition isUnderutilized (r : Analysis) : bool :=
  Qgtb 0.75 (nanOrZero (boxUtilization r)).

Definition analyzeCurrentMasterpack (skus : list SkuData) (config : Config)
  : list Analysis * Summary :=
  let results := map (analyzeSku config) skus in
  let summary :=
    {| totalSkus := List.length results;
       avgSquishFactor := average (map squishFactor results);
       avgTheoreticalUtil := average (map theoreticalUtil results);
       avgActualUtil := average (map actualUtil results);
       avgBoxUtilization :=
         average (map (fun r => nanOrZero (boxUtilization r)) results);
       problematicSkus := List.length (filter isProblematic results);
       underutilizedSkus := List.length (filter isUnderutilized results) |} in
  (results, summary).

End MultiSku.

(** ** masterpackOptimizer.js *)
Module MasterpackOptimizer.

Definition calculateInternalDims (externalDims : Dims) (wallThickness : Q)
  : Dims :=
  {| dimL := dimL externalDims - 2 * wallThickness;
     dimW := dimW externalDims - 2 * wallThickness;
     dimH := dimH externalDims - 2 * wallThickness |}.

Record Units := mkUnits {
  nx : Z;
  ny : Z;
  nz : Z;
  count : Z;
  utilization : Q
}.

Definition calculateUnitsPerOrientation (unitDims internalDims : Dims)
    (squishPct : Squish) : Units :=
  let adjustedUnitDims :=
    {| dimL := dimL unitDims * (1 - sqX squishPct);
       dimW := dimW unitDims * (1 - sqY squishPct);
       dimH := dimH unitDims * (1 - sqZ squishPct) |} in
  let nx := Qfloor (dimL internalDims / dimL adjustedUnitDims) in
  let ny := Qfloor (dimW internalDims / dimW adjustedUnitDims) in
  let nz := Qfloor (dimH internalDims / dimH adjustedUnitDims) in
  if (nx <=? 0)%Z || (ny <=? 0)%Z || (nz <=? 0)%Z then
    {| nx := 0; ny := 0; nz := 0; count := 0; utilization := 0 |}
  else
    {| nx := nx; ny := ny; nz := nz;
       count := (nx * ny * nz)%Z;
       utilization :=
         (inject_Z nx * dimL adjustedUnitDims * inject_Z ny
          * dimW adjustedUnitDims * inject_Z nz * dimH adjustedUnitDims)
         / (dimL internalDims * dimW internalDims * dimH internalDims) |}.

(** The default value of the parameter [squishPct]. *)
Definition noSquish : Squish := {| sqX := 0; sqY := 0; sqZ := 0 |}.

(** The six orientations [{ x, y, z }], in the order of the source. *)
Definition orientations : list (Axis * Axis * Axis) :=
  [ (AxL, AxW, AxH); (AxL, AxH, AxW); (AxW, AxL, AxH);
    (AxW, AxH, AxL); (AxH, AxL, AxW); (AxH, AxW, AxL) ].

(** [{ L: unitDims[o.x], W: unitDims[o.y], H: unitDims[o.z] }]. *)
Definition orient (unitDims : Dims) (o : Axis * Axis * Axis) : Dims :=
  let '(x, y, z) := o in
  {| dimL := getAxis unitDims x;
     dimW := getAxis unitDims y;
     dimH := getAxis unitDims z |}.

(** The catalog entry of this module: [{ sku, unitDims }]. *)
Record SkuEntry := mkSkuEntry {
  entry_sku : string;
  unitDims : Dims
}.

(** [{ ...arrangement, orientation, sku, score }]. *)
Record Best := mkBest {
  units : Units;
  orientation : Axis * Axis * Axis;
  best_sku : string;
  best_score : Q
}.

Definition targetMultiplesDefault : list Z := [48; 42; 36; 30; 24; 20; 18]%Z.

(** The [reduce] that picks the target multiple closest to [count]; the
    first of equally close multiples wins. *)
Definition closestMultiple (targetMultiples : list Z) (first count : Z) : Z :=
  fold_left
    (fun closest multiple =>
       let currentDiff := Z.abs (multiple - count) in
       let closestDiff := Z.abs (closest - count) in
       if (currentDiff <? closestDiff)%Z then multiple else closest)
    targetMultiples first.

(** The score of one arrangement with a positive count. *)
Definition orientationScore (targetMultiples : list Z) (first : Z)
    (arrangement : Units) : Q :=
  let closest := closestMultiple targetMultiples first (count arrangement) in
  let multipleScore :=
    1 - inject_Z (Z.abs (closest - count arrangement)) / inject_Z closest in
  let utilizationScore := utilization arrangement in
  let exactMultipleBonus :=
    if existsb (Z.eqb (count arrangement)) targetMultiples then 0.2 else 0 in
  0.6 * multipleScore + 0.3 * utilizationScore + 0.1 * exactMultipleBonus.

(** One turn of the loop over the orientations; the state is
    [(bestArrangement, bestScore)]. *)
Definition tryOrientation (sku : SkuEntry) (masterpackInternalDims : Dims)
    (targetMultiples : list Z) (first : Z)
    (state : option Best * Q) (o : Axis * Axis * Axis) : option Best * Q :=
  let orientedUnitDims := orient (unitDims sku) o in
  let arrangement :=
    calculateUnitsPerOrientation orientedUnitDims masterpackInternalDims
                                 noSquish in
  if (count arrangement <=? 0)%Z then state
  else
    let score := orientationScore targetMultiples first arrangement in
    if Qgtb score (snd state)
    then (Some {| units := arrangement; orientation := o;
                  best_sku := entry_sku sku; best_score := score |}, score)
    else state.

(** [findBestArrangement]; [None] is [null].  With an empty list of target
    multiples [targetMultiples[0]] is [undefined], every score is [NaN] and
    no arrangement is ever selected. *)
Definition findBestArrangement (sku : SkuEntry) (masterpackInternalDims : Dims)
    (targetMultiples : list Z) : option Best :=
  match targetMultiples with
  | [] => None
  | first :: _ =>
      fst (fold_left
             (tryOrientation sku masterpackInternalDims targetMultiples first)
             orientations (None, -1))
  end.

(** [globalSettings]: [{ pallet: { width, length, height },
    targetPalletHeight: { value } }]. *)
Record GlobalSettings := mkGlobalSettings {
  pallet_width : Q;
  pallet_length : Q;
  pallet_height : Q;
  targetPalletHeight : Q
}.

Record Stacking := mkStacking {
  casesWide : Z;
  casesLong : Z;
  casesPerLayer : Z;
  maxLayers : Z;
  totalCases : Z;
  palletHeight : Q;
  overhangWidth : Q;
  overhangLength : Q;
  overhangWidthFlag : bool;
  overhangLengthFlag : bool;
  coverage : Q
}.

Definition calculatePalletStacking (masterpackExternalDims : Dims)
    (globalSettings : GlobalSettings) : Stacking :=
  let L := dimL masterpackExternalDims in
  let W := dimW masterpackExternalDims in
  let H := dimH masterpackExternalDims in
  let casesWide := Qfloor (pallet_width globalSettings / W) in
  let casesLong := Qfloor (pallet_length globalSettings / L) in
  let overhangWidth := pallet_width globalSettings - inject_Z casesWide * W in
  let overhangLength := pallet_length globalSettings - inject_Z casesLong * L in
  let availableHeight :=
    targetPalletHeight globalSettings - pallet_height globalSettings in
  let maxLayers := Qfloor (availableHeight / H) in
  let actualPalletHeight :=
    pallet_height globalSettings + inject_Z maxLayers * H in
  let overhangWidthFlag := Qgtb overhangWidth 0.5 in
  let overhangLengthFlag := Qgtb overhangLength 0.5 in
  {| casesWide := casesWide;
     casesLong := casesLong;
     casesPerLayer := (casesWide * casesLong)%Z;
     maxLayers := maxLayers;
     totalCases := (casesWide * casesLong * maxLayers)%Z;
     palletHeight := actualPalletHeight;
     overhangWidth := overhangWidth;
     overhangLength := overhangLength;
     overhangWidthFlag := overhangWidthFlag;
     overhangLengthFlag := overhangLengthFlag;
     coverage :=
       (inject_Z casesWide * W * inject_Z casesLong * L)
       / (pallet_width globalSettings * pallet_length globalSettings) |}.

End MasterpackOptimizer.

(** ** kitAnalysis.js *)
Module KitAnalysis.
Import MultiSku.

(** An object with numeric properties; reading a property the object does
    not have gives [undefined], which is [NaN] ([None]) in arithmetic. *)
Definition Obj := list (string * Q).

Fixpoint prop (o : Obj) (k : string) : option Q :=
  match o with
  | [] => None
  | (k', v) :: o' => if String.eqb k k' then Some v else prop o' k
  end.

(** [Math.floor] and the product of counts, on numbers that may be [NaN]. *)
Definition nanFloor (a : option Q) : option Z := option_map Qfloor a.

Definition nanMulZ (a b : option Z) : option Z :=
  match a, b with Some x, Some y => Some (x * y)%Z | _, _ => None end.

(** [{ width, length, height }]. *)
Definition boxObj (width length height : Q) : Obj :=
  [("width"%string, width); ("length"%string, length);
   ("height"%string, height)].

Definition calculateVolume (dimensions : Obj) : option Q :=
  nanMul (nanMul (prop dimensions "width") (prop dimensions "length"))
         (prop dimensions "height").

Definition calculateFitCount (boxDims itemDims : Obj) : option Z :=
  let fitsAlongWidth :=
    nanFloor (nanDiv (prop boxDims "width") (prop itemDims "width")) in
  let fitsAlongLength :=
    nanFloor (nanDiv (prop boxDims "length") (prop itemDims "length")) in
  let fitsAlongHeight :=
    nanFloor (nanDiv (prop boxDims "height") (prop itemDims "height")) in
  nanMulZ (nanMulZ fitsAlongWidth fitsAlongLength) fitsAlongHeight.

Definition calculateUtilization (boxVolume itemVolume itemCount : option Q)
  : option Q :=
  nanDiv (nanMul itemVolume itemCount) boxVolume.

(** [{ w, l, h, name }]. *)
Record Orientation := mkOrientation {
  o_dims : Obj;
  o_name : string
}.

Definition orientationObj (w l h : Q) (name : string) : Orientation :=
  {| o_dims := [("w"%string, w); ("l"%string, l); ("h"%string, h)];
     o_name := name |}.

(** The six orientations built from [itemDims]; a dimension the item does
    not have is outside the model, so the item is given by its three
    numbers. *)
Definition orientationsOf (width length height : Q) : list Orientation :=
  [ orientationObj width length height "standard";
    orientationObj length width height "rotated WL";
    orientationObj width height length "rotated LH";
    orientationObj height width length "rotated HW";
    orientationObj length height width "rotated LH-WL";
    orientationObj height length width "rotated HW-L" ].

(** [{ ...orientation, count }]. *)
Record BestOrientation := mkBestOrientation {
  bo_orientation : Orientation;
  bo_count : Z
}.

(** [count > maxCount]; false when [count] is [NaN]. *)
Definition countGt (count : option Z) (maxCount : Z) : bool :=
  match count with Some c => (maxCount <? c)%Z | None => false end.

(** One call of the [forEach] callback; the state is
    [(maxCount, bestOrientation)]. *)
Definition visitOrientation (boxDims : Obj)
    (state : Z * option BestOrientation) (orientation : Orientation)
  : Z * option BestOrientation :=
  let count := calculateFitCount boxDims (o_dims orientation) in
  if countGt count (fst state) then
    match count with
    | Some c => (c, Some {| bo_orientation := orientation; bo_count := c |})
    | None => state
    end
  else state.

Definition findOptimalOrientation (boxDims : Obj) (width length height : Q)
  : option BestOrientation :=
  snd (fold_left (visitOrientation boxDims)
                 (orientationsOf width length height) (0%Z, None)).

(** The properties of a kit that the functions below read. *)
Record Kit := mkKit {
  kit_sku : string;
  box_volume : Q;
  squished_width : Q;
  squished_length : Q;
  squished_height : Q;
  squished_volume : Q;
  original_volume : Q;
  quantity : Q;
  calc_squishFactor : Q;
  calc_utilizationBox : Q
}.

Record SquishEfficiency := mkSquishEfficiency {
  currentSquishedUtil : option Q;
  theoreticalOriginalUtil : option Q;
  squishBenefit : option Q;
  volumeSavings : Q;
  se_squishFactor : Q
}.

Definition analyzeSquishEfficiency (kit : Kit) : SquishEfficiency :=
  let boxVolume := box_volume kit in
  let squishedVolume := squished_volume kit in
  let originalVolume := original_volume kit in
  let quantity := quantity kit in
  let currentSquishedUtil :=
    calculateUtilization (Some boxVolume) (Some squishedVolume)
                         (Some quantity) in
  let theoreticalOriginalUtil :=
    calculateUtilization (Some boxVolume) (Some originalVolume)
                         (Some quantity) in
  {| currentSquishedUtil := currentSquishedUtil;
     theoreticalOriginalUtil := theoreticalOriginalUtil;
     squishBenefit := nanSub currentSquishedUtil theoreticalOriginalUtil;
     volumeSavings := (originalVolume - squishedVolume) * quantity;
     se_squishFactor := calc_squishFactor kit |}.

Record BetterBox := mkBetterBox {
  bb_dimensions : Obj;
  bb_orientation : string;
  bb_count : Z;
  bb_utilization : option Q;
  bb_improvement : option Q;
  bb_volume : option Q
}.

(** [a > b] and [a >= b] on numbers that may be [NaN]. *)
Definition nanGt (a b : option Q) : bool :=
  match a, b with Some x, Some y => Qgtb x y | _, _ => false end.

(** The body of the innermost loop of [findBetterBoxSize], for one box. *)
Definition considerBox (kit : Kit) (bestOption : option BetterBox)
    (w l h : Q) : option BetterBox :=
  let boxDims := boxObj w l h in
  let orientation :=
    findOptimalOrientation boxDims (squished_width kit) (squished_length kit)
                           (squished_height kit) in
  match orientation with
  | Some o =>
      if Qle_bool (quantity kit) (inject_Z (bo_count o)) then
        let boxVolume := calculateVolume boxDims in
        let util :=
          calculateUtilization boxVolume (Some (squished_volume kit))
                               (Some (quantity kit)) in
        if nanGt util (Some (calc_utilizationBox kit)) then
          if match bestOption with
             | None => true
             | Some b => nanGt util (bb_utilization b)
             end
          then Some {| bb_dimensions := boxDims;
                       bb_orientation := o_name (bo_orientation o);
                       bb_count := bo_count o;
                       bb_utilization := util;
                       bb_improvement :=
                         nanSub util (Some (calc_utilizationBox kit));
                       bb_volume := boxVolume |}
          else bestOption
        else bestOption
      else bestOption
  | None => bestOption
  end.

(** The boxes of the three nested loops, in the order they are visited;
    [None] when the loops do not terminate. *)
Definition sweep (minDim maxDim step : Q) : option (list (Q * Q * Q)) :=
  match forValues (loopFuel minDim maxDim step) minDim maxDim step with
  | None => None
  | Some values =>
      Some (flat_map (fun w =>
              flat_map (fun l => map (fun h => (w, l, h)) values) values)
            values)
  end.

(** [findBetterBoxSize]; the outer [None] is non-termination, the inner one
    is [null]. *)
Definition findBetterBoxSize (kit : Kit) (minDim maxDim step : Q)
  : option (option BetterBox) :=
  match sweep minDim maxDim step with
  | None => None
  | Some boxes =>
      Some (fold_left
              (fun bestOption '(w, l, h) => considerBox kit bestOption w l h)
              boxes None)
  end.

(** [kitData.kits.find(kit => kit.sku === sku)]; the imported kit data
    is a parameter. *)
Definition getKitBySku (kitData : list Kit) (sku : string) : option Kit :=
  find (fun kit => String.eqb (kit_sku kit) sku) kitData.

(** [skuList.map(sku => getKitBySku(sku)).filter(Boolean)]. *)
Definition kitsOf (kitData : list Kit) (skuList : list string) : list Kit :=
  flat_map (fun sku =>
              match getKitBySku kitData sku with
              | Some kit => [kit]
              | None => []
              end)
           skuList.

Record KitResult := mkKitResult {
  kr_sku : string;
  kr_fits : bool;
  kr_count : Z;
  kr_utilization : option Q
}.

(** The loop [for (const kit of kits)] of one box; [None] is the exit by
    [break] with [canFitAll = false], otherwise the accumulated
    [(totalUtilization, skuResults)]. *)
Fixpoint fitAll (boxDims : Obj) (boxVolume : option Q) (kits : list Kit)
    (totalUtilization : option Q) (skuResults : list KitResult)
  : option (option Q * list KitResult) :=
  match kits with
  | [] => Some (totalUtilization, skuResults)
  | kit :: kits' =>
      match findOptimalOrientation boxDims (squished_width kit)
              (squished_length kit) (squished_height kit) with
      | None => None
      | Some o =>
          if Qgtb (quantity kit) (inject_Z (bo_count o)) then None
          else
            let util :=
              calculateUtilization boxVolume (Some (squished_volume kit))
                                   (Some (quantity kit)) in
            fitAll boxDims boxVolume kits'
                   (nanAdd totalUtilization util)
                   (skuResults ++
                    [{| kr_sku := kit_sku kit; kr_fits := true;
                        kr_count := bo_count o; kr_utilization := util |}])
      end
  end.

Record BestBox := mkBestBox {
  best_dimensions : Obj;
  best_avgUtilization : option Q;
  best_volume : option Q;
  best_skuResults : list KitResult
}.

(** The body of the innermost loop of [findOptimalBoxForMultipleSkus]; the
    state is [(bestBox, bestScore)]. *)
Definition considerBoxForAll (kits : list Kit)
    (state : option BestBox * option Q) (w l h : Q)
  : option BestBox * option Q :=
  let boxDims := boxObj w l h in
  let boxVolume := calculateVolume boxDims in
  match fitAll boxDims boxVolume kits (Some 0) [] with
  | Some (totalUtilization, skuResults) =>
      let avgUtilization :=
        nanDiv totalUtilization
               (Some (inject_Z (Z.of_nat (List.length kits)))) in
      if nanGt avgUtilization (snd state) then
        (Some {| best_dimensions := boxDims;
                 best_avgUtilization := avgUtilization;
                 best_volume := boxVolume;
                 best_skuResults := skuResults |}, avgUtilization)
      else state
  | None => state
  end.

(** [findOptimalBoxForMultipleSkus]; the outer [None] is non-termination,
    the inner one is [null]. *)
Definition findOptimalBoxForMultipleSkus (kitData : list Kit)
    (skuList : list string) (options : Options)
  : option (option BestBox) :=
  let minDim := orDefault 14 (minDim options) in
  let maxDim := orDefault 22 (maxDim options) in
  let step := orDefault 1 (step options) in
  let kits := kitsOf kitData skuList in
  match kits with
  | [] => Some None
  | _ =>
      match sweep minDim maxDim step with
      | None => None
      | Some boxes =>
          Some (fst (fold_left
                       (fun state '(w, l, h) =>
                          considerBoxForAll kits state w l h)
                       boxes (None, Some (-1))))
      end
  end.

End KitAnalysis.

(** ** unitConversion.js and units.js *)
Module UnitConversion.

Definition INCH_TO_MM : Q := 25.4.
Definition OZ_TO_G : Q := 28.3495.
Definition LB_TO_KG : Q := 0.453592.

Definition convertToMM (value : Q) (unit : string) : Q :=
  if String.eqb unit "in" then value * INCH_TO_MM
  else if String.eqb unit "mm" then value
  else if String.eqb unit "cm" then value * 10
  else value.

Definition convertFromMM (value : Q) (unit : string) : Q :=
  if String.eqb unit "in" then value / INCH_TO_MM
  else if String.eqb unit "mm" then value
  else if String.eqb unit "cm" then value / 10
  else value.

Definition convertToGrams (value : Q) (unit : string) : Q :=
  if String.eqb unit "oz" then value * OZ_TO_G
  else if String.eqb unit "lb" then value * LB_TO_KG * 1000
  else if String.eqb unit "g" then value
  else if String.eqb unit "kg" then value * 1000
  else value.

Definition convertFromGrams (value : Q) (unit : string) : Q :=
  if String.eqb unit "oz" then value / OZ_TO_G
  else if String.eqb unit "lb" then value / 1000 / LB_TO_KG
  else if String.eqb unit "g" then value
  else if String.eqb unit "kg" then value / 1000
  else value.

(** units.js *)
Definition inToMm (inches : Q) : Q := inches * 25.4.
Definition mmToIn (mm : Q) : Q := mm / 25.4.
Definition ozToG (oz : Q) : Q := oz * 28.3495.
Definition gToOz (g : Q) : Q := g / 28.3495.
Definition lbToKg (lb : Q) : Q := lb * 0.453592.
Definition kgToLb (kg : Q) : Q := kg / 0.453592.
Definition ozToLb (oz : Q) : Q := oz / 16.
Definition lbToOz (lb : Q) : Q := lb * 16.

End UnitConversion.

(** ** The solvers over double-precision numbers *)

(** The functions whose computed lengths are compared below, once more over
    IEEE 754 binary64 numbers: the primitive floating-point numbers, whose
    [+], [-], [*] and [/] round to the nearest double (ties to even) as the
    operators of JavaScript do.  Each definition follows the same source
    lines as its exact counterpart above. *)
Module Doubles.
Import PrimFloat.
Local Open Scope float_scope.
Local Set Warnings "-inexact-float".

Definition two52 : float := 4503599627370496.

(** [Math.floor].  Below [2^52] in magnitude, adding and then removing
    [2^52] (taken with the sign of [x]) leaves an integer next to [x]: its
    floor, or one more.  From [2^52] on every double is an integer;
    infinities, [NaN] and the two zeros are returned as they are. *)
Definition floor (x : float) : float :=
  if x =? 0 then x
  else if abs x <? two52 then
    let r := if 0 <? x then (x + two52) - two52 else (x - two52) + two52 in
    if x <? r then r - 1 else r
  else x.

(** [{ L, W, H }]. *)
Record Dims := mkDims { dimL : float; dimW : float; dimH : float }.

Definition getAxis (d : Dims) (a : Axis) : float :=
  match a with AxL => dimL d | AxW => dimW d | AxH => dimH d end.

(** [solver.squish_pct = { x, y, z }]. *)
Record Squish := mkSquish { sqX : float; sqY : float; sqZ : float }.

(** *** innerPack.js *)

Definition calculateInternalDims (externalDims : Dims) (wallThickness : float)
  : Dims :=
  {| dimL := dimL externalDims - 2 * wallThickness;
     dimW := dimW externalDims - 2 * wallThickness;
     dimH := dimH externalDims - 2 * wallThickness |}.

Record Arrangement := mkArrangement {
  rotation : InnerPack.Rotation;
  nx : float;
  ny : float;
  nz : float;
  count : float;
  utilization : float;
  rotatedDims : Dims;
  adjustedDims : Dims
}.

Definition tryRotation (unitDims internalDims : Dims)
    (rotation : InnerPack.Rotation) (squishPct : Squish) : Arrangement :=
  let '(a0, a1, a2) := InnerPack.rot rotation in
  let rotated :=
    {| dimL := getAxis unitDims a0;
       dimW := getAxis unitDims a1;
       dimH := getAxis unitDims a2 |} in
  let adjusted :=
    {| dimL := dimL rotated * (1 - sqX squishPct);
       dimW := dimW rotated * (1 - sqY squishPct);
       dimH := dimH rotated * (1 - sqZ squishPct) |} in
  let nx := floor (dimL internalDims / dimL adjusted) in
  let ny := floor (dimW internalDims / dimW adjusted) in
  let nz := floor (dimH internalDims / dimH adjusted) in
  let count := nx * ny * nz in
  let usedVolume :=
    count * (dimL adjusted * dimW adjusted * dimH adjusted) in
  let availableVolume :=
    dimL internalDims * dimW internalDims * dimH internalDims in
  let utilization := usedVolume / availableVolume in
  {| rotation := rotation; nx := nx; ny := ny; nz := nz; count := count;
     utilization := utilization;
     rotatedDims := rotated; adjustedDims := adjusted |}.

(** The array [validArrangements] of [findBestArrangement]: the rotations
    with [count > 0].  When it is not empty, the object returned with
    [fits: true] carries the fields of one of its elements. *)
Definition validArrangements (unitDims internalDims : Dims)
    (squishPct : Squish) : list Arrangement :=
  let arrangements :=
    map (fun rotation => tryRotation unitDims internalDims rotation squishPct)
        InnerPack.rotations in
  filter (fun a => 0 <? count a) arrangements.

(** *** palletizer.js *)

Record LayerResult := mkLayer {
  wide : float;
  long : float;
  overhangW : float;
  overhangL : float;
  exceedsOverhang : option bool
}.

Definition flagged (o : LayerResult) : LayerResult :=
  {| wide := wide o; long := long o;
     overhangW := overhangW o; overhangL := overhangL o;
     exceedsOverhang := Some true |}.

Section ColumnPattern.
Variables (caseDims palletDims : Dims) (maxOverhang : float).

Let caseL := dimL caseDims.
Let caseW := dimW caseDims.
Let palletL := dimL palletDims.
Let palletW := dimW palletDims.

Definition option1 : LayerResult :=
  {| wide := floor (palletW / caseW);
     long := floor (palletL / caseL);
     overhangW := palletW - floor (palletW / caseW) * caseW;
     overhangL := palletL - floor (palletL / caseL) * caseL;
     exceedsOverhang := None |}.

Definition option2 : LayerResult :=
  {| wide := floor (palletW / caseL);
     long := floor (palletL / caseW);
     overhangW := palletW - floor (palletW / caseL) * caseL;
     overhangL := palletL - floor (palletL / caseW) * caseW;
     exceedsOverhang := None |}.

Definition withinOverhang (o : LayerResult) : bool :=
  (overhangW o <=? maxOverhang) && (overhangL o <=? maxOverhang).

Definition calculateColumnPattern : LayerResult :=
  let option1Valid := withinOverhang option1 in
  let option2Valid := withinOverhang option2 in
  let option1Count := wide option1 * long option1 in
  let option2Count := wide option2 * long option2 in
  if option1Valid && option2Valid then
    if option2Count <=? option1Count then option1 else option2
  else if option1Valid then option1
  else if option2Valid then option2
  else
    if option2Count <=? option1Count then flagged option1
    else flagged option2.
End ColumnPattern.

(** [palletConfig], with the two properties that are read:
    [pallet] and [solver.max_overhang_in]. *)
Record Config := mkConfig { pallet : Dims; max_overhang_in : float }.

Record PalletStacking := mkStacking {
  pattern : string;
  casesWide : float;
  casesLong : float;
  casesPerLayer : float;
  maxLayers : float;
  totalCases : float;
  palletHeight : float;
  coverage : float;
  stackOverhangW : float;
  stackOverhangL : float;
  stackExceedsOverhang : bool
}.

(** [x || 0]: zero for the two zeros and for [NaN]. *)
Definition orZero (x : float) : float :=
  if (x =? 0) || negb (x =? x) then 0 else x.

(** Every [case] of the [switch] ends in the column pattern. *)
Definition calculatePalletStacking (caseDims : Dims) (palletConfig : Config)
    (targetHeight : float) (pattern : string) : PalletStacking :=
  let pallet := pallet palletConfig in
  let maxOverhang := max_overhang_in palletConfig in
  let layerResult :=
    if String.eqb pattern "brick" then
      calculateColumnPattern caseDims pallet maxOverhang
    else if String.eqb pattern "pinwheel" then
      calculateColumnPattern caseDims pallet maxOverhang
    else if String.eqb pattern "swap-40-48" then
      calculateColumnPattern caseDims pallet maxOverhang
    else
      calculateColumnPattern caseDims pallet maxOverhang in
  let casesPerLayer := wide layerResult * long layerResult in
  let availableHeight := targetHeight - dimH pallet in
  let maxLayers := floor (availableHeight / dimH caseDims) in
  let totalCases := casesPerLayer * maxLayers in
  let actualPalletHeight := dimH pallet + maxLayers * dimH caseDims in
  let palletArea := dimL pallet * dimW pallet in
  let usedArea :=
    (wide layerResult * dimW caseDims) * (long layerResult * dimL caseDims) in
  let coverage := usedArea / palletArea in
  {| pattern := pattern;
     casesWide := wide layerResult;
     casesLong := long layerResult;
     casesPerLayer := casesPerLayer;
     maxLayers := maxLayers;
     totalCases := totalCases;
     palletHeight := actualPalletHeight;
     coverage := coverage;
     stackOverhangW := orZero (overhangW layerResult);
     stackOverhangL := orZero (overhangL layerResult);
     stackExceedsOverhang := Palletizer.orFalse (exceedsOverhang layerResult) |}.

(** *** multiSkuOptimizer.js *)

(** The values a loop [for (let x = x0; x <= maxDim; x += step)] runs its
    body with; [None] when [fuel] iterations do not end it. *)
Fixpoint forValues (fuel : nat) (x maxDim step : float)
  : option (list float) :=
  if x <=? maxDim then
    match fuel with
    | O => None
    | S fuel' => option_map (cons x) (forValues fuel' (x + step) maxDim step)
    end
  else Some [].

(** [Math.max] of two numbers, [NaN] when one of them is; of two zeros the
    first is kept, which no comparison tells from the other. *)
Definition max2 (a b : float) : float :=
  if negb (a =? a) then a
  else if negb (b =? b) then b
  else if a <? b then b else a.

Definition aspectOk (d : Dims) : bool :=
  let maxRatio :=
    fold_left max2
      [dimW d / dimL d; dimL d / dimH d; dimH d / dimL d;
       dimW d / dimH d; dimH d / dimW d]
      (dimL d / dimW d) in
  maxRatio <=? 2.

(** The three nested loops run over the same values, each loop for at most
    [fuel] iterations. *)
Definition generateCandidateDimensions (fuel : nat)
    (minDim maxDim step : float) : option (list Dims) :=
  match forValues fuel minDim maxDim step with
  | None => None
  | Some values =>
      Some (flat_map (fun l =>
              flat_map (fun w =>
                flat_map (fun h =>
                  let d := {| dimL := l; dimW := w; dimH := h |} in
                  if aspectOk d then [d] else [])
                values)
              values)
            values)
  end.

(** *** unitConversion.js and units.js *)

Definition OZ_TO_G : float := 28.3495.
Definition LB_TO_KG : float := 0.453592.

Definition convertToGrams (value : float) (unit : string) : float :=
  if String.eqb unit "oz" then value * OZ_TO_G
  else if String.eqb unit "lb" then value * LB_TO_KG * 1000
  else if String.eqb unit "g" then value
  else if String.eqb unit "kg" then value * 1000
  else value.

Definition inToMm (inches : float) : float := inches * 25.4.
Definition mmToIn (mm : float) : float := mm / 25.4.

End Doubles.

(** * Derived views of the inputs and of the search *)
Section Views.
Import InnerPack MultiSku.

(** The unit and the internal box [InnerPack.findBestArrangement] works
    with. *)
Definition unitDimsOf (sku : Sku) : Dims :=
  {| dimL := skuL sku; dimW := skuW sku; dimH := skuH sku |}.

Definition internalOf (config : Config) : Dims :=
  calculateInternalDims (external (masterpack config))
                        (wall_thickness_in (masterpack config)).

(** A product fits the candidate box [d]: the test [scoreBoxCandidate]
    makes for every product. *)
Definition fitsIn (config : Config) (d : Dims) (sku : Sku) : bool :=
  fits (findBestArrangement sku (testConfig config d)).

(** The candidates that pass the filter of [findOptimalMasterpack]. *)
Definition keptCandidates (skus : list Sku) (config : Config)
    (candidates : list Dims) : list Candidate :=
  sortDesc sortKey
    (filter (fun c => nanGt0 (candScore c))
            (map (scoreCandidate skus config) candidates)).

Definition rangeOf (options : Options) : Q * Q * Q :=
  (orDefault 12 (minDim options), orDefault 24 (maxDim options),
   orDefault 1 (step options)).

Definition candidatesOf (options : Options) : option (list Dims) :=
  let '(lo, hi, st) := rangeOf options in generateCandidateDimensions lo hi st.

End Views.

(** What the loop of [MasterpackOptimizer.findBestArrangement] keeps true
    of its state [(bestArrangement, bestScore)] after the orientations
    [done]. *)
Definition loopInvariant (sku : MasterpackOptimizer.SkuEntry)
    (internal : Dims) (targetMultiples : list Z) (first : Z)
    (done : list (Axis * Axis * Axis))
    (state : option MasterpackOptimizer.Best * Q) : Prop :=
  let unitsOf o :=
    MasterpackOptimizer.calculateUnitsPerOrientation
      (MasterpackOptimizer.orient (MasterpackOptimizer.unitDims sku) o)
      internal MasterpackOptimizer.noSquish in
  let scoreOf o :=
    MasterpackOptimizer.orientationScore targetMultiples first (unitsOf o) in
  -1 <= snd state /\
  (forall o, In o done -> (0 < MasterpackOptimizer.count (unitsOf o))%Z ->
             scoreOf o <= snd state) /\
  match fst state with
  | None => snd state == -1
  | Some b =>
      In (MasterpackOptimizer.orientation b) done /\
      MasterpackOptimizer.units b = unitsOf (MasterpackOptimizer.orientation b) /\
      (0 < MasterpackOptimizer.count (MasterpackOptimizer.units b))%Z /\
      MasterpackOptimizer.best_sku b = MasterpackOptimizer.entry_sku sku /\
      MasterpackOptimizer.best_score b
      = scoreOf (MasterpackOptimizer.orientation b) /\
      snd state = MasterpackOptimizer.best_score b /\
      -1 < MasterpackOptimizer.best_score b
  end.

(** * Sample inputs *)

(** A configuration with a 48 x 40 pallet footprint, used by the concrete
    instances below. *)
Definition samplePallet : Dims := {| dimL := 48; dimW := 40; dimH := 5 |}.

Definition sampleSolver : Solver :=
  {| squish_pct := {| sqX := 0; sqY := 0; sqZ := 0 |};
     prefer_multiples_of := 6;
     max_overhang_in := 0.5;
     allow_patterns := None |}.

Definition sampleConfig (ext : Dims) (wall : Q) : Config :=
  {| masterpack :=
       {| external := ext; wall_thickness_in := wall; tare_lb := 2 |};
     solver := sampleSolver;
     pallet := samplePallet |}.

Definition sampleSku (l w h : Q) (baseline : option Q) : Sku :=
  {| sku_id := "KIT"; skuL := l; skuW := w; skuH := h; oz := 16;
     current_baseline := baseline |}.

(** Closed comparisons of rationals and integers are settled by
    evaluation. *)
Ltac by_evaluation :=
  repeat split;
  first [ reflexivity | discriminate
        | vm_compute; reflexivity | vm_compute; discriminate ].

(** * Comparisons and sorting *)

Lemma Qgtb_true (a b : Q) : Qgtb a b = true <-> b < a.
Proof.
  unfold Qgtb. rewrite negb_true_iff.
  split; intros E.
  - apply Qnot_le_lt. intros C. apply Qle_bool_iff in C. congruence.
  - destruct (Qle_bool a b) eqn:C; [|reflexivity].
    apply Qle_bool_iff in C. apply Qle_not_lt in C. contradiction.
Qed.

Lemma Qgtb_false (a b : Q) : Qgtb a b = false <-> a <= b.
Proof.
  unfold Qgtb. rewrite negb_false_iff. apply Qle_bool_iff.
Qed.

Section SortFacts.
Context {A : Type} (key : A -> Q).

Lemma insertDesc_In (x y : A) (l : list A) :
  In y (insertDesc key x l) <-> y = x \/ In y l.
Proof.
  induction l as [|z l IH]; simpl.
  - intuition.
  - destruct (Qle_bool (key z) (key x)); simpl; [intuition|].
    rewrite IH. intuition.
Qed.

Lemma sortDesc_In (y : A) (l : list A) : In y (sortDesc key l) <-> In y l.
Proof.
  induction l as [|x l IH]; simpl; [tauto|].
  rewrite insertDesc_In, IH. intuition.
Qed.

Lemma insertDesc_length (x : A) (l : list A) :
  List.length (insertDesc key x l) = S (List.length l).
Proof.
  induction l as [|z l IH]; simpl; [reflexivity|].
  destruct (Qle_bool (key z) (key x)); simpl; congruence.
Qed.

Lemma sortDesc_length (l : list A) : List.length (sortDesc key l) = List.length l.
Proof.
  induction l as [|x l IH]; simpl; [reflexivity|].
  rewrite insertDesc_length. congruence.
Qed.

Lemma sortDesc_nil (l : list A) : sortDesc key l = [] <-> l = [].
Proof.
  split; intros E.
  - apply length_zero_iff_nil. rewrite <- sortDesc_length, E. reflexivity.
  - subst. reflexivity.
Qed.
(** The result is in descending order of [key]. *)
Lemma insertDesc_sorted (x : A) (l : list A) :
  StronglySorted (fun a b => key b <= key a) l ->
  StronglySorted (fun a b => key b <= key a) (insertDesc key x l).
Proof.
  induction l as [|y l IH]; intros Hs; simpl.
  - constructor; constructor.
  - inversion Hs as [|? ? Hl Hy]; subst.
    destruct (Qle_bool (key y) (key x)) eqn:E.
    + apply Qle_bool_iff in E. constructor; [exact Hs|].
      constructor; [exact E|].
      rewrite Forall_forall in Hy |- *. intros z Hz.
      eapply Qle_trans; [apply Hy; exact Hz | exact E].
    + assert (Hxy : key x <= key y).
      { apply Qlt_le_weak. apply Qnot_le_lt. intros C.
        apply Qle_bool_iff in C. congruence. }
      constructor; [apply IH; exact Hl|].
      rewrite Forall_forall in Hy |- *. intros z Hz.
      apply insertDesc_In in Hz. destruct Hz as [->|Hz];
        [exact Hxy | apply Hy; exact Hz].
Qed.

Lemma sortDesc_sorted (l : list A) :
  StronglySorted (fun a b => key b <= key a) (sortDesc key l).
Proof.
  induction l as [|x l IH]; simpl; [constructor|].
  apply insertDesc_sorted. exact IH.
Qed.

(** The first element of the sorted array has the greatest key. *)
Lemma sortDesc_head_greatest (l : list A) (x y : A) :
  hd_error (sortDesc key l) = Some x -> In y l -> key y <= key x.
Proof.
  intros Hx Hy. apply sortDesc_In in Hy.
  pose proof (sortDesc_sorted l) as Hs.
  destruct (sortDesc key l) as [|z t]; [discriminate|].
  simpl in Hx. injection Hx as ->.
  inversion Hs as [|? ? _ Hall]; subst.
  destruct Hy as [->|Hy]; [apply Qle_refl|].
  rewrite Forall_forall in Hall. apply Hall. exact Hy.
Qed.

End SortFacts.

(** * Layer planning *)
Section LayerPlanning.
Import Palletizer.

Lemma withinOverhang_mono (m1 m2 : Q) (o : LayerResult) :
  m1 <= m2 -> withinOverhang m1 o = true -> withinOverhang m2 o = true.
Proof.
  unfold withinOverhang. intros Hm.
  rewrite !andb_true_iff, !Qle_bool_iff.
  intros [HW HL]. split; eapply Qle_trans; eassumption.
Qed.


Lemma layerCount_flagged (o : LayerResult) :
  layerCount (flagged o) = layerCount o.
Proof. reflexivity. Qed.

(** The four outcomes of [calculateColumnPattern], by validity of the two
    orientations. *)
Lemma calculateColumnPattern_cases (c p : Dims) (m : Q) :
  let o1 := option1 c p in
  let o2 := option2 c p in
  let r := calculateColumnPattern c p m in
  (withinOverhang m o1 = true /\ withinOverhang m o2 = true /\
   ((layerCount o2 <= layerCount o1)%Z /\ r = o1 \/
    (layerCount o1 < layerCount o2)%Z /\ r = o2)) \/
  (withinOverhang m o1 = true /\ withinOverhang m o2 = false /\ r = o1) \/
  (withinOverhang m o1 = false /\ withinOverhang m o2 = true /\ r = o2) \/
  (withinOverhang m o1 = false /\ withinOverhang m o2 = false /\
   ((layerCount o2 <= layerCount o1)%Z /\ r = flagged o1 \/
    (layerCount o1 < layerCount o2)%Z /\ r = flagged o2)).
Proof.
  cbv zeta. unfold calculateColumnPattern.
  destruct (withinOverhang m (option1 c p)) eqn:V1,
           (withinOverhang m (option2 c p)) eqn:V2; simpl;
    try (destruct (Z.geb_spec (layerCount (option1 c p))
                              (layerCount (option2 c p))));
    intuition lia.
Qed.


(** C7 fails as stated: for a 5 x 7 case on the 48 x 40 pallet, no
    orientation is within an overhang limit of 0, so the fall-back returns
    the 8 x 6 = 48 plan; with the limit raised to 5 only the 5 x 9 = 45 plan
    is within the limit and is returned. *)
Lemma overhang_monotonicity_counterexample :
  ~ (forall (c p : Dims) (m1 m2 : Q),
        0 < dimL c -> 0 < dimW c -> 0 < dimL p -> 0 < dimW p ->
        m1 <= m2 ->
        (layerCount (calculateColumnPattern c p m1)
         <= layerCount (calculateColumnPattern c p m2))%Z).
Proof.
  intros Hmono.
  specialize (Hmono {| dimL := 5; dimW := 7; dimH := 1 |} samplePallet 0 5).
  assert (Hc : (48 <= 45)%Z).
  { apply Hmono; reflexivity || discriminate. }
  lia.
Qed.

(** C7, amended: raising the overhang limit from [m1] to [m2] never lowers
    the container count of the chosen layer plan when the plan chosen at
    [m1] is within the limit (not a flagged fall-back), or when the plan
    chosen at [m2] is still a flagged fall-back. *)
Theorem overhang_monotone_unless_fallback (c p : Dims) (m1 m2 : Q) :
  0 < dimL c -> 0 < dimW c -> 0 < dimL p -> 0 < dimW p ->
  m1 <= m2 ->
  exceedsOverhang (calculateColumnPattern c p m1) = None \/
  exceedsOverhang (calculateColumnPattern c p m2) = Some true ->
  (layerCount (calculateColumnPattern c p m1)
   <= layerCount (calculateColumnPattern c p m2))%Z.
Proof.
  intros _ _ _ _ Hm Hflag.
  pose proof (withinOverhang_mono m1 m2 (option1 c p) Hm) as M1.
  pose proof (withinOverhang_mono m1 m2 (option2 c p) Hm) as M2.
  destruct (calculateColumnPattern_cases c p m1)
    as [(V1 & V2 & [[Hc E]|[Hc E]])
       |[(V1 & V2 & E)
       |[(V1 & V2 & E)
       |(V1 & V2 & [[Hc E]|[Hc E]])]]];
  destruct (calculateColumnPattern_cases c p m2)
    as [(V1' & V2' & [[Hc' E']|[Hc' E']])
       |[(V1' & V2' & E')
       |[(V1' & V2' & E')
       |(V1' & V2' & [[Hc' E']|[Hc' E']])]]];
  rewrite E, E' in *; rewrite ?layerCount_flagged;
  try (specialize (M1 V1)); try (specialize (M2 V2));
  try congruence; try lia;
  simpl in Hflag; destruct Hflag; congruence.
Qed.

Lemma overhang_monotone_unless_fallback_witness :
  (layerCount (calculateColumnPattern
                 {| dimL := 20; dimW := 15; dimH := 14 |} samplePallet 3)
   <= layerCount (calculateColumnPattern
                    {| dimL := 20; dimW := 15; dimH := 14 |} samplePallet 10))%Z.
Proof.
  apply (overhang_monotone_unless_fallback
           {| dimL := 20; dimW := 15; dimH := 14 |} samplePallet 3 10);
    try reflexivity.
  - discriminate.
  - left. reflexivity.
Defined.

(** C9: with the pattern ['brick'], ['pinwheel'] or ['swap-40-48'],
    [calculatePalletStacking] returns the result of the ['column'] pattern
    in every field but the pattern identifier. *)
Theorem placeholder_patterns_are_column (caseDims : Dims)
    (palletConfig : Config) (targetHeight : Q) :
  let column :=
    calculatePalletStacking caseDims palletConfig targetHeight "column" in
  calculatePalletStacking caseDims palletConfig targetHeight "brick"
  = withPattern "brick" column /\
  calculatePalletStacking caseDims palletConfig targetHeight "pinwheel"
  = withPattern "pinwheel" column /\
  calculatePalletStacking caseDims palletConfig targetHeight "swap-40-48"
  = withPattern "swap-40-48" column.
Proof. repeat split. Qed.

End LayerPlanning.

(** * Floor division of lengths *)

Lemma floor_div_mul_le (x a : Q) :
  0 < a -> inject_Z (Qfloor (x / a)) * a <= x.
Proof.
  intros Ha.
  assert (E : x == x / a * a) by (field; lra).
  rewrite E at 2.
  apply Qmult_le_compat_r; [apply Qfloor_le | lra].
Qed.

Lemma floor_div_nonneg (x a : Q) :
  0 <= x -> 0 < a -> (0 <= Qfloor (x / a))%Z.
Proof.
  intros Hx Ha.
  change 0%Z with (Qfloor 0).
  apply Qfloor_resp_le.
  apply Qle_shift_div_l; lra.
Qed.

Lemma floor_div_nonpos (x a : Q) :
  x <= 0 -> 0 < a -> (Qfloor (x / a) <= 0)%Z.
Proof.
  intros Hx Ha.
  change 0%Z with (Qfloor 0).
  apply Qfloor_resp_le.
  apply Qle_shift_div_r; lra.
Qed.

Lemma floor_div_neg (x a : Q) :
  x < 0 -> 0 < a -> (Qfloor (x / a) < 0)%Z.
Proof.
  intros Hx Ha.
  assert (Hq : x / a < 0) by (apply Qlt_shift_div_r; lra).
  pose proof (Qfloor_le (x / a)) as Hf.
  assert (Hz : inject_Z (Qfloor (x / a)) < 0).
  { eapply Qle_lt_trans; eassumption. }
  change 0 with (inject_Z 0) in Hz.
  rewrite <- Zlt_Qlt in Hz. exact Hz.
Qed.

Lemma inject_Z_pos (n : Z) : (0 < n)%Z -> 0 < inject_Z n.
Proof. intros Hn. change 0 with (inject_Z 0). rewrite <- Zlt_Qlt. exact Hn. Qed.

Lemma inject_Z_nonneg (n : Z) : (0 <= n)%Z -> 0 <= inject_Z n.
Proof. intros Hn. change 0 with (inject_Z 0). rewrite <- Zle_Qle. exact Hn. Qed.

(** A box of three non-negative sides, each within its bound, has a volume
    within the product of the bounds. *)
Lemma volume_le (x y z a b c : Q) :
  0 <= x -> x <= a -> 0 <= y -> y <= b -> 0 <= z -> z <= c ->
  x * y * z <= a * b * c.
Proof.
  intros Hx Hxa Hy Hyb Hz Hzc.
  assert (H1 : x * y <= a * b) by nra.
  assert (H2 : 0 <= x * y) by nra.
  nra.
Qed.

Lemma area_le (x y a b : Q) :
  0 <= x -> x <= a -> 0 <= y -> y <= b -> x * y <= a * b.
Proof. intros. nra. Qed.

(** A length fits at least once exactly when it is within the bound. *)
Lemma floor_ge_one (x a : Q) :
  0 < a -> ((1 <= Qfloor (x / a))%Z <-> a <= x).
Proof.
  intros Ha. split; intros H.
  - pose proof (floor_div_mul_le x a Ha) as Hm.
    assert (H1 : 1 <= inject_Z (Qfloor (x / a))).
    { change 1 with (inject_Z 1). rewrite <- Zle_Qle. exact H. }
    nra.
  - change 1%Z with (Qfloor 1). apply Qfloor_resp_le.
    apply Qle_shift_div_l; lra.
Qed.

(** * Pallet fit *)
Section PalletFit.
Import MultiSku.

(** C4: a 20 x 15 x 14 box on the 48 x 40 footprint gives 4 boxes in the
    unrotated layer and 6 in the rotated one, interlocking is feasible and
    [avgCoverage] is the mean of the used-area ratios of the two layers.
    For every box and pallet, the two layer counts are the products of the
    floored quotients of the pallet extents by the box extents (unrotated,
    and turned by 90 degrees), each coverage is the used area of its layer
    over the pallet area, and [canInterlock] holds exactly when each layer
    places at least one box; for positive extents that is exactly when the
    box lies within the footprint both unrotated and turned. *)
Theorem checkPalletFit_interlocking :
  (forall ph : Q,
     let fit :=
       checkPalletFit {| dimL := 20; dimW := 15; dimH := 14 |}
                      {| dimL := 48; dimW := 40; dimH := ph |} in
     layer1Count fit = (Qfloor (48 / 20) * Qfloor (40 / 15))%Z /\
     layer1Count fit = 4%Z /\
     layer2Count fit = (Qfloor (48 / 15) * Qfloor (40 / 20))%Z /\
     layer2Count fit = 6%Z /\
     canInterlock fit = true /\
     layer1Coverage fit == 4 * (20 * 15) / (48 * 40) /\
     layer2Coverage fit == 6 * (15 * 20) / (48 * 40) /\
     avgCoverage fit == (layer1Coverage fit + layer2Coverage fit) / 2) /\
  (forall boxDims palletDims : Dims,
     let fit := checkPalletFit boxDims palletDims in
     let layer1Wide := Qfloor (dimW palletDims / dimW boxDims) in
     let layer1Long := Qfloor (dimL palletDims / dimL boxDims) in
     let layer2Wide := Qfloor (dimW palletDims / dimL boxDims) in
     let layer2Long := Qfloor (dimL palletDims / dimW boxDims) in
     layer1Count fit = (layer1Wide * layer1Long)%Z /\
     layer2Count fit = (layer2Wide * layer2Long)%Z /\
     layer1Coverage fit
     = (inject_Z layer1Wide * dimW boxDims * inject_Z layer1Long
        * dimL boxDims) / (dimL palletDims * dimW palletDims) /\
     layer2Coverage fit
     = (inject_Z layer2Wide * dimL boxDims * inject_Z layer2Long
        * dimW boxDims) / (dimL palletDims * dimW palletDims) /\
     (canInterlock fit = true <->
      (1 <= layer1Count fit)%Z /\ (1 <= layer2Count fit)%Z) /\
     avgCoverage fit = (layer1Coverage fit + layer2Coverage fit) / 2) /\
  (forall boxDims palletDims : Dims,
     0 < dimL boxDims -> 0 < dimW boxDims ->
     0 < dimL palletDims -> 0 < dimW palletDims ->
     (canInterlock (checkPalletFit boxDims palletDims) = true <->
      (dimW boxDims <= dimW palletDims /\ dimL boxDims <= dimL palletDims) /\
      (dimL boxDims <= dimW palletDims /\ dimW boxDims <= dimL palletDims))).
Proof.
  split; [|split].
  - intros ph. cbv zeta. repeat split; reflexivity.
  - intros boxDims palletDims. cbv zeta.
    split; [reflexivity|]. split; [reflexivity|].
    split; [reflexivity|]. split; [reflexivity|]. split; [|reflexivity].
    unfold checkPalletFit. cbn [canInterlock layer1Count layer2Count].
    rewrite andb_true_iff, !Z.ltb_lt. lia.
  - intros boxDims palletDims HbL HbW HpL HpW.
    unfold checkPalletFit. cbn [canInterlock].
    rewrite andb_true_iff, !Z.ltb_lt.
    rewrite <- (floor_ge_one (dimW palletDims) (dimW boxDims) HbW).
    rewrite <- (floor_ge_one (dimL palletDims) (dimL boxDims) HbL).
    rewrite <- (floor_ge_one (dimW palletDims) (dimL boxDims) HbL).
    rewrite <- (floor_ge_one (dimL palletDims) (dimW boxDims) HbW).
    pose proof (floor_div_nonneg (dimW palletDims) (dimW boxDims)) as N1.
    pose proof (floor_div_nonneg (dimL palletDims) (dimL boxDims)) as N2.
    pose proof (floor_div_nonneg (dimW palletDims) (dimL boxDims)) as N3.
    pose proof (floor_div_nonneg (dimL palletDims) (dimW boxDims)) as N4.
    assert (0 <= dimW palletDims) by lra.
    assert (0 <= dimL palletDims) by lra.
    specialize (N1 ltac:(assumption) HbW).
    specialize (N2 ltac:(assumption) HbL).
    specialize (N3 ltac:(assumption) HbL).
    specialize (N4 ltac:(assumption) HbW).
    nia.
Qed.

Lemma checkPalletFit_interlocking_witness :
  canInterlock (checkPalletFit {| dimL := 20; dimW := 15; dimH := 14 |}
                               samplePallet) = true <->
  (15 <= 40 /\ 20 <= 48) /\ (20 <= 40 /\ 15 <= 48).
Proof.
  apply (proj2 (proj2 checkPalletFit_interlocking)
           {| dimL := 20; dimW := 15; dimH := 14 |} samplePallet);
    reflexivity.
Defined.

End PalletFit.

(** * Unit arrangement *)
Section UnitArrangement.
Import InnerPack.

(** The grid computed for one rotation, given the adjusted extents. *)
Lemma tryRotation_grid (u i : Dims) (r : Rotation) (s : Squish) :
  let a := tryRotation u i r s in
  let adj := adjustedDims a in
  nx a = Qfloor (dimL i / dimL adj) /\
  ny a = Qfloor (dimW i / dimW adj) /\
  nz a = Qfloor (dimH i / dimH adj) /\
  count a = (nx a * ny a * nz a)%Z /\
  utilization a =
    inject_Z (count a) * (dimL adj * dimW adj * dimH adj)
    / (dimL i * dimW i * dimH i).
Proof. destruct r; repeat split. Qed.

Lemma tryRotation_adjusted_pos (u i : Dims) (r : Rotation) (s : Squish) :
  posDims u -> okSquish s -> posDims (adjustedDims (tryRotation u i r s)).
Proof.
  intros (HL & HW & HH) (X1 & Y1 & Z1).
  destruct r; unfold posDims; simpl; repeat split; nra.
Qed.

(** Utilization of a grid of [nx * ny * nz] cells of positive size cut by
    floor division out of a positive box. *)
Lemma grid_utilization (iL iW iH aL aW aH : Q) :
  0 < iL -> 0 < iW -> 0 < iH -> 0 < aL -> 0 < aW -> 0 < aH ->
  let nx := Qfloor (iL / aL) in
  let ny := Qfloor (iW / aW) in
  let nz := Qfloor (iH / aH) in
  (0 < nx * ny * nz)%Z ->
  let u := inject_Z (nx * ny * nz) * (aL * aW * aH) / (iL * iW * iH) in
  0 < u /\ u <= 1.
Proof.
  intros HiL HiW HiH HaL HaW HaH nx ny nz Hcount u.
  assert (Hx0 : (0 <= nx)%Z) by (apply floor_div_nonneg; lra).
  assert (Hy0 : (0 <= ny)%Z) by (apply floor_div_nonneg; lra).
  assert (Hz0 : (0 <= nz)%Z) by (apply floor_div_nonneg; lra).
  assert (Hx1 : (0 < nx)%Z) by nia.
  assert (Hy1 : (0 < ny)%Z) by nia.
  assert (Hz1 : (0 < nz)%Z) by nia.
  pose proof (floor_div_mul_le iL aL HaL) as Bx.
  pose proof (floor_div_mul_le iW aW HaW) as By.
  pose proof (floor_div_mul_le iH aH HaH) as Bz.
  fold nx in Bx. fold ny in By. fold nz in Bz.
  pose proof (inject_Z_pos nx Hx1) as Px.
  pose proof (inject_Z_pos ny Hy1) as Py.
  pose proof (inject_Z_pos nz Hz1) as Pz.
  set (X := inject_Z nx * aL) in *.
  set (Y := inject_Z ny * aW) in *.
  set (Z := inject_Z nz * aH) in *.
  assert (PX : 0 < X) by (unfold X; nra).
  assert (PY : 0 < Y) by (unfold Y; nra).
  assert (PZ : 0 < Z) by (unfold Z; nra).
  assert (Enum : inject_Z (nx * ny * nz) * (aL * aW * aH) == X * Y * Z).
  { rewrite !inject_Z_mult. unfold X, Y, Z. ring. }
  assert (Pden : 0 < iL * iW * iH).
  { assert (0 < iL * iW) by nra. nra. }
  assert (Pnum : 0 < X * Y * Z).
  { assert (0 < X * Y) by nra. nra. }
  assert (Hle : X * Y * Z <= iL * iW * iH).
  { apply volume_le; lra. }
  unfold u. rewrite Enum. split.
  - apply Qlt_shift_div_l; lra.
  - apply Qle_shift_div_r; lra.
Qed.

Lemma tryRotation_utilization (u i : Dims) (r : Rotation) (s : Squish) :
  posDims u -> okSquish s -> posDims i ->
  let a := tryRotation u i r s in
  (0 < count a)%Z -> 0 < utilization a /\ utilization a <= 1.
Proof.
  intros Hu Hs (HiL & HiW & HiH) a Hc.
  destruct (tryRotation_adjusted_pos u i r s Hu Hs) as (AL & AW & AH).
  destruct (tryRotation_grid u i r s) as (Ex & Ey & Ez & Ec & Eu).
  fold a in AL, AW, AH, Ex, Ey, Ez, Ec, Eu.
  rewrite Eu, Ec, Ex, Ey, Ez.
  apply grid_utilization; try assumption.
  rewrite <- Ex, <- Ey, <- Ez, <- Ec. exact Hc.
Qed.

(** With positive extents every per-axis count is non-negative, so a
    positive total is a positive count on every axis. *)
Lemma tryRotation_counts_nonneg (u i : Dims) (r : Rotation) (s : Squish) :
  posDims u -> okSquish s -> posDims i ->
  let a := tryRotation u i r s in
  (0 <= nx a)%Z /\ (0 <= ny a)%Z /\ (0 <= nz a)%Z.
Proof.
  intros Hu Hs (HiL & HiW & HiH) a.
  destruct (tryRotation_adjusted_pos u i r s Hu Hs) as (AL & AW & AH).
  destruct (tryRotation_grid u i r s) as (Ex & Ey & Ez & _).
  fold a in AL, AW, AH, Ex, Ey, Ez.
  rewrite Ex, Ey, Ez.
  repeat split; apply floor_div_nonneg; lra.
Qed.

(** The head of a non-empty list, whatever the default. *)
Lemma hd_In {A : Type} (d : A) (l : list A) : l <> [] -> In (hd d l) l.
Proof. destruct l; [congruence | intros _; left; reflexivity]. Qed.

(** What [findBestArrangement] returns: [NoFit] when no rotation has a
    positive count, and otherwise one of the rotations with a positive
    count. *)
Lemma findBestArrangement_NoFit (sku : Sku) (config : Config) :
  (forall r, (count (tryRotation (unitDimsOf sku) (internalOf config) r
                                 (squish_pct (solver config))) <= 0)%Z) ->
  findBestArrangement sku config
  = NoFit "SKU dimensions too large for masterpack"
          (findFailingAxis (unitDimsOf sku) (internalOf config)).
Proof.
  intros Hall. unfold findBestArrangement.
  fold (unitDimsOf sku). fold (internalOf config).
  assert (E : forall l,
             filter (fun a => (0 <? count a)%Z)
               (map (fun rotation =>
                       tryRotation (unitDimsOf sku) (internalOf config)
                                   rotation (squish_pct (solver config))) l)
             = []).
  { induction l as [|r l IH]; simpl; [reflexivity|].
    destruct (Z.ltb_spec 0 (count (tryRotation (unitDimsOf sku)
                (internalOf config) r (squish_pct (solver config)))))
      as [Hpos|_]; [specialize (Hall r); lia | exact IH]. }
  rewrite E. reflexivity.
Qed.

Lemma findBestArrangement_Fits (sku : Sku) (config : Config) (f : Fit) :
  findBestArrangement sku config = Fits f ->
  exists r,
    best f = tryRotation (unitDimsOf sku) (internalOf config) r
                         (squish_pct (solver config)) /\
    (0 < count (best f))%Z.
Proof.
  unfold findBestArrangement.
  fold (unitDimsOf sku). fold (internalOf config).
  set (arrs := map _ rotations).
  set (valid := filter _ arrs).
  set (scored := map _ valid).
  destruct valid as [|first rest] eqn:Ev; [discriminate|].
  set (d := (first, scoreArrangement first (prefer_multiples_of (solver config)))).
  assert (Hin : In (hd d (sortDesc snd scored)) scored).
  { apply (sortDesc_In snd). apply hd_In.
    rewrite sortDesc_nil. unfold scored. discriminate. }
  destruct (hd d (sortDesc snd scored)) as [b sc] eqn:Eh.
  intros E. injection E as E. subst f. cbn [best].
  unfold scored in Hin. apply in_map_iff in Hin.
  destruct Hin as (a & Ea & Ha). injection Ea as -> _.
  assert (Hv : In b valid) by (rewrite Ev; exact Ha).
  unfold valid in Hv. apply filter_In in Hv. destruct Hv as [Hb Hc].
  unfold arrs in Hb. apply in_map_iff in Hb.
  destruct Hb as (r & <- & _).
  exists r. split; [reflexivity|]. apply Z.ltb_lt. exact Hc.
Qed.

End UnitArrangement.

(** * Coverage of a pallet layer *)
Section Coverage.
Import Palletizer.

(** Every pattern identifier selects the column layer plan. *)
Lemma layer_of_every_pattern (c : Dims) (cfg : Config) (t : Q) (p : string) :
  let s := calculatePalletStacking c cfg t p in
  let r := calculateColumnPattern c (pallet cfg) (max_overhang_in (solver cfg)) in
  casesWide s = wide r /\ casesLong s = long r /\
  coverage s =
    (inject_Z (wide r) * dimW c) * (inject_Z (long r) * dimL c)
    / (dimL (pallet cfg) * dimW (pallet cfg)).
Proof.
  cbv zeta. unfold calculatePalletStacking.
  unfold calculateBrickPattern, calculatePinwheelPattern,
    calculateSwap4048Pattern.
  destruct (String.eqb p "brick"), (String.eqb p "pinwheel"),
    (String.eqb p "swap-40-48"); repeat split.
Qed.

Lemma covered_area_bounds (n1 n2 : Z) (s1 s2 b1 b2 : Q) :
  (1 <= n1)%Z -> (1 <= n2)%Z -> 0 < s1 -> 0 < s2 ->
  inject_Z n1 * s1 <= b1 -> inject_Z n2 * s2 <= b2 ->
  0 < (inject_Z n1 * s1) * (inject_Z n2 * s2) /\
  (inject_Z n1 * s1) * (inject_Z n2 * s2) <= b1 * b2.
Proof.
  intros H1 H2 P1 P2 B1 B2.
  assert (Q1 : 0 < inject_Z n1) by (apply inject_Z_pos; lia).
  assert (Q2 : 0 < inject_Z n2) by (apply inject_Z_pos; lia).
  assert (X : 0 < inject_Z n1 * s1) by nra.
  assert (Y : 0 < inject_Z n2 * s2) by nra.
  split; [nra | apply area_le; lra].
Qed.

Lemma stacking_coverage_bounds (c : Dims) (cfg : Config) (t : Q) (p : string) :
  0 < dimL c -> 0 < dimW c ->
  0 < dimL (pallet cfg) -> 0 < dimW (pallet cfg) ->
  let s := calculatePalletStacking c cfg t p in
  (1 <= casesWide s)%Z -> (1 <= casesLong s)%Z ->
  0 < coverage s /\ coverage s <= 1.
Proof.
  intros HcL HcW HpL HpW s.
  destruct (layer_of_every_pattern c cfg t p) as (Ew & El & Ec).
  fold s in Ew, El, Ec. rewrite Ew, El, Ec. clear Ew El Ec s.
  set (pal := pallet cfg) in *.
  set (m := max_overhang_in (solver cfg)).
  assert (Pden : 0 < dimL pal * dimW pal) by nra.
  assert (Hr : (wide (calculateColumnPattern c pal m) = wide (option1 c pal) /\
                long (calculateColumnPattern c pal m) = long (option1 c pal)) \/
               (wide (calculateColumnPattern c pal m) = wide (option2 c pal) /\
                long (calculateColumnPattern c pal m) = long (option2 c pal))).
  { destruct (calculateColumnPattern_cases c pal m)
      as [(_ & _ & [[_ E]|[_ E]])
         |[(_ & _ & E)
         |[(_ & _ & E)
         |(_ & _ & [[_ E]|[_ E]])]]]; rewrite E; simpl; tauto. }
  destruct Hr as [[-> ->]|[-> ->]]; simpl; intros Hw Hl.
  - destruct (covered_area_bounds _ _ (dimW c) (dimL c) (dimW pal) (dimL pal)
                Hw Hl HcW HcL
                (floor_div_mul_le _ _ HcW) (floor_div_mul_le _ _ HcL))
      as [Hpos Hle].
    split.
    + apply Qlt_shift_div_l; lra.
    + apply Qle_shift_div_r; lra.
  - destruct (covered_area_bounds _ _ (dimL c) (dimW c) (dimW pal) (dimL pal)
                Hw Hl HcL HcW
                (floor_div_mul_le _ _ HcL) (floor_div_mul_le _ _ HcW))
      as [Hpos Hle].
    set (w := inject_Z (Qfloor (dimW pal / dimL c))) in *.
    set (l := inject_Z (Qfloor (dimL pal / dimW c))) in *.
    assert (E : w * dimW c * (l * dimL c) == w * dimL c * (l * dimW c))
      by ring.
    split.
    + apply Qlt_shift_div_l; lra.
    + apply Qle_shift_div_r; lra.
Qed.

End Coverage.

(** * Utilization and coverage above 1 *)
Section RatioInstances.
Import InnerPack PrimFloat.
Local Set Warnings "-inexact-float".

(** C3 fails as stated, in three ways.

    In the double-precision arithmetic of the source the upper bound can be
    exceeded by rounding: a 1.3 x 1.3 x 1.3 unit in a 3.9 x 3.9 x 3.9
    interior fits 27 times in each of the six rotations, and each of them
    (so also the one [findBestArrangement] returns) has the computed
    utilization 1.0000000000000004; a 1.6 x 16 case on the 48 x 40 pallet is
    laid 25 wide and 3 long, with the computed coverage 1.0000000000000002.

    Positive unit and external extents do not suffice, in any arithmetic:
    walls of 6.25 in a 10 x 10 x 20.5 box leave an interior of
    -2.5 x -2.5 x 8, in which 72 units of 1 x 1 x 1 are counted, with a
    utilization of 1.44; and compression allowances of 1.5 on two axes put
    4410 such units into a 10.25 x 10.25 x 10 interior, with a utilization
    above 1.04. *)
Lemma utilization_and_coverage_counterexample :
  (let unitDims :=
     {| Doubles.dimL := 1.3; Doubles.dimW := 1.3; Doubles.dimH := 1.3 |}%float in
   let internalDims :=
     Doubles.calculateInternalDims
       {| Doubles.dimL := 3.9; Doubles.dimW := 3.9; Doubles.dimH := 3.9 |}%float
       0%float in
   let valid :=
     Doubles.validArrangements unitDims internalDims
       {| Doubles.sqX := 0; Doubles.sqY := 0; Doubles.sqZ := 0 |}%float in
   map Doubles.rotation valid = rotations /\
   forall a, In a valid ->
             Doubles.count a = 27%float /\
             Doubles.utilization a = 1.0000000000000004%float /\
             (1 <? Doubles.utilization a)%float = true) /\
  (let s :=
     Doubles.calculatePalletStacking
       {| Doubles.dimL := 1.6; Doubles.dimW := 16; Doubles.dimH := 10 |}%float
       {| Doubles.pallet :=
            {| Doubles.dimL := 48; Doubles.dimW := 40;
               Doubles.dimH := 5 |}%float;
          Doubles.max_overhang_in := 0.5%float |}
       60%float "column" in
   Doubles.casesWide s = 25%float /\ Doubles.casesLong s = 3%float /\
   Doubles.coverage s = 1.0000000000000002%float /\
   (1 <? Doubles.coverage s)%float = true) /\
  (let sku := sampleSku 1 1 1 None in
   let config := sampleConfig {| dimL := 10; dimW := 10; dimH := 20.5 |} 6.25 in
   posDims (unitDimsOf sku) /\ posDims (external (masterpack config)) /\
   exists f, findBestArrangement sku config = Fits f /\
             count (best f) = 72%Z /\ utilization (best f) == 1.44) /\
  (let sku := sampleSku 1 1 1 None in
   let config :=
     {| masterpack :=
          {| external := {| dimL := 10.25; dimW := 10.25; dimH := 10 |};
             wall_thickness_in := 0; tare_lb := 2 |};
        solver :=
          {| squish_pct := {| sqX := 1.5; sqY := 1.5; sqZ := 0 |};
             prefer_multiples_of := 6; max_overhang_in := 0.5;
             allow_patterns := None |};
        pallet := samplePallet |} in
   posDims (unitDimsOf sku) /\ posDims (internalOf config) /\
   exists f, findBestArrangement sku config = Fits f /\
             count (best f) = 4410%Z /\ 1.04 < utilization (best f)).
Proof.
  split; [|split; [|split]].
  - cbv zeta. split; [vm_compute; reflexivity|].
    intros a Ha. vm_compute in Ha.
    repeat (destruct Ha as [<-|Ha]; [vm_compute; repeat split; reflexivity|]).
    destruct Ha.
  - vm_compute. repeat split; reflexivity.
  - cbv zeta. split; [by_evaluation|]. split; [by_evaluation|].
    eexists. split; [vm_compute; reflexivity|]. by_evaluation.
  - cbv zeta. split; [by_evaluation|]. split; [by_evaluation|].
    eexists. split; [vm_compute; reflexivity|]. by_evaluation.
Qed.

End RatioInstances.

(** * Properties of the unit arrangement *)
Section ArrangementProperties.
Import InnerPack.

(** C3, amended: over exact arithmetic, for a unit and an interior with
    strictly positive extents (and a compression allowance below 1 on every
    axis), the utilization of a fitting arrangement returned by
    [findBestArrangement] lies in (0, 1]; and for a case and a pallet with
    positive footprint extents the coverage reported by
    [calculatePalletStacking] lies in (0, 1] whenever both per-axis counts of
    the layer are at least 1.  (In double precision the upper bound can be
    exceeded in the last digit.) *)
Theorem utilization_and_coverage_in_unit_interval :
  (forall (sku : Sku) (config : Config) (f : Fit),
      posDims (unitDimsOf sku) ->
      posDims (internalOf config) ->
      okSquish (squish_pct (solver config)) ->
      findBestArrangement sku config = Fits f ->
      0 < utilization (best f) /\ utilization (best f) <= 1) /\
  (forall (caseDims : Dims) (palletConfig : Config) (targetHeight : Q)
          (pattern : string),
      0 < dimL caseDims -> 0 < dimW caseDims ->
      0 < dimL (pallet palletConfig) -> 0 < dimW (pallet palletConfig) ->
      let s :=
        Palletizer.calculatePalletStacking caseDims palletConfig targetHeight
                                           pattern in
      (1 <= Palletizer.casesWide s)%Z -> (1 <= Palletizer.casesLong s)%Z ->
      0 < Palletizer.coverage s /\ Palletizer.coverage s <= 1).
Proof.
  split.
  - intros sku config f Hu Hi Hs Hfit.
    destruct (findBestArrangement_Fits sku config f Hfit) as (r & Eb & Hc).
    rewrite Eb in Hc |- *.
    apply tryRotation_utilization; assumption.
  - intros. apply stacking_coverage_bounds; assumption.
Qed.

End ArrangementProperties.

Section ArrangementInstances.
Import InnerPack.

Lemma utilization_and_coverage_witness :
  (exists f,
      findBestArrangement (sampleSku 6 4 3 None)
        (sampleConfig {| dimL := 24; dimW := 16; dimH := 12 |} 0) = Fits f /\
      0 < utilization (best f) /\ utilization (best f) <= 1) /\
  (let s :=
     Palletizer.calculatePalletStacking
       {| dimL := 20; dimW := 15; dimH := 14 |}
       (sampleConfig {| dimL := 20; dimW := 15; dimH := 14 |} 0) 64 "column" in
   0 < Palletizer.coverage s /\ Palletizer.coverage s <= 1).
Proof.
  destruct utilization_and_coverage_in_unit_interval as [HU HC].
  split.
  - eexists. split; [vm_compute; reflexivity|].
    apply (HU (sampleSku 6 4 3 None)
              (sampleConfig {| dimL := 24; dimW := 16; dimH := 12 |} 0));
      by_evaluation.
  - apply (HC {| dimL := 20; dimW := 15; dimH := 14 |}
              (sampleConfig {| dimL := 20; dimW := 15; dimH := 14 |} 0)
              64 "column"%string);
      by_evaluation.
Defined.

(** [min3] is the smallest of the three extents. *)
Lemma min3_spec (a b c : Q) :
  min3 a b c <= a /\ min3 a b c <= b /\ min3 a b c <= c /\
  (min3 a b c == a \/ min3 a b c == b \/ min3 a b c == c).
Proof.
  unfold min3.
  destruct (Q.min_spec b c) as [[Hbc Ebc]|[Hbc Ebc]];
  destruct (Q.min_spec a (Qmin b c)) as [[Ha Ea]|[Ha Ea]];
    rewrite Ea; rewrite Ebc in *; repeat split; try lra; tauto.
Qed.

(** The failing axes: exactly the internal extents that the smallest unit
    extent exceeds, named in the order L, W, H. *)
Lemma findFailingAxis_spec (u i : Dims) :
  let smallest := min3 (dimL u) (dimW u) (dimH u) in
  (forall axis : Axis,
      In axis (filter (fun axis => Qgtb smallest (getAxis i axis))
                      [AxL; AxW; AxH])
      <-> getAxis i axis < smallest) /\
  ((exists axis, getAxis i axis < smallest) ->
   findFailingAxis u i
   = map axisName
       (filter (fun axis => Qgtb smallest (getAxis i axis)) [AxL; AxW; AxH])) /\
  ((forall axis, smallest <= getAxis i axis) ->
   findFailingAxis u i = ["all"%string]).
Proof.
  cbv zeta. set (smallest := min3 (dimL u) (dimW u) (dimH u)).
  assert (Hin : forall axis,
             In axis (filter (fun axis => Qgtb smallest (getAxis i axis))
                             [AxL; AxW; AxH])
             <-> getAxis i axis < smallest).
  { intros axis. rewrite filter_In, Qgtb_true.
    split; [tauto|]. intros H. split; [|exact H].
    destruct axis; simpl; tauto. }
  split; [exact Hin|]. split.
  - intros (axis & Hax). apply Hin in Hax.
    unfold findFailingAxis. fold smallest.
    destruct (filter _ [AxL; AxW; AxH]) as [|x l]; [contradiction|].
    reflexivity.
  - intros Hall. unfold findFailingAxis. fold smallest.
    destruct (filter _ [AxL; AxW; AxH]) as [|x l] eqn:E; [reflexivity|].
    assert (Hx : In x (x :: l)) by (left; reflexivity).
    apply Hin in Hx. specialize (Hall x). lra.
Qed.

(** C5 fails as stated: the filter of [findBestArrangement] reads the
    product of the three counts, not each count.  A 1 x 1 x 1 unit in a
    10 x 10 x 20 box with walls of 6 (an interior of -2 x -2 x 8) has the
    counts -2, -2 and 8 in every rotation, so no rotation has a positive
    count on all three axes; the product is 32, and the result has
    [fits = true] with 32 units. *)
Lemma no_rotation_fits_counterexample :
  ~ (forall (sku : Sku) (config : Config),
        (forall r,
            let a := tryRotation (unitDimsOf sku) (internalOf config) r
                                 (squish_pct (solver config)) in
            ~ ((0 < nx a)%Z /\ (0 < ny a)%Z /\ (0 < nz a)%Z)) ->
        fits (findBestArrangement sku config) = false) /\
  (let sku := sampleSku 1 1 1 None in
   let config := sampleConfig {| dimL := 10; dimW := 10; dimH := 20 |} 6 in
   internalOf config = {| dimL := -2; dimW := -2; dimH := 8 |} /\
   (forall r,
       let a := tryRotation (unitDimsOf sku) (internalOf config) r
                            (squish_pct (solver config)) in
       nx a = (-2)%Z /\ ny a = (-2)%Z /\ nz a = 8%Z /\ count a = 32%Z) /\
   exists f, findBestArrangement sku config = Fits f /\
             count (best f) = 32%Z).
Proof.
  split.
  - intros Hnofit.
    specialize (Hnofit (sampleSku 1 1 1 None)
                  (sampleConfig {| dimL := 10; dimW := 10; dimH := 20 |} 6)).
    assert (C : true = false).
    { apply Hnofit. intros r.
      destruct r; vm_compute; intros (H1 & _); discriminate. }
    discriminate.
  - cbv zeta. split; [vm_compute; reflexivity|]. split.
    + intros r. destruct r; vm_compute; repeat split; reflexivity.
    + eexists. split; vm_compute; reflexivity.
Qed.

(** C5, amended: for a unit and an interior with strictly positive extents
    (and a compression allowance below 1 on every axis), when no rotation
    has a positive count on all three axes, [findBestArrangement] returns
    [fits = false] and its failing-axis list compares the smallest unit
    extent with each internal extent; a 20 x 20 x 20 unit in an
    18 x 18 x 18 interior fails on L, W and H. *)
Theorem no_rotation_fits_gives_NoFit :
  (forall (sku : Sku) (config : Config),
      posDims (unitDimsOf sku) ->
      posDims (internalOf config) ->
      okSquish (squish_pct (solver config)) ->
      (forall r,
          let a := tryRotation (unitDimsOf sku) (internalOf config) r
                               (squish_pct (solver config)) in
          ~ ((0 < nx a)%Z /\ (0 < ny a)%Z /\ (0 < nz a)%Z)) ->
      fits (findBestArrangement sku config) = false /\
      findBestArrangement sku config
      = NoFit "SKU dimensions too large for masterpack"
              (findFailingAxis (unitDimsOf sku) (internalOf config))) /\
  (forall u i : Dims,
      let smallest := min3 (dimL u) (dimW u) (dimH u) in
      let exceeded :=
        filter (fun axis => Qgtb smallest (getAxis i axis)) [AxL; AxW; AxH] in
      (forall axis, In axis exceeded <-> getAxis i axis < smallest) /\
      ((exists axis, getAxis i axis < smallest) ->
       findFailingAxis u i = map axisName exceeded) /\
      ((forall axis, smallest <= getAxis i axis) ->
       findFailingAxis u i = ["all"%string])) /\
  findBestArrangement (sampleSku 20 20 20 None)
    (sampleConfig {| dimL := 18; dimW := 18; dimH := 18 |} 0)
  = NoFit "SKU dimensions too large for masterpack"
          ["L"%string; "W"%string; "H"%string] /\
  findBestArrangement (sampleSku 20 20 20 None)
    (sampleConfig {| dimL := 18.5; dimW := 18.5; dimH := 18.5 |} 0.25)
  = NoFit "SKU dimensions too large for masterpack"
          ["L"%string; "W"%string; "H"%string].
Proof.
  split; [|split; [|split]].
  - intros sku config Hu Hi Hs Hnone.
    assert (E : findBestArrangement sku config
                = NoFit "SKU dimensions too large for masterpack"
                    (findFailingAxis (unitDimsOf sku) (internalOf config))).
    { apply findBestArrangement_NoFit. intros r.
      specialize (Hnone r). cbv zeta in Hnone.
      destruct (tryRotation_counts_nonneg _ _ r _ Hu Hs Hi) as (Hx & Hy & Hz).
      destruct (tryRotation_grid (unitDimsOf sku) (internalOf config) r
                  (squish_pct (solver config))) as (_ & _ & _ & Ec & _).
      rewrite Ec. nia. }
    rewrite E. split; reflexivity.
  - intros u i. apply findFailingAxis_spec.
  - vm_compute. reflexivity.
  - vm_compute. reflexivity.
Qed.

Lemma no_rotation_fits_witness :
  fits (findBestArrangement (sampleSku 10 10 30 None)
          (sampleConfig {| dimL := 20; dimW := 20; dimH := 20 |} 0)) = false /\
  findBestArrangement (sampleSku 10 10 30 None)
    (sampleConfig {| dimL := 20; dimW := 20; dimH := 20 |} 0)
  = NoFit "SKU dimensions too large for masterpack"
      (findFailingAxis (unitDimsOf (sampleSku 10 10 30 None))
         (internalOf (sampleConfig {| dimL := 20; dimW := 20; dimH := 20 |} 0))).
Proof.
  apply (proj1 no_rotation_fits_gives_NoFit
           (sampleSku 10 10 30 None)
           (sampleConfig {| dimL := 20; dimW := 20; dimH := 20 |} 0));
    try by_evaluation.
  intros r. destruct r; vm_compute; intros (H1 & H2 & H3); discriminate.
Defined.

End ArrangementInstances.

(** * Non-positive dimensions *)
Section NonPositiveDimensions.
Import InnerPack.

(** C6 fails as stated: nothing is checked before solving.  A unit with two
    negative extents, and a wall thickness that leaves two negative internal
    extents, both come back as fitting arrangements with a computed count
    (125 and 32) and a utilization of 1. *)
Lemma nonpositive_dimensions_counterexample :
  ~ (forall (sku : Sku) (config : Config),
        ~ posDims (unitDimsOf sku) \/
        ~ posDims (external (masterpack config)) \/
        ~ posDims (internalOf config) ->
        fits (findBestArrangement sku config) = false) /\
  (exists f,
      findBestArrangement (sampleSku (-2) (-2) 2 None)
        (sampleConfig {| dimL := 10; dimW := 10; dimH := 10 |} 0) = Fits f /\
      count (best f) = 125%Z /\ utilization (best f) == 1) /\
  (exists f,
      findBestArrangement (sampleSku 1 1 1 None)
        (sampleConfig {| dimL := 10; dimW := 10; dimH := 20 |} 6) = Fits f /\
      internalDims f = {| dimL := -2; dimW := -2; dimH := 8 |} /\
      count (best f) = 32%Z /\ utilization (best f) == 1).
Proof.
  split; [|split].
  - intros Hreject.
    specialize (Hreject (sampleSku (-2) (-2) 2 None)
                  (sampleConfig {| dimL := 10; dimW := 10; dimH := 10 |} 0)).
    assert (C : true = false).
    { apply Hreject. left. intros (HL & _). vm_compute in HL. discriminate. }
    discriminate.
  - eexists. split; [vm_compute; reflexivity|]. by_evaluation.
  - eexists. split; [vm_compute; reflexivity|]. by_evaluation.
Qed.

(** The sign of a floor-divided count follows the sign of the length that
    is divided. *)
Lemma floor_div_zero (x a : Q) : x == 0 -> Qfloor (x / a) = 0%Z.
Proof.
  intros E. assert (E' : x / a == 0) by (rewrite E; reflexivity).
  rewrite (Qfloor_comp _ _ E'). reflexivity.
Qed.

Lemma grid_count_nonpos (iL iW iH aL aW aH : Q) :
  0 < aL -> 0 < aW -> 0 < aH ->
  iL * iW * iH <= 0 ->
  (Qfloor (iL / aL) * Qfloor (iW / aW) * Qfloor (iH / aH) <= 0)%Z.
Proof.
  intros HaL HaW HaH Hvol.
  assert (S : forall x a, 0 < a ->
            (0 < x /\ (0 <= Qfloor (x / a))%Z) \/
            (x == 0 /\ Qfloor (x / a) = 0%Z) \/
            (x < 0 /\ (Qfloor (x / a) < 0)%Z)).
  { intros x a Ha. destruct (Q_dec x 0) as [[Hx|Hx]|Hx].
    - right; right. split; [exact Hx | apply floor_div_neg; assumption].
    - left. split; [exact Hx | apply floor_div_nonneg; lra].
    - right; left. split; [exact Hx | apply floor_div_zero; exact Hx]. }
  destruct (S iL aL HaL) as [[PL NL]|[[PL NL]|[PL NL]]];
  destruct (S iW aW HaW) as [[PW NW]|[[PW NW]|[PW NW]]];
  destruct (S iH aH HaH) as [[PH NH]|[[PH NH]|[PH NH]]];
    try (rewrite NL; lia); try (rewrite NW; lia); try (rewrite NH; lia);
    set (x := Qfloor (iL / aL)) in *;
    set (y := Qfloor (iW / aW)) in *;
    set (z := Qfloor (iH / aH)) in *;
    first
      [ exfalso; assert (0 < iL * iW) by nra; nra
      | exfalso; assert (iL * iW < 0) by nra; nra
      | assert (0 <= x * y)%Z by nia; nia
      | assert (x * y <= 0)%Z by nia; nia ].
Qed.

(** C6, amended: dimensions are not validated before solving; a
    non-positive internal extent only shows in the computed counts.  For a
    unit with strictly positive extents and a compression allowance below
    1, [calculateUnitsPerOrientation] returns the all-zero arrangement
    whenever some internal extent is zero or negative, and
    [findBestArrangement] returns [fits = false] whenever the internal
    volume L * W * H is zero or negative. *)
Theorem nonpositive_interior_yields_no_arrangement :
  (forall (unitDims internalDims : Dims) (squishPct : Squish),
      posDims unitDims -> okSquish squishPct ->
      dimL internalDims <= 0 \/ dimW internalDims <= 0 \/
      dimH internalDims <= 0 ->
      MasterpackOptimizer.calculateUnitsPerOrientation unitDims internalDims
                                                       squishPct
      = {| MasterpackOptimizer.nx := 0; MasterpackOptimizer.ny := 0;
           MasterpackOptimizer.nz := 0; MasterpackOptimizer.count := 0;
           MasterpackOptimizer.utilization := 0 |}) /\
  (forall (sku : Sku) (config : Config),
      posDims (unitDimsOf sku) -> okSquish (squish_pct (solver config)) ->
      dimL (internalOf config) * dimW (internalOf config)
      * dimH (internalOf config) <= 0 ->
      fits (findBestArrangement sku config) = false /\
      findBestArrangement sku config
      = NoFit "SKU dimensions too large for masterpack"
              (findFailingAxis (unitDimsOf sku) (internalOf config))).
Proof.
  split.
  - intros u i s (HL & HW & HH) (X1 & Y1 & Z1) Hneg.
    unfold MasterpackOptimizer.calculateUnitsPerOrientation. cbn [dimL dimW dimH].
    assert (AL : 0 < dimL u * (1 - sqX s)) by nra.
    assert (AW : 0 < dimW u * (1 - sqY s)) by nra.
    assert (AH : 0 < dimH u * (1 - sqZ s)) by nra.
    assert (G : ((Qfloor (dimL i / (dimL u * (1 - sqX s))) <=? 0)%Z
                 || (Qfloor (dimW i / (dimW u * (1 - sqY s))) <=? 0)%Z
                 || (Qfloor (dimH i / (dimH u * (1 - sqZ s))) <=? 0)%Z)
                = true).
    { rewrite !orb_true_iff, !Z.leb_le.
      destruct Hneg as [N|[N|N]];
        [left; left | left; right | right];
        apply floor_div_nonpos; assumption. }
    rewrite G. reflexivity.
  - intros sku config Hu Hs Hvol.
    assert (E : findBestArrangement sku config
                = NoFit "SKU dimensions too large for masterpack"
                    (findFailingAxis (unitDimsOf sku) (internalOf config))).
    { apply findBestArrangement_NoFit. intros r.
      destruct (tryRotation_adjusted_pos (unitDimsOf sku) (internalOf config)
                  r _ Hu Hs) as (AL & AW & AH).
      destruct (tryRotation_grid (unitDimsOf sku) (internalOf config) r
                  (squish_pct (solver config))) as (Ex & Ey & Ez & Ec & _).
      rewrite Ec, Ex, Ey, Ez.
      apply grid_count_nonpos; assumption. }
    rewrite E. split; reflexivity.
Qed.

Lemma nonpositive_interior_witness :
  MasterpackOptimizer.calculateUnitsPerOrientation
    {| dimL := 6; dimW := 4; dimH := 3 |}
    {| dimL := -2; dimW := -2; dimH := 8 |} MasterpackOptimizer.noSquish
  = {| MasterpackOptimizer.nx := 0; MasterpackOptimizer.ny := 0;
       MasterpackOptimizer.nz := 0; MasterpackOptimizer.count := 0;
       MasterpackOptimizer.utilization := 0 |} /\
  fits (findBestArrangement (sampleSku 6 4 3 None)
          (sampleConfig {| dimL := 12; dimW := 12; dimH := 12 |} 7)) = false.
Proof.
  destruct nonpositive_interior_yields_no_arrangement as [HA HB].
  split.
  - apply HA; try by_evaluation. left. by_evaluation.
  - apply (HB (sampleSku 6 4 3 None)
              (sampleConfig {| dimL := 12; dimW := 12; dimH := 12 |} 7));
      by_evaluation.
Defined.

End NonPositiveDimensions.

(** * Candidate generation *)
Section CandidateGeneration.
Import MultiSku.

(** A loop with a positive step ends within the fuel it is given. *)
Lemma forValues_enough (maxDim step : Q) (fuel : nat) :
  0 < step ->
  forall x,
    maxDim - x < inject_Z (Z.of_nat fuel) * step ->
    exists l, forValues fuel x maxDim step = Some l.
Proof.
  intros Hstep. induction fuel as [|fuel IH]; intros x Hx.
  - simpl. destruct (Qle_bool x maxDim) eqn:E.
    + apply Qle_bool_iff in E. change (inject_Z (Z.of_nat 0)) with 0 in Hx.
      lra.
    + eexists. reflexivity.
  - simpl. destruct (Qle_bool x maxDim) eqn:E.
    + destruct (IH (x + step)) as [l El].
      * rewrite Nat2Z.inj_succ in Hx. unfold Z.succ in Hx.
        rewrite inject_Z_plus in Hx. change (inject_Z 1) with 1 in Hx.
        lra.
      * rewrite El. eexists. reflexivity.
    + eexists. reflexivity.
Qed.

Lemma loopFuel_enough (minDim maxDim step : Q) :
  0 < step ->
  maxDim - minDim < inject_Z (Z.of_nat (loopFuel minDim maxDim step)) * step.
Proof.
  intros Hstep. unfold loopFuel.
  set (q := (maxDim - minDim) / step).
  assert (Eq : maxDim - minDim == q * step) by (unfold q; field; lra).
  pose proof (Qlt_floor q) as Hq.
  destruct (Z.le_gt_cases 0 (Qfloor q + 1)) as [Hz|Hz].
  - rewrite Z2Nat.id by exact Hz. rewrite Eq.
    apply Qmult_lt_compat_r; assumption.
  - assert (E0 : Z.to_nat (Qfloor q + 1) = 0%nat) by lia.
    rewrite E0. change (inject_Z (Z.of_nat 0)) with 0.
    assert (Hneg : inject_Z (Qfloor q + 1) < 0).
    { change 0 with (inject_Z 0). rewrite <- Zlt_Qlt. exact Hz. }
    assert (q < 0) by lra. nra.
Qed.

(** Candidate generation terminates for every positive step. *)
Lemma generateCandidateDimensions_total (minDim maxDim step : Q) :
  0 < step ->
  exists candidates,
    generateCandidateDimensions minDim maxDim step = Some candidates.
Proof.
  intros Hstep. unfold generateCandidateDimensions.
  destruct (forValues_enough maxDim step (loopFuel minDim maxDim step) Hstep
              minDim (loopFuel_enough minDim maxDim step Hstep)) as [l El].
  rewrite El. eexists. reflexivity.
Qed.

(** A loop with a non-positive step that starts within the range never
    ends, whatever the fuel. *)
Lemma forValues_diverges (maxDim step : Q) (fuel : nat) :
  step <= 0 ->
  forall x, x <= maxDim -> forValues fuel x maxDim step = None.
Proof.
  intros Hstep. induction fuel as [|fuel IH]; intros x Hx; simpl;
    (destruct (Qle_bool x maxDim) eqn:E;
     [|apply Qle_bool_iff in Hx; congruence]).
  - reflexivity.
  - rewrite IH by lra. reflexivity.
Qed.

(** [generateCandidateDimensions] is [None] exactly for the sweeps that do
    not terminate. *)
Lemma generateCandidateDimensions_None (minDim maxDim step : Q) :
  generateCandidateDimensions minDim maxDim step = None
  <-> minDim <= maxDim /\ step <= 0.
Proof.
  split.
  - intros E. destruct (Qlt_le_dec 0 step) as [Hpos|Hnon].
    + destruct (generateCandidateDimensions_total minDim maxDim step Hpos)
        as [l El]. congruence.
    + split; [|exact Hnon].
      destruct (Qlt_le_dec maxDim minDim) as [Hemp|Hle]; [|exact Hle].
      exfalso. unfold generateCandidateDimensions in E.
      assert (F : Qle_bool minDim maxDim = false).
      { destruct (Qle_bool minDim maxDim) eqn:B; [|reflexivity].
        apply Qle_bool_iff in B. lra. }
      destruct (loopFuel minDim maxDim step); simpl in E; rewrite F in E;
        discriminate.
  - intros [Hle Hstep]. unfold generateCandidateDimensions.
    rewrite forValues_diverges by assumption. reflexivity.
Qed.

End CandidateGeneration.

(** * Scoring and selection of candidates *)
Section CandidateScoring.
Import InnerPack MultiSku.

Lemma allFit_forallb (config : Config) (d : Dims) (skus : list Sku) :
  forallb sr_fits (map (skuResult (testConfig config d)) skus)
  = forallb (fitsIn config d) skus.
Proof.
  induction skus as [|sku skus IH]; simpl; [reflexivity|].
  rewrite IH. reflexivity.
Qed.

Lemma scoreBoxCandidate_rejected (d : Dims) (skus : list Sku) (config : Config)
    (pf : PalletFit) :
  (exists sku, In sku skus /\ fitsIn config d sku = false) ->
  scoreBoxCandidate d skus config pf
  = Rejected (-1000) (map (skuResult (testConfig config d)) skus).
Proof.
  intros (sku & Hin & Hno). unfold scoreBoxCandidate.
  rewrite allFit_forallb.
  assert (E : forallb (fitsIn config d) skus = false).
  { destruct (forallb (fitsIn config d) skus) eqn:F; [|reflexivity].
    rewrite forallb_forall in F. rewrite (F sku Hin) in Hno. discriminate. }
  rewrite E. reflexivity.
Qed.

Lemma scoreBoxCandidate_accepted (d : Dims) (skus : list Sku) (config : Config)
    (pf : PalletFit) (s : Scored) :
  scoreBoxCandidate d skus config pf = Accepted s ->
  allFit s = true /\ forall sku, In sku skus -> fitsIn config d sku = true.
Proof.
  unfold scoreBoxCandidate. rewrite allFit_forallb.
  destruct (forallb (fitsIn config d) skus) eqn:F; simpl; [|discriminate].
  intros E. injection E as <-. cbn [allFit]. split.
  - reflexivity.
  - apply forallb_forall. exact F.
Qed.

End CandidateScoring.

(** * The rank score *)
Section RankScore.
Import InnerPack MultiSku.



End RankScore.

(** * The search result *)
Section SearchResult.
Import InnerPack MultiSku.

Lemma firstn_incl {A : Type} (n : nat) (l : list A) (x : A) :
  In x (firstn n l) -> In x l.
Proof.
  revert l. induction n as [|n IH]; intros [|y l]; simpl; try tauto.
  intros [E|H]; [left; exact E | right; apply IH; exact H].
Qed.

Lemma hd_error_incl {A : Type} (l : list A) (x : A) :
  hd_error l = Some x -> In x l.
Proof. destruct l; simpl; [discriminate|]. intros E. injection E as ->. now left. Qed.

Lemma findOptimalMasterpack_unfold (skus : list Sku) (config : Config)
    (options : Options) :
  findOptimalMasterpack skus config options
  = match candidatesOf options with
    | None => None
    | Some candidates =>
        let kept := keptCandidates skus config candidates in
        Some {| optimal := hd_error kept;
                topCandidates := firstn 5 kept;
                totalTested := List.length candidates;
                validCandidates := List.length kept |}
    end.
Proof. reflexivity. Qed.

(** The search returns a result for every positive step. *)
Lemma findOptimalMasterpack_total (skus : list Sku) (config : Config)
    (options : Options) :
  0 < orDefault 1 (step options) ->
  exists candidates,
    candidatesOf options = Some candidates /\
    findOptimalMasterpack skus config options
    = Some {| optimal := hd_error (keptCandidates skus config candidates);
              topCandidates := firstn 5 (keptCandidates skus config candidates);
              totalTested := List.length candidates;
              validCandidates :=
                List.length (keptCandidates skus config candidates) |}.
Proof.
  intros Hstep.
  destruct (generateCandidateDimensions_total
              (orDefault 12 (minDim options)) (orDefault 24 (maxDim options))
              (orDefault 1 (step options)) Hstep) as [candidates E].
  exists candidates. rewrite findOptimalMasterpack_unfold.
  unfold candidatesOf, rangeOf. rewrite E. split; reflexivity.
Qed.

(** The two outcomes of scoring one candidate. *)
Lemma scoreCandidate_cases (skus : list Sku) (config : Config) (d : Dims) :
  (exists entries,
      boxScore (scoreCandidate skus config d) = Rejected (-1000) entries /\
      exists sku, In sku skus /\ fitsIn config d sku = false) \/
  (exists s,
      boxScore (scoreCandidate skus config d) = Accepted s /\
      allFit s = true /\
      forall sku, In sku skus -> fitsIn config d sku = true).
Proof.
  unfold scoreCandidate. cbn [boxScore].
  destruct (forallb (fitsIn config d) skus) eqn:F.
  - right. unfold scoreBoxCandidate. rewrite allFit_forallb, F. cbn [negb].
    eexists. split; [reflexivity|]. cbn [allFit]. split; [reflexivity|].
    apply forallb_forall. exact F.
  - left.
    assert (Hex : exists sku, In sku skus /\ fitsIn config d sku = false).
    { clear -F. induction skus as [|sku skus IH]; simpl in F; [discriminate|].
      apply andb_false_iff in F. destruct F as [F|F].
      - exists sku. split; [now left | exact F].
      - destruct (IH F) as (x & Hx & Ex). exists x. split; [now right | exact Ex]. }
    eexists. split; [apply scoreBoxCandidate_rejected; exact Hex | exact Hex].
Qed.

(** Every returned candidate is a scored candidate of the sweep with a
    positive score. *)
Lemma returned_candidate (skus : list Sku) (config : Config)
    (options : Options) (r : SearchResult) (c : Candidate) :
  findOptimalMasterpack skus config options = Some r ->
  In c (topCandidates r) \/ optimal r = Some c ->
  exists candidates d,
    candidatesOf options = Some candidates /\ In d candidates /\
    c = scoreCandidate skus config d /\
    nanGt0 (candScore c) = true.
Proof.
  rewrite findOptimalMasterpack_unfold.
  destruct (candidatesOf options) as [candidates|]; [|discriminate].
  cbv zeta. intros E Hc. injection E as <-. cbn [topCandidates optimal] in Hc.
  assert (Hin : In c (keptCandidates skus config candidates)).
  { destruct Hc as [Hc|Hc];
      [apply (firstn_incl 5); exact Hc | apply hd_error_incl; exact Hc]. }
  unfold keptCandidates in Hin. rewrite sortDesc_In in Hin.
  apply filter_In in Hin. destruct Hin as [Hmap Hpos].
  apply in_map_iff in Hmap. destruct Hmap as (d & <- & Hd).
  exists candidates, d. repeat split; assumption.
Qed.

Lemma returned_candidate_accepted (skus : list Sku) (config : Config)
    (options : Options) (r : SearchResult) (c : Candidate) :
  findOptimalMasterpack skus config options = Some r ->
  In c (topCandidates r) \/ optimal r = Some c ->
  candAllFit c = Some true /\
  (forall sku, In sku skus -> fitsIn config (dims c) sku = true) /\
  exists x, candScore c = Some x /\ 0 < x.
Proof.
  intros E Hc.
  destruct (returned_candidate skus config options r c E Hc)
    as (candidates & d & _ & _ & -> & Hpos).
  unfold candAllFit, candScore in *.
  destruct (scoreCandidate_cases skus config d)
    as [(entries & Eb & _)|(s & Eb & Ha & Hf)]; rewrite Eb in *.
  - simpl in Hpos. discriminate.
  - rewrite Ha. split; [reflexivity|]. split; [exact Hf|].
    destruct (score s) as [x|]; simpl in Hpos; [|discriminate].
    exists x. split; [reflexivity|]. apply Qgtb_true. exact Hpos.
Qed.

(** No candidate is kept when every candidate has a product that does not
    fit. *)
Lemma keptCandidates_none (skus : list Sku) (config : Config)
    (candidates : list Dims) :
  (forall d, In d candidates ->
             exists sku, In sku skus /\ fitsIn config d sku = false) ->
  keptCandidates skus config candidates = [].
Proof.
  intros Hall. unfold keptCandidates. apply sortDesc_nil.
  induction candidates as [|d l IH]; simpl; [reflexivity|].
  rewrite IH by (intros d' Hd'; apply Hall; now right).
  unfold candScore, scoreCandidate. cbn [boxScore].
  rewrite scoreBoxCandidate_rejected by (apply Hall; now left).
  reflexivity.
Qed.

End SearchResult.

(** Membership of a candidate in a computed sweep, by evaluation. *)
Lemma Dims_eq_dec (a b : Dims) : {a = b} + {a <> b}.
Proof.
  assert (Qdec : forall x y : Q, {x = y} + {x <> y}).
  { decide equality; [apply Pos.eq_dec | apply Z.eq_dec]. }
  decide equality.
Defined.

Lemma In_by_evaluation (d : Dims) (l : list Dims) :
  (if in_dec Dims_eq_dec d l then true else false) = true -> In d l.
Proof. destruct (in_dec Dims_eq_dec d l); [trivial | discriminate]. Qed.

(** * Rejected and excluded candidates *)
Section Exclusion.
Import InnerPack MultiSku.

(** C1 fails as stated: the sentinel -1000 is not below the score of every
    candidate in which all products fit.  For a catalog of one
    29 x 29 x 29 product (walls of 0.25), the 24 x 24 x 24 candidate is
    rejected with -1000, while the 30 x 30 x 30 candidate holds the product
    and scores below -1000 (about -1584.4: the volume term is -2700); the
    search over the two sizes 24 and 30 returns neither. *)
Lemma sentinel_not_below_fitting_candidates_counterexample :
  ~ (forall (skus : list Sku) (config : Config) (rejected valid : Dims)
            (x y : Q),
        (exists sku, In sku skus /\ fitsIn config rejected sku = false) ->
        (forall sku, In sku skus -> fitsIn config valid sku = true) ->
        candScore (scoreCandidate skus config rejected) = Some x ->
        candScore (scoreCandidate skus config valid) = Some y ->
        x < y) /\
  (let skus := [sampleSku 29 29 29 None] in
   let config := sampleConfig {| dimL := 18; dimW := 18; dimH := 18 |} 0.25 in
   let rejected := {| dimL := 24; dimW := 24; dimH := 24 |} in
   let valid := {| dimL := 30; dimW := 30; dimH := 30 |} in
   fitsIn config rejected (sampleSku 29 29 29 None) = false /\
   candScore (scoreCandidate skus config rejected) = Some (-1000) /\
   fitsIn config valid (sampleSku 29 29 29 None) = true /\
   candAllFit (scoreCandidate skus config valid) = Some true /\
   (exists y, candScore (scoreCandidate skus config valid) = Some y /\
              y < -1584 /\ -1585 < y) /\
   findOptimalMasterpack skus config (mkOptions (Some 24) (Some 30) (Some 6))
   = Some {| optimal := None; topCandidates := [];
             totalTested := 8; validCandidates := 0 |}).
Proof.
  split.
  - intros Hbelow.
    destruct (candScore (scoreCandidate [sampleSku 29 29 29 None]
                (sampleConfig {| dimL := 18; dimW := 18; dimH := 18 |} 0.25)
                {| dimL := 30; dimW := 30; dimH := 30 |})) as [y|] eqn:Ey;
      [|vm_compute in Ey; discriminate].
    assert (C : -1000 < y).
    { apply (Hbelow [sampleSku 29 29 29 None]
               (sampleConfig {| dimL := 18; dimW := 18; dimH := 18 |} 0.25)
               {| dimL := 24; dimW := 24; dimH := 24 |}
               {| dimL := 30; dimW := 30; dimH := 30 |}).
      - exists (sampleSku 29 29 29 None). split; [now left|].
        vm_compute. reflexivity.
      - intros sku [<-|[]]. vm_compute. reflexivity.
      - vm_compute. reflexivity.
      - exact Ey. }
    vm_compute in Ey. injection Ey as <-.
    vm_compute in C. discriminate.
  - cbv zeta.
    split; [vm_compute; reflexivity|].
    split; [vm_compute; reflexivity|].
    split; [vm_compute; reflexivity|].
    split; [vm_compute; reflexivity|].
    split; [|vm_compute; reflexivity].
    eexists. split; [vm_compute; reflexivity|]. by_evaluation.
Qed.

(** C1, amended: a candidate with a product that does not fit gets the
    sentinel score -1000, which lies below the score of every candidate the
    search returns (not below that of every candidate in which all products
    fit), and it is never returned: every product fits every candidate in
    [optimal] and [topCandidates]; and when every candidate of the sweep has
    a product that does not fit, the search returns the explicit empty result
    (no optimal candidate, no top candidates, zero valid candidates). *)
Theorem rejected_candidates_are_excluded :
  (forall (d : Dims) (skus : list Sku) (config : Config) (pf : PalletFit),
      (exists sku, In sku skus /\ fitsIn config d sku = false) ->
      exists entries,
        scoreBoxCandidate d skus config pf = Rejected (-1000) entries) /\
  (forall (skus : list Sku) (config : Config) (options : Options)
          (r : SearchResult) (c : Candidate),
      findOptimalMasterpack skus config options = Some r ->
      In c (topCandidates r) \/ optimal r = Some c ->
      (forall sku, In sku skus -> fitsIn config (dims c) sku = true) /\
      exists x, candScore c = Some x /\ -1000 < x) /\
  (forall (skus : list Sku) (config : Config) (options : Options),
      0 < orDefault 1 (step options) ->
      exists candidates r,
        candidatesOf options = Some candidates /\
        findOptimalMasterpack skus config options = Some r /\
        totalTested r = List.length candidates /\
        ((forall d, In d candidates ->
                    exists sku, In sku skus /\ fitsIn config d sku = false) ->
         optimal r = None /\ topCandidates r = [] /\
         validCandidates r = 0%nat)).
Proof.
  split; [|split].
  - intros d skus config pf Hex. eexists.
    apply scoreBoxCandidate_rejected. exact Hex.
  - intros skus config options r c E Hc.
    destruct (returned_candidate_accepted skus config options r c E Hc)
      as (_ & Hf & x & Ex & Hx).
    split; [exact Hf|]. exists x. split; [exact Ex | lra].
  - intros skus config options Hstep.
    destruct (findOptimalMasterpack_total skus config options Hstep)
      as (candidates & Ec & Er).
    eexists candidates, _. split; [exact Ec|]. split; [exact Er|].
    cbn [totalTested optimal topCandidates validCandidates].
    split; [reflexivity|]. intros Hall.
    rewrite (keptCandidates_none skus config candidates Hall).
    repeat split.
Qed.

Lemma rejected_candidates_witness :
  exists candidates r,
    candidatesOf (mkOptions (Some 14) (Some 16) (Some 1)) = Some candidates /\
    findOptimalMasterpack
      [sampleSku 30 30 30 None; sampleSku 6 4 3 None]
      (sampleConfig {| dimL := 18; dimW := 18; dimH := 18 |} 0.25)
      (mkOptions (Some 14) (Some 16) (Some 1)) = Some r /\
    optimal r = None /\ topCandidates r = [] /\ validCandidates r = 0%nat.
Proof.
  destruct (proj2 (proj2 rejected_candidates_are_excluded)
              [sampleSku 30 30 30 None; sampleSku 6 4 3 None]
              (sampleConfig {| dimL := 18; dimW := 18; dimH := 18 |} 0.25)
              (mkOptions (Some 14) (Some 16) (Some 1)))
    as (candidates & r & Ec & Er & _ & Hempty).
  - reflexivity.
  - exists candidates, r. split; [exact Ec|]. split; [exact Er|].
    apply Hempty. intros d Hd.
    exists (sampleSku 30 30 30 None). split; [now left|].
    vm_compute in Ec. injection Ec as <-.
    repeat (destruct Hd as [<-|Hd]; [vm_compute; reflexivity|]).
    destruct Hd.
Defined.

(** C10: every candidate the search returns, as [optimal] or in
    [topCandidates], has [allFit = true] and a score above 0; a candidate
    whose score is 0 or less is therefore not returned even when every
    product fits it; and there is a catalog (one 23 x 23 x 23 product, the
    default sweep 12..24) for which the 24 x 24 x 24 candidate fits the
    product, scores below 0, and the search returns no optimal candidate and
    zero valid candidates. *)
Theorem returned_candidates_fit_with_positive_score :
  (forall (skus : list Sku) (config : Config) (options : Options)
          (r : SearchResult) (c : Candidate),
      findOptimalMasterpack skus config options = Some r ->
      In c (topCandidates r) \/ optimal r = Some c ->
      candAllFit c = Some true /\
      exists x, candScore c = Some x /\ 0 < x) /\
  (forall (skus : list Sku) (config : Config) (options : Options)
          (r : SearchResult) (d : Dims) (x : Q),
      findOptimalMasterpack skus config options = Some r ->
      candScore (scoreCandidate skus config d) = Some x -> x <= 0 ->
      ~ In (scoreCandidate skus config d) (topCandidates r) /\
      optimal r <> Some (scoreCandidate skus config d)) /\
  (let skus := [sampleSku 23 23 23 None] in
   let config := sampleConfig {| dimL := 18; dimW := 18; dimH := 18 |} 0.25 in
   let options := mkOptions None None None in
   let d := {| dimL := 24; dimW := 24; dimH := 24 |} in
   exists candidates x,
     candidatesOf options = Some candidates /\ In d candidates /\
     (forall sku, In sku skus -> fitsIn config d sku = true) /\
     candAllFit (scoreCandidate skus config d) = Some true /\
     candScore (scoreCandidate skus config d) = Some x /\ x <= 0 /\
     findOptimalMasterpack skus config options
     = Some {| optimal := None; topCandidates := [];
               totalTested := 2197; validCandidates := 0 |}).
Proof.
  split; [|split].
  - intros skus config options r c E Hc.
    destruct (returned_candidate_accepted skus config options r c E Hc)
      as (Ha & _ & Hx).
    split; assumption.
  - intros skus config options r d x E Ex Hx.
    split.
    + intros Hin.
      destruct (returned_candidate_accepted skus config options r _ E
                  (or_introl Hin)) as (_ & _ & y & Ey & Hy).
      rewrite Ex in Ey. injection Ey as <-. lra.
    + intros Hopt.
      destruct (returned_candidate_accepted skus config options r _ E
                  (or_intror Hopt)) as (_ & _ & y & Ey & Hy).
      rewrite Ex in Ey. injection Ey as <-. lra.
  - cbv zeta. eexists. eexists.
    split; [vm_compute; reflexivity|].
    split; [apply In_by_evaluation; vm_compute; reflexivity|].
    split; [intros sku [<-|[]]; vm_compute; reflexivity|].
    split; [vm_compute; reflexivity|].
    split; [vm_compute; reflexivity|].
    split; [by_evaluation | vm_compute; reflexivity].
Qed.

Lemma returned_candidates_witness :
  exists r c,
    findOptimalMasterpack
      [sampleSku 6 4 3 (Some 40); sampleSku 5 5 5 None]
      (sampleConfig {| dimL := 18; dimW := 18; dimH := 18 |} 0.25)
      (mkOptions (Some 14) (Some 16) (Some 1)) = Some r /\
    optimal r = Some c /\
    candAllFit c = Some true /\
    exists x, candScore c = Some x /\ 0 < x.
Proof.
  destruct (findOptimalMasterpack
              [sampleSku 6 4 3 (Some 40); sampleSku 5 5 5 None]
              (sampleConfig {| dimL := 18; dimW := 18; dimH := 18 |} 0.25)
              (mkOptions (Some 14) (Some 16) (Some 1))) as [r|] eqn:E;
    [|vm_compute in E; discriminate].
  destruct (optimal r) as [c|] eqn:Ec;
    [|vm_compute in E; injection E as <-; discriminate].
  exists r, c. split; [reflexivity|]. split; [exact Ec|].
  apply (proj1 returned_candidates_fit_with_positive_score
           [sampleSku 6 4 3 (Some 40); sampleSku 5 5 5 None]
           (sampleConfig {| dimL := 18; dimW := 18; dimH := 18 |} 0.25)
           (mkOptions (Some 14) (Some 16) (Some 1)) r c E).
  right. exact Ec.
Defined.

End Exclusion.

(** * More on layer planning and stacking *)
Section StackingProperties.
Import Palletizer PrimFloat.
Local Set Warnings "-inexact-float".

(** The remainder of a floor division by a positive length. *)
Lemma floor_remainder_bounds (x a : Q) :
  0 < a ->
  0 <= x - inject_Z (Qfloor (x / a)) * a /\
  x - inject_Z (Qfloor (x / a)) * a < a.
Proof.
  intros Ha. split.
  - pose proof (floor_div_mul_le x a Ha). lra.
  - pose proof (Qlt_floor (x / a)) as Hlt.
    rewrite inject_Z_plus in Hlt. change (inject_Z 1) with 1 in Hlt.
    assert (E : x == x / a * a) by (field; lra).
    assert (Hm : x / a * a < (inject_Z (Qfloor (x / a)) + 1) * a)
      by (apply Qmult_lt_compat_r; assumption).
    lra.
Qed.

(** X1: over exact arithmetic, for a case with positive footprint extents,
    both overhangs of the plan [calculateColumnPattern] returns are
    non-negative, and each is smaller than the case extent laid along that
    pallet axis (W and L of the case for the unrotated plan, L and W for the
    rotated one).  In double precision the lower bound can fail by rounding:
    a 2 x 1.3 case on a 4 x 3.9 pallet is laid 3 wide, with a computed
    [overhangW] of -4.44e-16. *)
Theorem column_overhang_bounds :
  (forall (c p : Dims) (m : Q),
      0 < dimL c -> 0 < dimW c ->
      let r := calculateColumnPattern c p m in
      0 <= overhangW r /\ 0 <= overhangL r /\
      ((wide r = wide (option1 c p) /\ long r = long (option1 c p) /\
        overhangW r < dimW c /\ overhangL r < dimL c) \/
       (wide r = wide (option2 c p) /\ long r = long (option2 c p) /\
        overhangW r < dimL c /\ overhangL r < dimW c))) /\
  (let r :=
     Doubles.calculateColumnPattern
       {| Doubles.dimL := 2; Doubles.dimW := 1.3; Doubles.dimH := 1.1 |}%float
       {| Doubles.dimL := 4; Doubles.dimW := 3.9; Doubles.dimH := 5.5 |}%float
       0.5%float in
   Doubles.wide r = 3%float /\ Doubles.long r = 2%float /\
   Doubles.overhangW r = (-4.4408920985006262e-16)%float /\
   (Doubles.overhangW r <? 0)%float = true).
Proof.
  split; [|vm_compute; repeat split; reflexivity].
  intros c p m HL HW r.
  destruct (floor_remainder_bounds (dimW p) (dimW c) HW) as [A1 A2].
  destruct (floor_remainder_bounds (dimL p) (dimL c) HL) as [B1 B2].
  destruct (floor_remainder_bounds (dimW p) (dimL c) HL) as [C1 C2].
  destruct (floor_remainder_bounds (dimL p) (dimW c) HW) as [D1 D2].
  unfold r.
  destruct (calculateColumnPattern_cases c p m)
    as [(_ & _ & [[_ E]|[_ E]])
       |[(_ & _ & E)
       |[(_ & _ & E)
       |(_ & _ & [[_ E]|[_ E]])]]]; rewrite E; simpl;
    (split; [assumption|]); (split; [assumption|]);
    first [ left; repeat split; assumption
          | right; repeat split; assumption ].
Qed.

Lemma column_overhang_bounds_witness :
  let r := calculateColumnPattern {| dimL := 5; dimW := 7; dimH := 1 |}
                                  samplePallet 5 in
  0 <= overhangW r /\ 0 <= overhangL r.
Proof.
  destruct (proj1 column_overhang_bounds {| dimL := 5; dimW := 7; dimH := 1 |}
              samplePallet 5) as (A & B & _); try reflexivity.
  split; assumption.
Defined.

(** X2: turning the case by 90 degrees (exchanging its L and W) changes
    neither the container count of the chosen plan nor its
    [exceedsOverhang] flag. *)
Theorem column_count_invariant_under_turn (c p : Dims) (m : Q) :
  let turned := {| dimL := dimW c; dimW := dimL c; dimH := dimH c |} in
  layerCount (calculateColumnPattern turned p m)
  = layerCount (calculateColumnPattern c p m) /\
  exceedsOverhang (calculateColumnPattern turned p m)
  = exceedsOverhang (calculateColumnPattern c p m).
Proof.
  cbv zeta.
  set (t := {| dimL := dimW c; dimW := dimL c; dimH := dimH c |}).
  assert (E1 : option1 t p = option2 c p) by reflexivity.
  assert (E2 : option2 t p = option1 c p) by reflexivity.
  destruct (calculateColumnPattern_cases t p m)
    as [(V1 & V2 & [[Hc E]|[Hc E]])
       |[(V1 & V2 & E)
       |[(V1 & V2 & E)
       |(V1 & V2 & [[Hc E]|[Hc E]])]]];
  destruct (calculateColumnPattern_cases c p m)
    as [(V1' & V2' & [[Hc' E']|[Hc' E']])
       |[(V1' & V2' & E')
       |[(V1' & V2' & E')
       |(V1' & V2' & [[Hc' E']|[Hc' E']])]]];
  rewrite E, E'; rewrite E1, E2 in *; rewrite ?layerCount_flagged;
  try congruence; split; try reflexivity; try lia.
Qed.

(** X3: over exact arithmetic, for a case of positive height the realized
    pallet height never exceeds the target height, and one more layer
    would: the stack is as high as the target allows.  In double precision
    the target can be exceeded by rounding: cases 1.1 high on a pallet 5.5
    high, with a target of 99, are stacked 85 layers high, to a computed
    pallet height of 99.00000000000001. *)
Theorem stack_height_bounds :
  (forall (c : Dims) (cfg : Config) (t : Q) (p : string),
      0 < dimH c ->
      let s := calculatePalletStacking c cfg t p in
      palletHeight s <= t /\ t < palletHeight s + dimH c /\
      totalCases s = (casesPerLayer s * maxLayers s)%Z) /\
  (let s :=
     Doubles.calculatePalletStacking
       {| Doubles.dimL := 2; Doubles.dimW := 1.3; Doubles.dimH := 1.1 |}%float
       {| Doubles.pallet :=
            {| Doubles.dimL := 4; Doubles.dimW := 3.9;
               Doubles.dimH := 5.5 |}%float;
          Doubles.max_overhang_in := 0.5%float |}
       99%float "column" in
   Doubles.maxLayers s = 85%float /\
   Doubles.palletHeight s = 99.000000000000014%float /\
   (99 <? Doubles.palletHeight s)%float = true).
Proof.
  split; [|vm_compute; repeat split; reflexivity].
  intros c cfg t p HH s.
  destruct (floor_remainder_bounds (t - dimH (pallet cfg)) (dimH c) HH)
    as [A B].
  unfold s, calculatePalletStacking. cbn [palletHeight totalCases
                                          casesPerLayer maxLayers].
  repeat split; lra.
Qed.

Lemma stack_height_bounds_witness :
  let s := calculatePalletStacking {| dimL := 20; dimW := 15; dimH := 14 |}
             (sampleConfig {| dimL := 20; dimW := 15; dimH := 14 |} 0)
             64 "column" in
  palletHeight s <= 64 /\ 64 < palletHeight s + 14.
Proof.
  destruct (proj1 stack_height_bounds
              {| dimL := 20; dimW := 15; dimH := 14 |}
              (sampleConfig {| dimL := 20; dimW := 15; dimH := 14 |} 0)
              64 "column"%string) as (A & B & _); [reflexivity|].
  split; assumption.
Defined.

(** X4: nothing clamps the layer count: when the target height is below the
    height of the empty pallet, [maxLayers] is negative, and so is
    [totalCases] as soon as a layer holds a case. *)
Theorem stack_below_pallet_is_negative (c : Dims) (cfg : Config) (t : Q)
    (p : string) :
  0 < dimH c -> t < dimH (pallet cfg) ->
  let s := calculatePalletStacking c cfg t p in
  (maxLayers s < 0)%Z /\
  ((0 < casesPerLayer s)%Z -> (totalCases s < 0)%Z).
Proof.
  intros HH Ht s.
  assert (Hneg : (maxLayers s < 0)%Z).
  { unfold s, calculatePalletStacking. cbn [maxLayers].
    apply floor_div_neg; lra. }
  split; [exact Hneg|].
  assert (E : totalCases s = (casesPerLayer s * maxLayers s)%Z) by reflexivity.
  rewrite E. nia.
Qed.

Lemma stack_below_pallet_witness :
  let s := calculatePalletStacking {| dimL := 20; dimW := 15; dimH := 14 |}
             (sampleConfig {| dimL := 20; dimW := 15; dimH := 14 |} 0)
             4 "column" in
  (maxLayers s < 0)%Z /\ (totalCases s < 0)%Z.
Proof.
  destruct (stack_below_pallet_is_negative
              {| dimL := 20; dimW := 15; dimH := 14 |}
              (sampleConfig {| dimL := 20; dimW := 15; dimH := 14 |} 0)
              4 "column"%string) as (A & B); try reflexivity.
  split; [exact A | apply B; reflexivity].
Defined.

(** Equal results keep their order in the sort of
    [findBestPalletPattern]. *)
Lemma comparePallets_same_layout (a b : PalletStacking) :
  totalCases a = totalCases b -> coverage a = coverage b ->
  Qle_bool (comparePallets a b) 0 = true.
Proof.
  intros Et Ec. unfold comparePallets. rewrite Et, Ec, Z.eqb_refl. simpl.
  apply Qle_bool_iff. lra.
Qed.

Lemma sortWith_same_layout (l : list PalletStacking) :
  (forall a b, In a l -> In b l ->
               totalCases a = totalCases b /\ coverage a = coverage b) ->
  sortWith comparePallets l = l.
Proof.
  induction l as [|x l IH]; intros Hsame; [reflexivity|].
  simpl. rewrite IH by (intros a b Ha Hb; apply Hsame; now right).
  destruct l as [|y l]; [reflexivity|]. simpl.
  destruct (Hsame x y) as [Et Ec]; [now left | right; now left |].
  rewrite (comparePallets_same_layout x y Et Ec). reflexivity.
Qed.

(** X5: because every pattern yields the column layout, the sort of
    [findBestPalletPattern] never reorders anything: the result is the
    stacking of the first allowed pattern (['column'] when
    [allow_patterns] is absent), and [undefined] when the list of allowed
    patterns is empty. *)
Theorem findBestPalletPattern_is_first_allowed (c : Dims) (cfg : Config)
    (t : Q) :
  findBestPalletPattern c cfg t
  = match allow_patterns (solver cfg) with
    | None => Some (calculatePalletStacking c cfg t "column")
    | Some [] => None
    | Some (first :: _) => Some (calculatePalletStacking c cfg t first)
    end.
Proof.
  unfold findBestPalletPattern.
  rewrite sortWith_same_layout.
  - unfold allowedPatterns.
    destruct (allow_patterns (solver cfg)) as [[|first rest]|]; reflexivity.
  - intros a b Ha Hb.
    apply in_map_iff in Ha. destruct Ha as (pa & <- & _).
    apply in_map_iff in Hb. destruct Hb as (pb & <- & _).
    unfold calculatePalletStacking, calculateBrickPattern,
      calculatePinwheelPattern, calculateSwap4048Pattern.
    destruct (String.eqb pa "brick"), (String.eqb pa "pinwheel"),
      (String.eqb pa "swap-40-48"), (String.eqb pb "brick"),
      (String.eqb pb "pinwheel"), (String.eqb pb "swap-40-48");
      split; reflexivity.
Qed.

End StackingProperties.

(** * More on the unit arrangement *)
Section ArrangementChoice.
Import InnerPack PrimFloat.
Local Set Warnings "-inexact-float".

Lemma all_rotations (r : Rotation) : In r rotations.
Proof. destruct r; simpl; tauto. Qed.

(** The arrangements that survive the filter, paired with their scores. *)
Lemma findBestArrangement_head (sku : Sku) (config : Config) (f : Fit) :
  findBestArrangement sku config = Fits f ->
  hd_error
    (sortDesc snd
       (map (fun arr =>
               (arr, scoreArrangement arr (prefer_multiples_of (solver config))))
          (filter (fun a => (0 <? count a)%Z)
             (map (fun rotation =>
                     tryRotation (unitDimsOf sku) (internalOf config) rotation
                                 (squish_pct (solver config)))
                  rotations))))
  = Some (best f, score f) /\
  internalDims f = internalOf config.
Proof.
  unfold findBestArrangement.
  fold (unitDimsOf sku). fold (internalOf config).
  set (arrs := map _ rotations).
  set (valid := filter _ arrs).
  set (scored := map _ valid).
  destruct valid as [|first rest] eqn:Ev; [discriminate|].
  set (d := (first, scoreArrangement first (prefer_multiples_of (solver config)))).
  assert (Hne : sortDesc snd scored <> []).
  { rewrite sortDesc_nil. unfold scored. discriminate. }
  destruct (sortDesc snd scored) as [|[b sc] l] eqn:Es; [congruence|].
  simpl. intros E. injection E as <-. split; reflexivity.
Qed.

Lemma findBestArrangement_fits_iff (sku : Sku) (config : Config) :
  fits (findBestArrangement sku config) = true <->
  exists r,
    (0 < count (tryRotation (unitDimsOf sku) (internalOf config) r
                            (squish_pct (solver config))))%Z.
Proof.
  split.
  - destruct (findBestArrangement sku config) as [|f] eqn:E; [discriminate|].
    intros _. destruct (findBestArrangement_Fits sku config f E) as (r & Eb & Hc).
    exists r. rewrite <- Eb. exact Hc.
  - intros (r & Hr).
    destruct (findBestArrangement sku config) as [reason axes|f] eqn:E;
      [|reflexivity].
    exfalso. revert E. unfold findBestArrangement.
    fold (unitDimsOf sku). fold (internalOf config).
    set (arrs := map _ rotations).
    assert (Hin : In (tryRotation (unitDimsOf sku) (internalOf config) r
                        (squish_pct (solver config)))
                     (filter (fun a => (0 <? count a)%Z) arrs)).
    { apply filter_In. split.
      - unfold arrs. apply in_map_iff. exists r.
        split; [reflexivity | apply all_rotations].
      - apply Z.ltb_lt. exact Hr. }
    destruct (filter (fun a => (0 <? count a)%Z) arrs) as [|first rest];
      [contradiction|].
    destruct (hd _ _). discriminate.
Qed.

(** X6: for positive extents, [findBestArrangement] reports [fits = true]
    exactly when, in at least one of the six rotations, each adjusted unit
    extent is within the internal extent of the container axis it is laid
    along. *)
Theorem fits_iff_some_rotation_within (sku : Sku) (config : Config) :
  posDims (unitDimsOf sku) -> posDims (internalOf config) ->
  okSquish (squish_pct (solver config)) ->
  (fits (findBestArrangement sku config) = true <->
   exists r,
     let adj := adjustedDims (tryRotation (unitDimsOf sku) (internalOf config)
                                r (squish_pct (solver config))) in
     dimL adj <= dimL (internalOf config) /\
     dimW adj <= dimW (internalOf config) /\
     dimH adj <= dimH (internalOf config)).
Proof.
  intros Hu Hi Hs. rewrite findBestArrangement_fits_iff.
  split; intros (r & Hr); exists r.
  - cbv zeta.
    destruct (tryRotation_adjusted_pos (unitDimsOf sku) (internalOf config)
                r _ Hu Hs) as (AL & AW & AH).
    destruct (tryRotation_counts_nonneg _ _ r _ Hu Hs Hi) as (Hx & Hy & Hz).
    destruct (tryRotation_grid (unitDimsOf sku) (internalOf config) r
                (squish_pct (solver config))) as (Ex & Ey & Ez & Ec & _).
    rewrite Ec in Hr.
    assert (H1 : (1 <= nx (tryRotation (unitDimsOf sku) (internalOf config) r
                            (squish_pct (solver config))))%Z) by nia.
    assert (H2 : (1 <= ny (tryRotation (unitDimsOf sku) (internalOf config) r
                            (squish_pct (solver config))))%Z) by nia.
    assert (H3 : (1 <= nz (tryRotation (unitDimsOf sku) (internalOf config) r
                            (squish_pct (solver config))))%Z) by nia.
    rewrite Ex in H1. rewrite Ey in H2. rewrite Ez in H3.
    repeat split; eapply floor_ge_one; eassumption.
  - cbv zeta in Hr. destruct Hr as (HL & HW & HH).
    destruct (tryRotation_adjusted_pos (unitDimsOf sku) (internalOf config)
                r _ Hu Hs) as (AL & AW & AH).
    destruct (tryRotation_grid (unitDimsOf sku) (internalOf config) r
                (squish_pct (solver config))) as (Ex & Ey & Ez & Ec & _).
    apply (floor_ge_one _ _ AL) in HL.
    apply (floor_ge_one _ _ AW) in HW.
    apply (floor_ge_one _ _ AH) in HH.
    rewrite Ec, Ex, Ey, Ez. nia.
Qed.

Lemma fits_iff_some_rotation_within_witness :
  fits (findBestArrangement (sampleSku 6 4 3 None)
          (sampleConfig {| dimL := 24; dimW := 16; dimH := 12 |} 0)) = true.
Proof.
  apply (fits_iff_some_rotation_within (sampleSku 6 4 3 None)
           (sampleConfig {| dimL := 24; dimW := 16; dimH := 12 |} 0));
    try by_evaluation.
  exists LWH. by_evaluation.
Defined.

(** X7: over exact arithmetic, for positive extents, the grid of a fitting
    arrangement is tight on every axis: at least one unit, the row of units
    is within the internal extent, and one more unit would not be; the total
    is the product of the three counts.  In double precision a row can come
    out longer than the interior by rounding: 1.3 x 1.3 x 1.3 units in a
    3.9 x 3.9 x 3.9 interior are laid 3 by 3 by 3 in every rotation, and the
    computed length of three units, 3.9000000000000004, exceeds 3.9. *)
Theorem fitting_grid_is_tight :
  (forall (sku : Sku) (config : Config) (f : Fit),
      posDims (unitDimsOf sku) -> posDims (internalOf config) ->
      okSquish (squish_pct (solver config)) ->
      findBestArrangement sku config = Fits f ->
      let a := best f in
      let adj := adjustedDims a in
      let i := internalOf config in
      ((1 <= nx a)%Z /\ inject_Z (nx a) * dimL adj <= dimL i /\
       dimL i < (inject_Z (nx a) + 1) * dimL adj) /\
      ((1 <= ny a)%Z /\ inject_Z (ny a) * dimW adj <= dimW i /\
       dimW i < (inject_Z (ny a) + 1) * dimW adj) /\
      ((1 <= nz a)%Z /\ inject_Z (nz a) * dimH adj <= dimH i /\
       dimH i < (inject_Z (nz a) + 1) * dimH adj) /\
      count a = (nx a * ny a * nz a)%Z) /\
  (let unitDims :=
     {| Doubles.dimL := 1.3; Doubles.dimW := 1.3; Doubles.dimH := 1.3 |}%float in
   let internalDims :=
     {| Doubles.dimL := 3.9; Doubles.dimW := 3.9; Doubles.dimH := 3.9 |}%float in
   let valid :=
     Doubles.validArrangements unitDims internalDims
       {| Doubles.sqX := 0; Doubles.sqY := 0; Doubles.sqZ := 0 |}%float in
   map Doubles.rotation valid = rotations /\
   forall a, In a valid ->
     Doubles.nx a = 3%float /\
     (Doubles.nx a * Doubles.dimL (Doubles.adjustedDims a)
      = 3.9000000000000004)%float /\
     (Doubles.dimL internalDims
      <? Doubles.nx a * Doubles.dimL (Doubles.adjustedDims a))%float = true).
Proof.
  split.
  2:{ cbv zeta. split; [vm_compute; reflexivity|].
      intros a Ha. vm_compute in Ha.
      repeat (destruct Ha as [<-|Ha]; [vm_compute; repeat split; reflexivity|]).
      destruct Ha. }
  intros sku config f Hu Hi Hs Hfit.
  destruct (findBestArrangement_Fits sku config f Hfit) as (r & Eb & Hc).
  cbv zeta. rewrite Eb in *.
  destruct (tryRotation_adjusted_pos (unitDimsOf sku) (internalOf config)
              r _ Hu Hs) as (AL & AW & AH).
  destruct (tryRotation_counts_nonneg _ _ r _ Hu Hs Hi) as (Hx & Hy & Hz).
  destruct (tryRotation_grid (unitDimsOf sku) (internalOf config) r
              (squish_pct (solver config))) as (Ex & Ey & Ez & Ec & _).
  rewrite Ec in Hc.
  destruct (floor_remainder_bounds (dimL (internalOf config)) _ AL) as [L1 L2].
  destruct (floor_remainder_bounds (dimW (internalOf config)) _ AW) as [W1 W2].
  destruct (floor_remainder_bounds (dimH (internalOf config)) _ AH) as [H1 H2].
  rewrite <- Ex in L1, L2. rewrite <- Ey in W1, W2. rewrite <- Ez in H1, H2.
  repeat split; try exact Ec; try nia; lra.
Qed.

Lemma fitting_grid_is_tight_witness :
  exists f,
    findBestArrangement (sampleSku 6 4 3 None)
      (sampleConfig {| dimL := 25; dimW := 17; dimH := 13 |} 0.25) = Fits f /\
    (1 <= nx (best f))%Z /\ count (best f) = (nx (best f) * ny (best f)
                                              * nz (best f))%Z.
Proof.
  destruct (findBestArrangement (sampleSku 6 4 3 None)
              (sampleConfig {| dimL := 25; dimW := 17; dimH := 13 |} 0.25))
    as [|f] eqn:E; [vm_compute in E; discriminate|].
  exists f. split; [reflexivity|].
  destruct (proj1 fitting_grid_is_tight (sampleSku 6 4 3 None)
              (sampleConfig {| dimL := 25; dimW := 17; dimH := 13 |} 0.25) f)
    as ((A & _) & _ & _ & B); try by_evaluation.
  - exact E.
  - split; assumption.
Defined.

(** X8: the arrangement returned with [fits = true] carries its own
    [scoreArrangement] score, and no rotation with a positive count scores
    higher. *)
Theorem best_arrangement_has_top_score (sku : Sku) (config : Config) (f : Fit) :
  findBestArrangement sku config = Fits f ->
  score f = scoreArrangement (best f) (prefer_multiples_of (solver config)) /\
  forall r,
    let a := tryRotation (unitDimsOf sku) (internalOf config) r
                         (squish_pct (solver config)) in
    (0 < count a)%Z ->
    scoreArrangement a (prefer_multiples_of (solver config)) <= score f.
Proof.
  intros Hfit.
  destruct (findBestArrangement_head sku config f Hfit) as [Hhd _].
  set (p := prefer_multiples_of (solver config)) in *.
  set (scored := map _ _) in Hhd.
  assert (Hin : In (best f, score f) scored).
  { apply (sortDesc_In snd). apply hd_error_incl. exact Hhd. }
  split.
  - unfold scored in Hin. apply in_map_iff in Hin.
    destruct Hin as (a & Ea & _). injection Ea as <- <-. reflexivity.
  - intros r a Hc.
    apply (sortDesc_head_greatest snd scored (best f, score f)
             (a, scoreArrangement a p) Hhd).
    unfold scored. apply in_map_iff. exists a. split; [reflexivity|].
    apply filter_In. split.
    + apply in_map_iff. exists r.
      split; [reflexivity | apply all_rotations].
    + apply Z.ltb_lt. exact Hc.
Qed.

Lemma best_arrangement_has_top_score_witness :
  exists f,
    findBestArrangement (sampleSku 6 4 3 None)
      (sampleConfig {| dimL := 24; dimW := 16; dimH := 12 |} 0) = Fits f /\
    score f = scoreArrangement (best f) 6.
Proof.
  destruct (findBestArrangement (sampleSku 6 4 3 None)
              (sampleConfig {| dimL := 24; dimW := 16; dimH := 12 |} 0))
    as [|f] eqn:E; [vm_compute in E; discriminate|].
  exists f. split; [reflexivity|].
  exact (proj1 (best_arrangement_has_top_score (sampleSku 6 4 3 None)
                  (sampleConfig {| dimL := 24; dimW := 16; dimH := 12 |} 0)
                  f E)).
Defined.

End ArrangementChoice.

(** * The orientation solver of masterpackOptimizer.js *)
Section OrientationSolver.
Import MasterpackOptimizer.

(** The two shapes of the result. *)
Lemma calculateUnitsPerOrientation_cases (u i : Dims) (s : Squish) :
  let r := calculateUnitsPerOrientation u i s in
  r = {| nx := 0; ny := 0; nz := 0; count := 0; utilization := 0 |} \/
  ((1 <= nx r)%Z /\ (1 <= ny r)%Z /\ (1 <= nz r)%Z /\
   count r = (nx r * ny r * nz r)%Z /\ (1 <= count r)%Z).
Proof.
  cbv zeta. unfold calculateUnitsPerOrientation.
  destruct (Z.leb_spec (Qfloor (dimL i / dimL {| dimL := dimL u * (1 - sqX s);
              dimW := dimW u * (1 - sqY s); dimH := dimH u * (1 - sqZ s) |})) 0);
    [left; reflexivity|].
  destruct (Z.leb_spec (Qfloor (dimW i / dimW {| dimL := dimL u * (1 - sqX s);
              dimW := dimW u * (1 - sqY s); dimH := dimH u * (1 - sqZ s) |})) 0);
    [left; reflexivity|].
  destruct (Z.leb_spec (Qfloor (dimH i / dimH {| dimL := dimL u * (1 - sqX s);
              dimW := dimW u * (1 - sqY s); dimH := dimH u * (1 - sqZ s) |})) 0);
    [left; reflexivity|].
  right. cbn [nx ny nz count orb]. repeat split; first [lia | nia].
Qed.

(** X9: for every input in which no adjusted unit extent is zero (no
    quotient has a zero divisor), whatever the signs,
    [calculateUnitsPerOrientation] returns no negative count: either the
    all-zero arrangement, or three counts of at least 1 whose product is the
    total. *)
Theorem units_per_orientation_never_negative (u i : Dims) (s : Squish) :
  ~ dimL u * (1 - sqX s) == 0 ->
  ~ dimW u * (1 - sqY s) == 0 ->
  ~ dimH u * (1 - sqZ s) == 0 ->
  let r := calculateUnitsPerOrientation u i s in
  r = {| nx := 0; ny := 0; nz := 0; count := 0; utilization := 0 |} \/
  ((1 <= nx r)%Z /\ (1 <= ny r)%Z /\ (1 <= nz r)%Z /\
   count r = (nx r * ny r * nz r)%Z /\ (1 <= count r)%Z).
Proof. intros _ _ _. exact (calculateUnitsPerOrientation_cases u i s). Qed.

Lemma units_per_orientation_never_negative_witness :
  let r := calculateUnitsPerOrientation {| dimL := -2; dimW := 4; dimH := 3 |}
             {| dimL := -10; dimW := 16; dimH := -12 |} noSquish in
  r = {| nx := 0; ny := 0; nz := 0; count := 0; utilization := 0 |} \/
  ((1 <= nx r)%Z /\ (1 <= ny r)%Z /\ (1 <= nz r)%Z /\
   count r = (nx r * ny r * nz r)%Z /\ (1 <= count r)%Z).
Proof.
  apply (units_per_orientation_never_negative
           {| dimL := -2; dimW := 4; dimH := 3 |}
           {| dimL := -10; dimW := 16; dimH := -12 |} noSquish);
    vm_compute; discriminate.
Defined.

(** The result in terms of the three floor divisions. *)
Lemma calculateUnitsPerOrientation_pos (u i : Dims) (s : Squish) :
  let aL := dimL u * (1 - sqX s) in
  let aW := dimW u * (1 - sqY s) in
  let aH := dimH u * (1 - sqZ s) in
  let r := calculateUnitsPerOrientation u i s in
  (0 < count r)%Z ->
  nx r = Qfloor (dimL i / aL) /\ ny r = Qfloor (dimW i / aW) /\
  nz r = Qfloor (dimH i / aH) /\
  (1 <= nx r)%Z /\ (1 <= ny r)%Z /\ (1 <= nz r)%Z /\
  count r = (nx r * ny r * nz r)%Z /\
  utilization r
  = inject_Z (nx r) * aL * inject_Z (ny r) * aW * inject_Z (nz r) * aH
    / (dimL i * dimW i * dimH i).
Proof.
  cbv zeta. unfold calculateUnitsPerOrientation. cbn [dimL dimW dimH].
  destruct (Z.leb_spec (Qfloor (dimL i / (dimL u * (1 - sqX s)))) 0);
    [cbn; lia|].
  destruct (Z.leb_spec (Qfloor (dimW i / (dimW u * (1 - sqY s)))) 0);
    [cbn; lia|].
  destruct (Z.leb_spec (Qfloor (dimH i / (dimH u * (1 - sqZ s)))) 0);
    [cbn; lia|].
  cbn [orb nx ny nz count utilization]. intros _.
  repeat split; lia.
Qed.

Lemma calculateUnitsPerOrientation_zero (u i : Dims) (s : Squish) :
  let r := calculateUnitsPerOrientation u i s in
  (count r <= 0)%Z ->
  r = {| nx := 0; ny := 0; nz := 0; count := 0; utilization := 0 |}.
Proof.
  cbv zeta. intros Hc.
  destruct (calculateUnitsPerOrientation_cases u i s)
    as [E|(_ & _ & _ & _ & H1)]; [exact E | lia].
Qed.

Lemma calculateUnitsPerOrientation_fits (u i : Dims) (s : Squish) :
  posDims u -> okSquish s -> posDims i ->
  let r := calculateUnitsPerOrientation u i s in
  (0 < count r)%Z <->
  dimL u * (1 - sqX s) <= dimL i /\
  dimW u * (1 - sqY s) <= dimW i /\
  dimH u * (1 - sqZ s) <= dimH i.
Proof.
  intros (HL & HW & HH) (X1 & Y1 & Z1) (IL & IW & IH) r.
  assert (AL : 0 < dimL u * (1 - sqX s)) by nra.
  assert (AW : 0 < dimW u * (1 - sqY s)) by nra.
  assert (AH : 0 < dimH u * (1 - sqZ s)) by nra.
  split.
  - intros Hc.
    destruct (calculateUnitsPerOrientation_pos u i s Hc)
      as (Ex & Ey & Ez & Hx & Hy & Hz & _).
    fold r in Ex, Ey, Ez, Hx, Hy, Hz.
    rewrite Ex in Hx. rewrite Ey in Hy. rewrite Ez in Hz.
    repeat split; eapply floor_ge_one; eassumption.
  - intros (FL & FW & FH).
    apply (floor_ge_one _ _ AL) in FL.
    apply (floor_ge_one _ _ AW) in FW.
    apply (floor_ge_one _ _ AH) in FH.
    unfold r, calculateUnitsPerOrientation. cbn [dimL dimW dimH].
    destruct (Z.leb_spec (Qfloor (dimL i / (dimL u * (1 - sqX s)))) 0);
      [lia|].
    destruct (Z.leb_spec (Qfloor (dimW i / (dimW u * (1 - sqY s)))) 0);
      [lia|].
    destruct (Z.leb_spec (Qfloor (dimH i / (dimH u * (1 - sqZ s)))) 0);
      [lia|].
    cbn [orb count]. nia.
Qed.

Lemma calculateUnitsPerOrientation_utilization (u i : Dims) (s : Squish) :
  posDims u -> okSquish s -> posDims i ->
  let r := calculateUnitsPerOrientation u i s in
  (0 < count r)%Z -> 0 < utilization r /\ utilization r <= 1.
Proof.
  intros (HL & HW & HH) (X1 & Y1 & Z1) (IL & IW & IH) r Hc.
  assert (AL : 0 < dimL u * (1 - sqX s)) by nra.
  assert (AW : 0 < dimW u * (1 - sqY s)) by nra.
  assert (AH : 0 < dimH u * (1 - sqZ s)) by nra.
  destruct (calculateUnitsPerOrientation_pos u i s Hc)
    as (Ex & Ey & Ez & Hx & Hy & Hz & Ec & Eu).
  fold r in Ex, Ey, Ez, Hx, Hy, Hz, Ec, Eu.
  pose proof (grid_utilization (dimL i) (dimW i) (dimH i) _ _ _
                IL IW IH AL AW AH) as G.
  cbv zeta in G. rewrite <- Ex, <- Ey, <- Ez, <- Ec in G.
  specialize (G Hc).
  assert (E : utilization r
              == inject_Z (count r)
                 * (dimL u * (1 - sqX s) * (dimW u * (1 - sqY s))
                    * (dimH u * (1 - sqZ s)))
                 / (dimL i * dimW i * dimH i)).
  { rewrite Eu, Ec, !inject_Z_mult.
    assert (0 < dimL i * dimW i) by nra.
    field. nra. }
  rewrite E. exact G.
Qed.

(** X10: for positive extents, [calculateUnitsPerOrientation] gives a
    positive count exactly when each adjusted unit extent is within the
    internal extent of its axis; the three counts are then the floored
    quotients of the internal extents by the adjusted unit extents, each at
    least 1. *)
Theorem units_per_orientation_fit_criterion (u i : Dims) (s : Squish) :
  posDims u -> okSquish s -> posDims i ->
  let aL := dimL u * (1 - sqX s) in
  let aW := dimW u * (1 - sqY s) in
  let aH := dimH u * (1 - sqZ s) in
  let r := calculateUnitsPerOrientation u i s in
  ((0 < count r)%Z <-> aL <= dimL i /\ aW <= dimW i /\ aH <= dimH i) /\
  ((0 < count r)%Z ->
   nx r = Qfloor (dimL i / aL) /\ ny r = Qfloor (dimW i / aW) /\
   nz r = Qfloor (dimH i / aH) /\
   (1 <= nx r)%Z /\ (1 <= ny r)%Z /\ (1 <= nz r)%Z).
Proof.
  intros Hu Hs Hi aL aW aH r. split.
  - apply calculateUnitsPerOrientation_fits; assumption.
  - intros Hc.
    destruct (calculateUnitsPerOrientation_pos u i s Hc)
      as (Ex & Ey & Ez & Hx & Hy & Hz & _).
    repeat split; assumption.
Qed.

Lemma units_per_orientation_fit_witness :
  let r := calculateUnitsPerOrientation {| dimL := 6; dimW := 4; dimH := 3 |}
             {| dimL := 24; dimW := 16; dimH := 12 |} noSquish in
  (0 < count r)%Z.
Proof.
  apply (proj1 (units_per_orientation_fit_criterion
                  {| dimL := 6; dimW := 4; dimH := 3 |}
                  {| dimL := 24; dimW := 16; dimH := 12 |} noSquish
                  ltac:(by_evaluation) ltac:(by_evaluation)
                  ltac:(by_evaluation))).
  by_evaluation.
Defined.

(** X11: on well-formed input the two solvers count alike, rotation by
    rotation: the orientations are the six rotations of innerPack.js in the
    same order, and for each of them [calculateUnitsPerOrientation] on the
    oriented unit gives the count of [InnerPack.tryRotation], with the same
    per-axis counts when the count is positive. *)
Theorem orientation_agrees_with_rotation (u i : Dims) (s : Squish)
    (r : InnerPack.Rotation) :
  posDims u -> okSquish s -> posDims i ->
  let a := InnerPack.tryRotation u i r s in
  let b := calculateUnitsPerOrientation (orient u (InnerPack.rot r)) i s in
  orientations = map InnerPack.rot InnerPack.rotations /\
  count b = InnerPack.count a /\
  ((0 < InnerPack.count a)%Z ->
   nx b = InnerPack.nx a /\ ny b = InnerPack.ny a /\ nz b = InnerPack.nz a).
Proof.
  intros Hu Hs Hi a b. split; [reflexivity|].
  destruct (tryRotation_counts_nonneg u i r s Hu Hs Hi) as (Hx & Hy & Hz).
  destruct (tryRotation_grid u i r s) as (Ex & Ey & Ez & Ec & Eu).
  fold a in Hx, Hy, Hz, Ex, Ey, Ez, Ec, Eu.
  assert (Eadj : InnerPack.adjustedDims a
                 = {| dimL := dimL (orient u (InnerPack.rot r)) * (1 - sqX s);
                      dimW := dimW (orient u (InnerPack.rot r)) * (1 - sqY s);
                      dimH := dimH (orient u (InnerPack.rot r)) * (1 - sqZ s) |})
    by (unfold a; destruct r; reflexivity).
  rewrite Eadj in Ex, Ey, Ez, Eu. cbn [dimL dimW dimH] in Ex, Ey, Ez, Eu.
  destruct (Z.lt_ge_cases 0 (count b)) as [Hb|Hb].
  - destruct (calculateUnitsPerOrientation_pos _ i s Hb)
      as (Bx & By & Bz & _ & _ & _ & Bc & Bu).
    fold b in Bx, By, Bz, Bc, Bu.
    rewrite <- Ex in Bx. rewrite <- Ey in By. rewrite <- Ez in Bz.
    assert (Ecount : count b = InnerPack.count a)
      by (rewrite Bc, Ec, Bx, By, Bz; reflexivity).
    split; [exact Ecount|].
    intros _. repeat split; assumption.
  - pose proof (calculateUnitsPerOrientation_zero _ i s Hb) as Ez0.
    fold b in Ez0.
    assert (Ha : (InnerPack.count a <= 0)%Z).
    { destruct (Z.lt_ge_cases 0 (InnerPack.count a)) as [Hpos|]; [|lia].
      exfalso. rewrite Ec in Hpos.
      assert (P : (0 < count b)%Z).
      { unfold b, calculateUnitsPerOrientation. cbn [dimL dimW dimH].
        rewrite <- Ex, <- Ey, <- Ez.
        destruct (Z.leb_spec (InnerPack.nx a) 0); [nia|].
        destruct (Z.leb_spec (InnerPack.ny a) 0); [nia|].
        destruct (Z.leb_spec (InnerPack.nz a) 0); [nia|].
        cbn [orb count]. nia. }
      lia. }
    assert (Ea0 : InnerPack.count a = 0%Z) by (rewrite Ec in *; nia).
    rewrite Ez0. cbn [count].
    split; [symmetry; exact Ea0 | lia].
Qed.

Lemma orientation_agrees_with_rotation_witness :
  count (calculateUnitsPerOrientation
           (orient {| dimL := 6; dimW := 4; dimH := 3 |}
                   (InnerPack.rot InnerPack.WHL))
           {| dimL := 24; dimW := 16; dimH := 12 |} noSquish)
  = InnerPack.count (InnerPack.tryRotation
                       {| dimL := 6; dimW := 4; dimH := 3 |}
                       {| dimL := 24; dimW := 16; dimH := 12 |}
                       InnerPack.WHL noSquish).
Proof.
  destruct (orientation_agrees_with_rotation
              {| dimL := 6; dimW := 4; dimH := 3 |}
              {| dimL := 24; dimW := 16; dimH := 12 |} noSquish InnerPack.WHL)
    as (_ & E & _); [by_evaluation ..|].
  exact E.
Defined.

End OrientationSolver.

(** * The choice among orientations in masterpackOptimizer.js *)
Section OrientationChoice.
Import MasterpackOptimizer.

Variables (sku : SkuEntry) (internal : Dims) (targetMultiples : list Z)
          (first : Z).

Lemma loopInvariant_step (done : list (Axis * Axis * Axis))
    (state : option Best * Q) (o : Axis * Axis * Axis) :
  loopInvariant sku internal targetMultiples first done state ->
  loopInvariant sku internal targetMultiples first (done ++ [o])
    (tryOrientation sku internal targetMultiples first state o).
Proof.
  destruct state as [ob x]. unfold loopInvariant. cbn [fst snd].
  intros (Hlow & Hmax & Hbest).
  unfold tryOrientation. cbn [fst snd].
  set (r := calculateUnitsPerOrientation (orient (unitDims sku) o) internal
                                         noSquish) in *.
  destruct (Z.leb_spec (count r) 0) as [Hc|Hc]; cbn [fst snd].
  - split; [exact Hlow|]. split.
    + intros o' Hin Hpos. apply in_app_iff in Hin.
      destruct Hin as [Hin|[<-|[]]]; [apply Hmax; assumption | fold r in Hpos; lia].
    + destruct ob as [b|]; [|exact Hbest].
      destruct Hbest as (Hin & Hrest). split; [|exact Hrest].
      apply in_app_iff. now left.
  - set (sc := orientationScore targetMultiples first r) in *.
    destruct (Qgtb sc x) eqn:G; cbn [fst snd].
    + apply Qgtb_true in G. split; [lra|]. split.
      * intros o' Hin Hpos. apply in_app_iff in Hin.
        destruct Hin as [Hin|[<-|[]]].
        -- specialize (Hmax o' Hin Hpos). lra.
        -- fold r. fold sc. lra.
      * cbn [orientation units best_sku best_score]. fold r. fold sc.
        repeat split; try reflexivity; try assumption; try lra.
        apply in_app_iff. right. now left.
    + apply Qgtb_false in G. split; [exact Hlow|]. split.
      * intros o' Hin Hpos. apply in_app_iff in Hin.
        destruct Hin as [Hin|[<-|[]]];
          [apply Hmax; assumption | fold r; fold sc; exact G].
      * destruct ob as [b|]; [|exact Hbest].
        destruct Hbest as (Hin & Hrest). split; [|exact Hrest].
        apply in_app_iff. now left.
Qed.

Lemma loopInvariant_fold (todo done : list (Axis * Axis * Axis))
    (state : option Best * Q) :
  loopInvariant sku internal targetMultiples first done state ->
  loopInvariant sku internal targetMultiples first (done ++ todo)
    (fold_left (tryOrientation sku internal targetMultiples first) todo state).
Proof.
  revert done state. induction todo as [|o todo IH]; intros done state Hinv.
  - rewrite app_nil_r. exact Hinv.
  - simpl. replace (done ++ o :: todo) with ((done ++ [o]) ++ todo)
      by (rewrite <- app_assoc; reflexivity).
    apply IH. apply loopInvariant_step. exact Hinv.
Qed.

Lemma loopInvariant_result :
  loopInvariant sku internal targetMultiples first orientations
    (fold_left (tryOrientation sku internal targetMultiples first)
               orientations (None, -1)).
Proof.
  apply (loopInvariant_fold orientations [] (None, -1)).
  split; [apply Qle_refl|]. split; [intros o []|]. cbn. reflexivity.
Qed.

End OrientationChoice.

Section OrientationResults.
Import MasterpackOptimizer.

Lemma orient_pos (u : Dims) (o : Axis * Axis * Axis) :
  posDims u -> posDims (orient u o).
Proof.
  intros (HL & HW & HH). destruct o as [[[] []] []];
    unfold posDims; simpl; tauto.
Qed.

Lemma noSquish_ok : okSquish noSquish.
Proof. unfold okSquish; simpl; repeat split; reflexivity. Qed.

(** X12: an arrangement returned by [findBestArrangement] of
    masterpackOptimizer.js is the arrangement of one of the six
    orientations, has a count of at least 1, carries the identifier of the
    product, has a score above -1, and no orientation with a positive count
    scores higher. *)
Theorem best_orientation_properties (sku : SkuEntry) (internal : Dims)
    (targetMultiples : list Z) (b : Best) :
  findBestArrangement sku internal targetMultiples = Some b ->
  let unitsOf o :=
    calculateUnitsPerOrientation (orient (unitDims sku) o) internal noSquish in
  let scoreOf o :=
    orientationScore targetMultiples (hd 0%Z targetMultiples) (unitsOf o) in
  In (orientation b) orientations /\
  units b = unitsOf (orientation b) /\
  (1 <= count (units b))%Z /\
  best_sku b = entry_sku sku /\
  best_score b = scoreOf (orientation b) /\
  -1 < best_score b /\
  forall o, In o orientations -> (0 < count (unitsOf o))%Z ->
            scoreOf o <= best_score b.
Proof.
  unfold findBestArrangement.
  destruct targetMultiples as [|first rest] eqn:Et; [discriminate|].
  rewrite <- Et. intros E. cbv zeta.
  replace (hd 0%Z targetMultiples) with first by (rewrite Et; reflexivity).
  pose proof (loopInvariant_result sku internal targetMultiples first)
    as (Hlow & Hmax & Hbest).
  rewrite E in Hbest.
  destruct Hbest as (Hin & Hu & Hc & Hs & Hsc & Hsnd & Hgt).
  repeat split; try assumption; try lia.
  intros o Ho Hpos. rewrite <- Hsnd. apply Hmax; assumption.
Qed.

Lemma best_orientation_properties_witness :
  exists b,
    findBestArrangement (mkSkuEntry "KIT" {| dimL := 6; dimW := 4; dimH := 3 |})
      {| dimL := 24; dimW := 16; dimH := 12 |} targetMultiplesDefault = Some b /\
    (1 <= count (units b))%Z /\ -1 < best_score b.
Proof.
  destruct (findBestArrangement
              (mkSkuEntry "KIT" {| dimL := 6; dimW := 4; dimH := 3 |})
              {| dimL := 24; dimW := 16; dimH := 12 |} targetMultiplesDefault)
    as [b|] eqn:E; [|vm_compute in E; discriminate].
  exists b. split; [reflexivity|].
  destruct (best_orientation_properties _ _ _ b E)
    as (_ & _ & Hc & _ & _ & Hs & _).
  split; assumption.
Defined.

(** The loop selects nothing exactly when every orientation is skipped or
    scores -1 or less. *)
Lemma findBestArrangement_None (sku : SkuEntry) (internal : Dims)
    (first : Z) (rest : list Z) :
  (forall o, In o orientations ->
     let r := calculateUnitsPerOrientation (orient (unitDims sku) o) internal
                                           noSquish in
     (count r <= 0)%Z \/ orientationScore (first :: rest) first r <= -1) ->
  findBestArrangement sku internal (first :: rest) = None.
Proof.
  intros Hskip. unfold findBestArrangement.
  assert (G : forall l,
             (forall o, In o l -> In o orientations) ->
             fold_left (tryOrientation sku internal (first :: rest) first) l
                       (None, -1) = (None, -1)).
  { induction l as [|o l IH]; intros Hsub; [reflexivity|].
    simpl. unfold tryOrientation at 2.
    destruct (Hskip o (Hsub o (or_introl eq_refl))) as [Hc|Hs].
    - apply Z.leb_le in Hc. rewrite Hc.
      apply IH. intros o' Ho'. apply Hsub. now right.
    - destruct (count _ <=? 0)%Z.
      + apply IH. intros o' Ho'. apply Hsub. now right.
      + cbn [snd]. apply Qgtb_false in Hs. rewrite Hs.
        apply IH. intros o' Ho'. apply Hsub. now right. }
  rewrite G by tauto. reflexivity.
Qed.

(** A multiple that is not above the count stays the closest one while only
    smaller multiples follow. *)
Lemma closestMultiple_stays (l : list Z) (closest c : Z) :
  (closest <= c)%Z -> (forall m, In m l -> (m <= closest)%Z) ->
  closestMultiple l closest c = closest.
Proof.
  unfold closestMultiple. intros Hc.
  induction l as [|m l IH]; intros Hl; [reflexivity|].
  cbn [fold_left].
  assert (Hm : (m <= closest)%Z) by (apply Hl; now left).
  destruct (Z.ltb_spec (Z.abs (m - c)) (Z.abs (closest - c))); [lia|].
  apply IH. intros m' Hm'. apply Hl. now right.
Qed.

(** With the default target multiples, a count of 200 or more scores -1 or
    less. *)
Lemma large_count_score (r : Units) :
  (200 <= count r)%Z -> utilization r <= 1 ->
  orientationScore targetMultiplesDefault 48 r <= -1.
Proof.
  intros Hc Hu. unfold orientationScore.
  assert (Ecl : closestMultiple targetMultiplesDefault 48 (count r) = 48%Z).
  { apply closestMultiple_stays; [lia|].
    intros m Hm. unfold targetMultiplesDefault in Hm.
    repeat (destruct Hm as [<-|Hm]; [lia|]). destruct Hm. }
  rewrite Ecl.
  assert (Eex : existsb (Z.eqb (count r)) targetMultiplesDefault = false).
  { unfold targetMultiplesDefault. cbn [existsb].
    repeat match goal with
           | |- context [(?a =? ?b)%Z] => destruct (Z.eqb_spec a b); try lia
           end;
    try reflexivity. }
  assert (Hk : 152 <= inject_Z (Z.abs (48 - count r))).
  { change 152 with (inject_Z 152). rewrite <- Zle_Qle. lia. }
  change (inject_Z 48) with 48.
  set (k := inject_Z (Z.abs (48 - count r))) in *.
  assert (Hd : 152 / 48 <= k / 48).
  { apply Qmult_le_compat_r; [exact Hk|]. by_evaluation. }
  set (q := k / 48) in *.
  assert (Hq : (19 # 6) <= q).
  { eapply Qle_trans; [|exact Hd]. by_evaluation. }
  destruct (existsb _ _); [discriminate|].
  set (u := utilization r) in *.
  clearbody q u. clear Hd. lra.
Qed.

(** From 201 units on the score keeps a distance from -1. *)
Lemma larger_count_score (r : Units) :
  (201 <= count r)%Z -> utilization r <= 1 ->
  orientationScore targetMultiplesDefault 48 r <= -1.0125.
Proof.
  intros Hc Hu. unfold orientationScore.
  assert (Ecl : closestMultiple targetMultiplesDefault 48 (count r) = 48%Z).
  { apply closestMultiple_stays; [lia|].
    intros m Hm. unfold targetMultiplesDefault in Hm.
    repeat (destruct Hm as [<-|Hm]; [lia|]). destruct Hm. }
  rewrite Ecl.
  assert (Eex : existsb (Z.eqb (count r)) targetMultiplesDefault = false).
  { unfold targetMultiplesDefault. cbn [existsb].
    repeat match goal with
           | |- context [(?a =? ?b)%Z] => destruct (Z.eqb_spec a b); try lia
           end;
    try reflexivity. }
  assert (Hk : 153 <= inject_Z (Z.abs (48 - count r))).
  { change 153 with (inject_Z 153). rewrite <- Zle_Qle. lia. }
  change (inject_Z 48) with 48.
  set (k := inject_Z (Z.abs (48 - count r))) in *.
  assert (Hd : 153 / 48 <= k / 48).
  { apply Qmult_le_compat_r; [exact Hk|]. by_evaluation. }
  set (q := k / 48) in *.
  assert (Hq : (51 # 16) <= q).
  { eapply Qle_trans; [|exact Hd]. by_evaluation. }
  destruct (existsb _ _); [discriminate|].
  set (u := utilization r) in *.
  clearbody q u. clear Hd.
  assert (Ec : -1.0125 == - (81 # 80)) by reflexivity.
  rewrite Ec. lra.
Qed.

(** X13: [findBestArrangement] of masterpackOptimizer.js returns [null]
    when no orientation has a positive count, and also, with the default
    target multiples and positive extents, when more than 200 units fit in
    every orientation: small products get no arrangement.  (From 201 units
    on the score is below -1.01, clear of the initial best score -1.) *)
Theorem no_arrangement_for_misfits_and_small_units (sku : SkuEntry)
    (internal : Dims) :
  let unitsOf o :=
    calculateUnitsPerOrientation (orient (unitDims sku) o) internal noSquish in
  (forall first rest,
      (forall o, In o orientations -> (count (unitsOf o) <= 0)%Z) ->
      findBestArrangement sku internal (first :: rest) = None) /\
  (posDims (unitDims sku) -> posDims internal ->
   (forall o, In o orientations -> (201 <= count (unitsOf o))%Z) ->
   findBestArrangement sku internal targetMultiplesDefault = None /\
   forall o, In o orientations ->
     orientationScore targetMultiplesDefault 48 (unitsOf o) <= -1.0125).
Proof.
  cbv zeta. split.
  - intros first rest Hnone. apply findBestArrangement_None.
    intros o Ho. left. apply Hnone. exact Ho.
  - intros Hu Hi Hbig. split.
    2:{ intros o Ho. apply larger_count_score.
        - apply Hbig. exact Ho.
        - apply calculateUnitsPerOrientation_utilization;
            [apply orient_pos; exact Hu | apply noSquish_ok | exact Hi |].
          specialize (Hbig o Ho). lia. }
    apply findBestArrangement_None.
    intros o Ho. right. apply large_count_score.
    + specialize (Hbig o Ho). lia.
    + apply calculateUnitsPerOrientation_utilization;
        [apply orient_pos; exact Hu | apply noSquish_ok | exact Hi |].
      specialize (Hbig o Ho). lia.
Qed.

Lemma no_arrangement_witness :
  findBestArrangement (mkSkuEntry "KIT" {| dimL := 1; dimW := 1; dimH := 1 |})
    {| dimL := 10; dimW := 10; dimH := 10 |} targetMultiplesDefault = None /\
  findBestArrangement (mkSkuEntry "KIT" {| dimL := 30; dimW := 4; dimH := 3 |})
    {| dimL := 10; dimW := 10; dimH := 10 |} targetMultiplesDefault = None.
Proof.
  split.
  - apply (proj2 (no_arrangement_for_misfits_and_small_units
                    (mkSkuEntry "KIT" {| dimL := 1; dimW := 1; dimH := 1 |})
                    {| dimL := 10; dimW := 10; dimH := 10 |}));
      try by_evaluation.
    intros o Ho. repeat (destruct Ho as [<-|Ho]; [vm_compute; discriminate|]).
    destruct Ho.
  - apply (proj1 (no_arrangement_for_misfits_and_small_units
                    (mkSkuEntry "KIT" {| dimL := 30; dimW := 4; dimH := 3 |})
                    {| dimL := 10; dimW := 10; dimH := 10 |})).
    intros o Ho. repeat (destruct Ho as [<-|Ho]; [vm_compute; discriminate|]).
    destruct Ho.
Defined.

End OrientationResults.

(** * The stacking of masterpackOptimizer.js *)
Section LegacyStacking.
Import MasterpackOptimizer.

(** X14: [calculatePalletStacking] of masterpackOptimizer.js lays the cases
    in the unrotated orientation of palletizer.js only, and flags an
    overhang against the fixed limit 0.5: its counts and overhangs are those
    of [Palletizer.option1], whatever the other orientation would hold.
    Whenever the column pattern of palletizer.js chooses that orientation
    for the same pallet and target height, the two stackings have the same
    counts per axis and per layer, the same number of layers, the same total
    and the same pallet height. *)
Theorem legacy_stacking_is_unrotated_column (c : Dims) (g : GlobalSettings) :
  let s := calculatePalletStacking c g in
  let p := {| dimL := pallet_length g; dimW := pallet_width g;
              dimH := pallet_height g |} in
  let o := Palletizer.option1 c p in
  (casesWide s = Palletizer.wide o /\ casesLong s = Palletizer.long o /\
   casesPerLayer s = Palletizer.layerCount o /\
   overhangWidth s = Palletizer.overhangW o /\
   overhangLength s = Palletizer.overhangL o /\
   overhangWidthFlag s = Qgtb (Palletizer.overhangW o) 0.5 /\
   overhangLengthFlag s = Qgtb (Palletizer.overhangL o) 0.5) /\
  (forall (cfg : Config) (pattern : string),
      pallet cfg = p ->
      Palletizer.calculateColumnPattern c p (max_overhang_in (solver cfg)) = o ->
      let t :=
        Palletizer.calculatePalletStacking c cfg (targetPalletHeight g)
                                           pattern in
      casesWide s = Palletizer.casesWide t /\
      casesLong s = Palletizer.casesLong t /\
      casesPerLayer s = Palletizer.casesPerLayer t /\
      maxLayers s = Palletizer.maxLayers t /\
      totalCases s = Palletizer.totalCases t /\
      palletHeight s = Palletizer.palletHeight t).
Proof.
  cbv zeta. split; [repeat split|].
  intros cfg pattern Ep Eo.
  unfold Palletizer.calculatePalletStacking.
  cbn [Palletizer.casesWide Palletizer.casesLong Palletizer.casesPerLayer
       Palletizer.maxLayers Palletizer.totalCases Palletizer.palletHeight].
  unfold Palletizer.calculateBrickPattern, Palletizer.calculatePinwheelPattern,
    Palletizer.calculateSwap4048Pattern.
  destruct (String.eqb pattern "brick"), (String.eqb pattern "pinwheel"),
    (String.eqb pattern "swap-40-48");
    rewrite Ep, Eo; repeat split.
Qed.

Lemma legacy_stacking_witness :
  let s := calculatePalletStacking {| dimL := 24; dimW := 20; dimH := 14 |}
             {| pallet_width := 40; pallet_length := 48; pallet_height := 5;
                targetPalletHeight := 64 |} in
  let t := Palletizer.calculatePalletStacking
             {| dimL := 24; dimW := 20; dimH := 14 |}
             (sampleConfig {| dimL := 24; dimW := 20; dimH := 14 |} 0)
             64 "column" in
  totalCases s = Palletizer.totalCases t /\
  palletHeight s = Palletizer.palletHeight t.
Proof.
  destruct (proj2 (legacy_stacking_is_unrotated_column
                     {| dimL := 24; dimW := 20; dimH := 14 |}
                     {| pallet_width := 40; pallet_length := 48;
                        pallet_height := 5; targetPalletHeight := 64 |})
              (sampleConfig {| dimL := 24; dimW := 20; dimH := 14 |} 0)
              "column"%string)
    as (_ & _ & _ & _ & A & B); [reflexivity | vm_compute; reflexivity |].
  split; assumption.
Defined.

End LegacyStacking.

(** * The swept candidates *)
Section SweptCandidates.
Import MultiSku PrimFloat.
Local Set Warnings "-inexact-float".

Lemma forValues_sound (maxDim step : Q) (fuel : nat) :
  forall x0 l,
    forValues fuel x0 maxDim step = Some l ->
    forall x, In x l ->
      x <= maxDim /\
      exists k : nat, x == x0 + inject_Z (Z.of_nat k) * step.
Proof.
  induction fuel as [|fuel IH]; intros x0 l E x Hx; simpl in E;
    destruct (Qle_bool x0 maxDim) eqn:B; try discriminate;
    try (injection E as <-; destruct Hx).
  destruct (forValues fuel (x0 + step) maxDim step) as [l'|] eqn:E';
    [|discriminate].
  simpl in E. injection E as <-. destruct Hx as [<-|Hx].
  - split; [apply Qle_bool_iff; exact B|]. exists 0%nat. simpl. ring.
  - destruct (IH _ _ E' x Hx) as (Hle & k & Ek). split; [exact Hle|].
    exists (S k). rewrite Ek, Nat2Z.inj_succ. unfold Z.succ.
    rewrite inject_Z_plus. change (inject_Z 1) with 1. ring.
Qed.

Lemma Qfloor_unique (q : Q) (z : Z) :
  inject_Z z <= q -> q < inject_Z (z + 1) -> Qfloor q = z.
Proof.
  intros Hlo Hhi.
  pose proof (Qfloor_le q) as F1. pose proof (Qlt_floor q) as F2.
  assert (A : inject_Z z < inject_Z (Qfloor q + 1))
    by (eapply Qle_lt_trans; eassumption).
  assert (B : inject_Z (Qfloor q) < inject_Z (z + 1))
    by (eapply Qle_lt_trans; eassumption).
  rewrite <- Zlt_Qlt in A, B. lia.
Qed.

Lemma Qfloor_minus_one (q : Q) : Qfloor (q - 1) = (Qfloor q - 1)%Z.
Proof.
  pose proof (Qfloor_le q) as F1. pose proof (Qlt_floor q) as F2.
  rewrite inject_Z_plus in F2. change (inject_Z 1) with 1 in F2.
  apply Qfloor_unique.
  - unfold Z.sub. rewrite inject_Z_plus, inject_Z_opp.
    change (inject_Z 1) with 1. lra.
  - replace (Qfloor q - 1 + 1)%Z with (Qfloor q) by lia. lra.
Qed.

(** The number of turns of a loop with a positive step. *)
Lemma forValues_length (maxDim step : Q) (fuel : nat) :
  0 < step ->
  forall x0 l,
    forValues fuel x0 maxDim step = Some l ->
    List.length l = Z.to_nat (Qfloor ((maxDim - x0) / step) + 1).
Proof.
  intros Hstep. induction fuel as [|fuel IH]; intros x0 l E; simpl in E;
    destruct (Qle_bool x0 maxDim) eqn:B; try discriminate.
  - injection E as <-. cbn [List.length].
    assert (Hgt : maxDim < x0).
    { apply Qnot_le_lt. intros C. apply Qle_bool_iff in C. congruence. }
    assert (Hneg : (Qfloor ((maxDim - x0) / step) < 0)%Z)
      by (apply floor_div_neg; lra).
    lia.
  - destruct (forValues fuel (x0 + step) maxDim step) as [l'|] eqn:E';
      [|discriminate].
    simpl in E. injection E as <-. cbn [List.length]. rewrite (IH _ _ E').
    apply Qle_bool_iff in B.
    assert (Eq : (maxDim - (x0 + step)) / step == (maxDim - x0) / step - 1)
      by (field; lra).
    rewrite (Qfloor_comp _ _ Eq), Qfloor_minus_one.
    assert (Hnn : (0 <= Qfloor ((maxDim - x0) / step))%Z)
      by (apply floor_div_nonneg; lra).
    lia.
  - injection E as <-. cbn [List.length].
    assert (Hgt : maxDim < x0).
    { apply Qnot_le_lt. intros C. apply Qle_bool_iff in C. congruence. }
    assert (Hneg : (Qfloor ((maxDim - x0) / step) < 0)%Z)
      by (apply floor_div_neg; lra).
    lia.
Qed.

Lemma maxOf_le (a m : Q) (l : list Q) :
  maxOf a l <= m <-> a <= m /\ forall x, In x l -> x <= m.
Proof.
  unfold maxOf. revert a. induction l as [|y l IH]; intros a; simpl.
  - split; [intros H; split; [exact H | intros x []] | tauto].
  - rewrite IH, Q.max_lub_iff. split.
    + intros ((Ha & Hy) & Hl). split; [exact Ha|].
      intros x [<-|Hx]; [exact Hy | apply Hl; exact Hx].
    + intros (Ha & Hl). split; [split; [exact Ha | apply Hl; now left]|].
      intros x Hx. apply Hl. now right.
Qed.

(** For positive extents the aspect test says that no extent is more than
    twice another. *)
Lemma aspectOk_iff (d : Dims) :
  posDims d ->
  (aspectOk d = true <->
   forall a b : Axis, getAxis d a <= 2 * getAxis d b).
Proof.
  intros (HL & HW & HH). unfold aspectOk. cbv zeta.
  rewrite Qle_bool_iff, maxOf_le.
  assert (R : forall x y, 0 < y -> (x / y <= 2 <-> x <= 2 * y)).
  { intros x y Hy. split; intros H.
    - assert (E : x == x / y * y) by (field; lra).
      assert (x / y * y <= 2 * y) by (apply Qmult_le_compat_r; lra). lra.
    - apply Qle_shift_div_r; lra. }
  split.
  - intros (H0 & Hl) a b.
    assert (H1 := Hl (dimW d / dimL d)). assert (H2 := Hl (dimL d / dimH d)).
    assert (H3 := Hl (dimH d / dimL d)). assert (H4 := Hl (dimW d / dimH d)).
    assert (H5 := Hl (dimH d / dimW d)).
    simpl in H1, H2, H3, H4, H5.
    apply R in H0; [|assumption].
    apply R in H1; [|assumption|tauto].
    apply R in H2; [|assumption|tauto].
    apply R in H3; [|assumption|tauto].
    apply R in H4; [|assumption|tauto].
    apply R in H5; [|assumption|tauto].
    destruct a, b; simpl; lra.
  - intros Hall. split.
    + apply R; [assumption|]. exact (Hall AxL AxW).
    + intros x Hx. simpl in Hx.
      destruct Hx as [<-|[<-|[<-|[<-|[<-|[]]]]]]; apply R; try assumption.
      * exact (Hall AxW AxL).
      * exact (Hall AxL AxH).
      * exact (Hall AxH AxL).
      * exact (Hall AxW AxH).
      * exact (Hall AxH AxW).
Qed.

(** The candidates are the triples of loop values that pass the aspect
    test. *)
Lemma generateCandidateDimensions_In (minDim maxDim step : Q)
    (candidates : list Dims) :
  generateCandidateDimensions minDim maxDim step = Some candidates ->
  exists values,
    forValues (loopFuel minDim maxDim step) minDim maxDim step = Some values /\
    forall d, In d candidates <->
              In (dimL d) values /\ In (dimW d) values /\
              In (dimH d) values /\ aspectOk d = true.
Proof.
  unfold generateCandidateDimensions.
  destruct (forValues _ minDim maxDim step) as [values|]; [|discriminate].
  intros E. injection E as <-. exists values. split; [reflexivity|].
  intros d. rewrite in_flat_map. split.
  - intros (l & Hl & Hd). apply in_flat_map in Hd.
    destruct Hd as (w & Hw & Hd). apply in_flat_map in Hd.
    destruct Hd as (h & Hh & Hd).
    destruct (aspectOk {| dimL := l; dimW := w; dimH := h |}) eqn:A;
      [|destruct Hd].
    destruct Hd as [<-|[]]. simpl. tauto.
  - intros (Hl & Hw & Hh & A). exists (dimL d). split; [exact Hl|].
    apply in_flat_map. exists (dimW d). split; [exact Hw|].
    apply in_flat_map. exists (dimH d). split; [exact Hh|].
    destruct d as [l w h]. simpl in *. rewrite A. now left.
Qed.

(** X15: over exact arithmetic, for a positive step and a positive lower
    bound, the sweep ends and every candidate [generateCandidateDimensions]
    produces has each extent on the grid [minDim + k * step] within
    [minDim, maxDim], and no extent is more than twice another.  In double
    precision the loop variable accumulates rounding: the sweep from 1 to
    1.3 in steps of 0.1 runs over 1, 1.1 and 1.2000000000000002 and stops
    there; and with a step of 1e-17 from 1 the variable never changes, so
    the loop does not end. *)
Theorem candidates_on_grid_with_bounded_aspect :
  (forall minDim maxDim step : Q,
      0 < step -> 0 < minDim ->
      exists candidates,
        generateCandidateDimensions minDim maxDim step = Some candidates /\
        forall d, In d candidates ->
          (forall a : Axis,
              minDim <= getAxis d a /\ getAxis d a <= maxDim /\
              exists k : nat,
                getAxis d a == minDim + inject_Z (Z.of_nat k) * step) /\
          (forall a b : Axis, getAxis d a <= 2 * getAxis d b)) /\
  Doubles.forValues 10 1 1.3 0.1
  = Some [1%float; 1.1%float; 1.2000000000000002%float] /\
  (1.2000000000000002 + 0.1 = 1.3000000000000003)%float /\
  (1 + 1e-17 = 1)%float /\
  (forall fuel : nat, Doubles.forValues fuel 1 2 1e-17 = None).
Proof.
  split; [|split; [vm_compute; reflexivity|split; [vm_compute; reflexivity|]]].
  2:{ assert (E : (1 + 1e-17 = 1)%float) by (vm_compute; reflexivity).
      split; [exact E|].
      intros fuel. induction fuel as [|fuel IH]; [vm_compute; reflexivity|].
      cbn [Doubles.forValues]. rewrite E, IH. reflexivity. }
  intros minDim maxDim step Hstep Hmin.
  destruct (generateCandidateDimensions_total minDim maxDim step Hstep)
    as [candidates E].
  exists candidates. split; [exact E|].
  destruct (generateCandidateDimensions_In _ _ _ _ E) as (values & Ev & Hin).
  intros d Hd. apply Hin in Hd. destruct Hd as (Hl & Hw & Hh & A).
  assert (G : forall x, In x values ->
              minDim <= x /\ x <= maxDim /\
              exists k : nat, x == minDim + inject_Z (Z.of_nat k) * step).
  { intros x Hx. destruct (forValues_sound _ _ _ _ _ Ev x Hx) as (Hle & k & Ek).
    split; [|split; [exact Hle | exists k; exact Ek]].
    assert (0 <= inject_Z (Z.of_nat k)) by (apply inject_Z_nonneg; lia).
    rewrite Ek. nra. }
  assert (P : posDims d).
  { destruct (G _ Hl) as (? & _), (G _ Hw) as (? & _), (G _ Hh) as (? & _).
    unfold posDims. repeat split; lra. }
  split.
  - intros a. destruct a; simpl; apply G; assumption.
  - apply aspectOk_iff; assumption.
Qed.

Lemma candidates_on_grid_witness :
  exists candidates,
    generateCandidateDimensions 14 22 0.5 = Some candidates /\
    forall d, In d candidates -> dimL d <= 2 * dimH d.
Proof.
  destruct (proj1 candidates_on_grid_with_bounded_aspect 14 22 0.5)
    as (candidates & E & H); [reflexivity | reflexivity |].
  exists candidates. split; [exact E|].
  intros d Hd. exact (proj2 (H d Hd) AxL AxH).
Defined.

Lemma flat_map_length_const {A B : Type} (f : A -> list B) (l : list A)
    (m : nat) :
  (forall x, In x l -> List.length (f x) = m) ->
  List.length (flat_map f l) = (List.length l * m)%nat.
Proof.
  induction l as [|x l IH]; intros H; simpl; [reflexivity|].
  rewrite length_app, IH, H; [reflexivity | now left |].
  intros y Hy. apply H. now right.
Qed.

(** X16: over exact arithmetic, when the upper bound is at most twice the
    positive lower bound (as in the default sweep 12..24) the aspect test
    prunes nothing: the number of candidates is the cube of the number of
    loop values, [floor((maxDim - minDim) / step) + 1].  In double precision
    accumulated rounding can end the loops one value early: the sweep from 1
    to 1.3 in steps of 0.1 gives 27 candidates, where exact arithmetic gives
    64. *)
Theorem sweep_without_pruning_is_a_cube :
  (forall minDim maxDim step : Q,
      0 < step -> 0 < minDim -> minDim <= maxDim -> maxDim <= 2 * minDim ->
      exists candidates,
        generateCandidateDimensions minDim maxDim step = Some candidates /\
        let n := Z.to_nat (Qfloor ((maxDim - minDim) / step) + 1) in
        List.length candidates = (n * (n * n))%nat) /\
  option_map (@List.length Dims) (generateCandidateDimensions 1 1.3 0.1)
  = Some 64%nat /\
  option_map (@List.length Doubles.Dims)
    (Doubles.generateCandidateDimensions 10 1 1.3 0.1)
  = Some 27%nat.
Proof.
  split; [|split; vm_compute; reflexivity].
  intros minDim maxDim step Hstep Hmin Hle H2.
  destruct (generateCandidateDimensions_total minDim maxDim step Hstep)
    as [candidates E].
  exists candidates. split; [exact E|]. cbv zeta.
  unfold generateCandidateDimensions in E.
  destruct (forValues _ minDim maxDim step) as [values|] eqn:Ev;
    [|discriminate].
  injection E as <-.
  rewrite <- (forValues_length _ _ _ Hstep _ _ Ev).
  assert (G : forall x, In x values -> minDim <= x /\ x <= maxDim).
  { intros x Hx. destruct (forValues_sound _ _ _ _ _ Ev x Hx) as (Hx1 & k & Ek).
    split; [|exact Hx1].
    assert (0 <= inject_Z (Z.of_nat k)) by (apply inject_Z_nonneg; lia).
    rewrite Ek. nra. }
  apply flat_map_length_const. intros l Hl.
  apply flat_map_length_const. intros w Hw.
  rewrite (flat_map_length_const _ values 1%nat); [lia|].
  intros h Hh.
  destruct (G l Hl), (G w Hw), (G h Hh).
  assert (A : aspectOk {| dimL := l; dimW := w; dimH := h |} = true).
  { apply aspectOk_iff; [unfold posDims; simpl; repeat split; lra|].
    intros a b. destruct a, b; simpl; lra. }
  rewrite A. reflexivity.
Qed.

Lemma sweep_without_pruning_witness :
  exists candidates,
    generateCandidateDimensions 12 24 1 = Some candidates /\
    List.length candidates = 2197%nat.
Proof.
  destruct (proj1 sweep_without_pruning_is_a_cube 12 24 1)
    as (candidates & E & H); [by_evaluation ..|].
  exists candidates. split; [exact E | exact H].
Defined.

End SweptCandidates.

(** * Pallet fit and the column pattern *)
Section PalletFitProperties.
Import MultiSku.

(** X17: the two layers of [checkPalletFit] are the two orientations of
    [calculateColumnPattern]: whatever the overhang limit, the count of the
    chosen column plan is [layer1Count] or [layer2Count], and a box that can
    interlock always gets a column plan with at least one case. *)
Theorem interlocking_box_has_column_plan (box pal : Dims) (m : Q) :
  let fit := checkPalletFit box pal in
  let r := Palletizer.calculateColumnPattern box pal m in
  layer1Count fit = Palletizer.layerCount (Palletizer.option1 box pal) /\
  layer2Count fit = Palletizer.layerCount (Palletizer.option2 box pal) /\
  (Palletizer.layerCount r = layer1Count fit \/
   Palletizer.layerCount r = layer2Count fit) /\
  (canInterlock fit = true -> (1 <= Palletizer.layerCount r)%Z).
Proof.
  cbv zeta.
  assert (E1 : layer1Count (checkPalletFit box pal)
               = Palletizer.layerCount (Palletizer.option1 box pal))
    by reflexivity.
  assert (E2 : layer2Count (checkPalletFit box pal)
               = Palletizer.layerCount (Palletizer.option2 box pal))
    by reflexivity.
  assert (Hr : Palletizer.layerCount (Palletizer.calculateColumnPattern box pal m)
               = layer1Count (checkPalletFit box pal) \/
               Palletizer.layerCount (Palletizer.calculateColumnPattern box pal m)
               = layer2Count (checkPalletFit box pal)).
  { rewrite E1, E2.
    destruct (calculateColumnPattern_cases box pal m)
      as [(_ & _ & [[_ E]|[_ E]])
         |[(_ & _ & E)
         |[(_ & _ & E)
         |(_ & _ & [[_ E]|[_ E]])]]]; rewrite E;
      rewrite ?layerCount_flagged; tauto. }
  repeat split; try assumption.
  intros Hc. unfold checkPalletFit in Hc. cbn [canInterlock] in Hc.
  apply andb_true_iff in Hc. destruct Hc as [H1 H2].
  apply Z.ltb_lt in H1, H2.
  change (Qfloor (dimW pal / dimW box) * Qfloor (dimL pal / dimL box))%Z
    with (layer1Count (checkPalletFit box pal)) in H1.
  change (Qfloor (dimW pal / dimL box) * Qfloor (dimL pal / dimW box))%Z
    with (layer2Count (checkPalletFit box pal)) in H2.
  destruct Hr as [-> | ->]; lia.
Qed.

(** X18: turning the box by 90 degrees exchanges the two layers of
    [checkPalletFit], counts and coverages alike, and changes neither
    [canInterlock] nor [avgCoverage]. *)
Theorem checkPalletFit_turn_exchanges_layers (box pal : Dims) :
  let turned := {| dimL := dimW box; dimW := dimL box; dimH := dimH box |} in
  let fit := checkPalletFit box pal in
  let fit' := checkPalletFit turned pal in
  layer1Count fit' = layer2Count fit /\ layer2Count fit' = layer1Count fit /\
  layer1Coverage fit' = layer2Coverage fit /\
  layer2Coverage fit' = layer1Coverage fit /\
  canInterlock fit' = canInterlock fit /\
  avgCoverage fit' == avgCoverage fit.
Proof.
  cbv zeta. repeat split.
  - unfold checkPalletFit. cbn [canInterlock dimL dimW]. apply andb_comm.
  - unfold checkPalletFit. cbn [avgCoverage dimL dimW]. unfold Qdiv. ring.
Qed.

End PalletFitProperties.

(** * Shape and order of the search result *)
Section SearchShape.
Import InnerPack MultiSku.

Lemma firstn_sorted {A : Type} (R : A -> A -> Prop) (n : nat) (l : list A) :
  StronglySorted R l -> StronglySorted R (firstn n l).
Proof.
  revert l. induction n as [|n IH]; intros l Hs; [constructor|].
  destruct l as [|x l]; [constructor|]. simpl.
  inversion Hs as [|? ? Hl Hx]; subst. constructor; [apply IH; exact Hl|].
  rewrite Forall_forall in Hx |- *. intros y Hy.
  apply Hx. eapply firstn_incl. exact Hy.
Qed.

Lemma filter_length_le {A : Type} (f : A -> bool) (l : list A) :
  (List.length (filter f l) <= List.length l)%nat.
Proof.
  induction l as [|x l IH]; simpl; [lia|].
  destruct (f x); simpl; lia.
Qed.

(** X19: in every result of [findOptimalMasterpack], [optimal] is the first
    of [topCandidates] and is absent exactly when [validCandidates] is 0;
    [topCandidates] has [min(5, validCandidates)] entries; and
    [validCandidates] never exceeds [totalTested]. *)
Theorem search_result_shape (skus : list Sku) (config : Config)
    (options : Options) (r : SearchResult) :
  findOptimalMasterpack skus config options = Some r ->
  optimal r = hd_error (topCandidates r) /\
  (optimal r = None <-> validCandidates r = 0%nat) /\
  List.length (topCandidates r) = Nat.min 5 (validCandidates r) /\
  (validCandidates r <= totalTested r)%nat.
Proof.
  rewrite findOptimalMasterpack_unfold.
  destruct (candidatesOf options) as [candidates|]; [|discriminate].
  cbv zeta. intros E. injection E as <-.
  cbn [optimal topCandidates validCandidates totalTested].
  set (kept := keptCandidates skus config candidates).
  repeat split.
  - destruct kept; reflexivity.
  - destruct kept; [reflexivity | discriminate].
  - destruct kept; [reflexivity | discriminate].
  - exact (length_firstn 5 kept).
  - unfold kept, keptCandidates. rewrite sortDesc_length.
    etransitivity; [apply filter_length_le|]. rewrite length_map. lia.
Qed.

Lemma search_result_shape_witness :
  exists r,
    findOptimalMasterpack
      [sampleSku 6 4 3 (Some 40); sampleSku 5 5 5 None]
      (sampleConfig {| dimL := 18; dimW := 18; dimH := 18 |} 0.25)
      (mkOptions (Some 14) (Some 16) (Some 1)) = Some r /\
    List.length (topCandidates r) = Nat.min 5 (validCandidates r).
Proof.
  destruct (findOptimalMasterpack
              [sampleSku 6 4 3 (Some 40); sampleSku 5 5 5 None]
              (sampleConfig {| dimL := 18; dimW := 18; dimH := 18 |} 0.25)
              (mkOptions (Some 14) (Some 16) (Some 1))) as [r|] eqn:E;
    [|vm_compute in E; discriminate].
  exists r. split; [reflexivity|].
  exact (proj1 (proj2 (proj2 (search_result_shape _ _ _ r E)))).
Defined.

(** X20: [topCandidates] is in descending order of score, and [optimal]
    scores at least as high as every candidate of the sweep that has a
    positive score. *)
Theorem optimal_has_top_score (skus : list Sku) (config : Config)
    (options : Options) (r : SearchResult) :
  findOptimalMasterpack skus config options = Some r ->
  StronglySorted (fun a b => sortKey b <= sortKey a) (topCandidates r) /\
  forall c candidates d x,
    optimal r = Some c ->
    candidatesOf options = Some candidates -> In d candidates ->
    candScore (scoreCandidate skus config d) = Some x -> 0 < x ->
    exists y, candScore c = Some y /\ x <= y.
Proof.
  rewrite findOptimalMasterpack_unfold.
  destruct (candidatesOf options) as [candidates|] eqn:Ec; [|discriminate].
  cbv zeta. intros E. injection E as <-.
  cbn [optimal topCandidates]. split.
  - apply (firstn_sorted _ 5 (keptCandidates skus config candidates)).
    unfold keptCandidates. apply sortDesc_sorted.
  - intros c candidates' d x Hopt E' Hd Hx Hpos. injection E' as <-.
    unfold keptCandidates in Hopt.
    set (passed := filter _ _) in Hopt.
    assert (Hin : In (scoreCandidate skus config d) passed).
    { apply filter_In. split.
      - apply in_map. exact Hd.
      - rewrite Hx. simpl. apply Qgtb_true. exact Hpos. }
    pose proof (sortDesc_head_greatest sortKey passed c _ Hopt Hin) as Hle.
    assert (Hc : In c passed).
    { apply (sortDesc_In sortKey). apply hd_error_incl. exact Hopt. }
    apply filter_In in Hc. destruct Hc as [_ Hc].
    unfold sortKey in Hle. rewrite Hx in Hle.
    destruct (candScore c) as [y|]; [|discriminate].
    exists y. split; [reflexivity | exact Hle].
Qed.

Lemma optimal_has_top_score_witness :
  exists r,
    findOptimalMasterpack
      [sampleSku 6 4 3 (Some 40); sampleSku 5 5 5 None]
      (sampleConfig {| dimL := 18; dimW := 18; dimH := 18 |} 0.25)
      (mkOptions (Some 14) (Some 16) (Some 1)) = Some r /\
    StronglySorted (fun a b => sortKey b <= sortKey a) (topCandidates r).
Proof.
  destruct (findOptimalMasterpack
              [sampleSku 6 4 3 (Some 40); sampleSku 5 5 5 None]
              (sampleConfig {| dimL := 18; dimW := 18; dimH := 18 |} 0.25)
              (mkOptions (Some 14) (Some 16) (Some 1))) as [r|] eqn:E;
    [|vm_compute in E; discriminate].
  exists r. split; [reflexivity|].
  exact (proj1 (optimal_has_top_score _ _ _ r E)).
Defined.

Lemma scoreBoxCandidate_empty (config : Config) :
  forall d pf, exists s,
    scoreBoxCandidate d [] config pf = Accepted s /\
    allFit s = true /\ score s = None.
Proof.
  intros d pf. eexists. split; [reflexivity|]. split; [reflexivity|].
  cbn. destruct (canInterlock pf); reflexivity.
Qed.

(** X21: with an empty catalog every candidate is scored [NaN] (the
    averages are [0 / 0]), so the search keeps none of them: the result has
    no optimal candidate and zero valid candidates although no product fails
    to fit. *)
Theorem empty_catalog_keeps_no_candidate (config : Config)
    (options : Options) :
  0 < orDefault 1 (step options) ->
  (forall d pf, exists s,
      scoreBoxCandidate d [] config pf = Accepted s /\
      allFit s = true /\ score s = None) /\
  exists candidates,
    candidatesOf options = Some candidates /\
    findOptimalMasterpack [] config options
    = Some {| optimal := None; topCandidates := [];
              totalTested := List.length candidates;
              validCandidates := 0 |}.
Proof.
  intros Hstep. split.
  - apply scoreBoxCandidate_empty.
  - destruct (findOptimalMasterpack_total [] config options Hstep)
      as (candidates & Ec & Er).
    exists candidates. split; [exact Ec|]. rewrite Er.
    assert (K : forall l, keptCandidates [] config l = []).
    { intros l. unfold keptCandidates. apply sortDesc_nil.
      induction l as [|d l IH]; [reflexivity|].
      cbn [map filter].
      destruct (scoreBoxCandidate_empty config d
                  (checkPalletFit d (pallet config))) as (s & Es & _ & Hs).
      unfold candScore, scoreCandidate at 1. cbn [boxScore].
      rewrite Es, Hs. exact IH. }
    rewrite K. reflexivity.
Qed.

Lemma empty_catalog_witness :
  exists candidates,
    candidatesOf (mkOptions None None None) = Some candidates /\
    findOptimalMasterpack []
      (sampleConfig {| dimL := 18; dimW := 18; dimH := 18 |} 0.25)
      (mkOptions None None None)
    = Some {| optimal := None; topCandidates := [];
              totalTested := List.length candidates;
              validCandidates := 0 |}.
Proof.
  exact (proj2 (empty_catalog_keeps_no_candidate
                  (sampleConfig {| dimL := 18; dimW := 18; dimH := 18 |} 0.25)
                  (mkOptions None None None) eq_refl)).
Defined.

Lemma fold_left_Qplus_const (l : list Q) (a c : Q) :
  (forall x, In x l -> x == c) ->
  fold_left Qplus l a == a + inject_Z (Z.of_nat (List.length l)) * c.
Proof.
  revert a. induction l as [|x l IH]; intros a H.
  - simpl. ring.
  - cbn [fold_left List.length]. rewrite IH by (intros y Hy; apply H; now right).
    rewrite (H x (or_introl eq_refl)), Nat2Z.inj_succ. unfold Z.succ.
    rewrite inject_Z_plus. change (inject_Z 1) with 1. ring.
Qed.

Lemma average_const (l : list Q) (c : Q) :
  l <> [] -> (forall x, In x l -> x == c) -> nanEq (average l) (Some c).
Proof.
  intros Hne H. destruct l as [|x l]; [congruence|].
  unfold average, nanEq. rewrite (fold_left_Qplus_const _ 0 c H).
  assert (P : 0 < inject_Z (Z.of_nat (List.length (x :: l)))).
  { apply inject_Z_pos. simpl. lia. }
  field. lra.
Qed.

(** X22: for a non-empty catalog in which every product fits and none has a
    positive recorded baseline, [avgBaselineRatio] is 1, so the baseline
    term adds exactly 300 to the score of every such candidate. *)
Theorem no_baselines_give_ratio_one (boxDims : Dims) (skus : list Sku)
    (config : Config) (palletFit : PalletFit) :
  skus <> [] ->
  (forall sku, In sku skus -> fitsIn config boxDims sku = true) ->
  (forall sku, In sku skus ->
               current_baseline sku = None \/
               exists b, current_baseline sku = Some b /\ b <= 0) ->
  exists s,
    scoreBoxCandidate boxDims skus config palletFit = Accepted s /\
    nanEq (avgBaselineRatio s) (Some 1) /\
    nanEq (nanMul (avgBaselineRatio s) (Some 300)) (Some 300).
Proof.
  intros Hne Hfit Hnob.
  assert (F : forallb (fitsIn config boxDims) skus = true)
    by (apply forallb_forall; exact Hfit).
  unfold scoreBoxCandidate. rewrite allFit_forallb, F. cbn [negb].
  eexists. split; [reflexivity|]. cbn [avgBaselineRatio].
  assert (A : nanEq (average (map baselineRatio
                       (map (skuResult (testConfig config boxDims)) skus)))
                    (Some 1)).
  { apply average_const.
    - destruct skus; [congruence | discriminate].
    - intros x Hx. apply in_map_iff in Hx. destruct Hx as (sr & <- & Hsr).
      apply in_map_iff in Hsr. destruct Hsr as (sku & <- & Hsku).
      unfold baselineRatio, skuResult, baselineOrZero.
      cbn [sr_currentBaseline sr_count].
      destruct (Hnob sku Hsku) as [E|(b & E & Hb)]; rewrite E.
      + reflexivity.
      + destruct (Qeq_bool b 0); [reflexivity|].
        assert (G : Qgtb b 0 = false) by (apply Qgtb_false; exact Hb).
        rewrite G. reflexivity. }
  split; [exact A|].
  destruct (average _) as [v|]; simpl in *; [|exact A]. rewrite A. ring.
Qed.

Lemma no_baselines_witness :
  exists s,
    scoreBoxCandidate {| dimL := 20; dimW := 15; dimH := 14 |}
      [sampleSku 6 4 3 None; sampleSku 5 5 5 None]
      (sampleConfig {| dimL := 12; dimW := 12; dimH := 12 |} 0.25)
      (checkPalletFit {| dimL := 20; dimW := 15; dimH := 14 |} samplePallet)
    = Accepted s /\
    nanEq (avgBaselineRatio s) (Some 1).
Proof.
  destruct (no_baselines_give_ratio_one
              {| dimL := 20; dimW := 15; dimH := 14 |}
              [sampleSku 6 4 3 None; sampleSku 5 5 5 None]
              (sampleConfig {| dimL := 12; dimW := 12; dimH := 12 |} 0.25)
              (checkPalletFit {| dimL := 20; dimW := 15; dimH := 14 |}
                              samplePallet))
    as (s & Es & Ha & _).
  - discriminate.
  - intros sku [<-|[<-|[]]]; vm_compute; reflexivity.
  - intros sku [<-|[<-|[]]]; left; reflexivity.
  - exists s. split; assumption.
Defined.

End SearchShape.

(** * The analysis of the current masterpack *)
Section CurrentMasterpack.
Import InnerPack MultiSku.

(** X23: a product that does not fit the current masterpack, and has no
    squish factor of its own, is reported with a theoretical count of 0, no
    utilization, no rotation and the squish factor 1.0; so it is never
    counted among the problematic products. *)
Theorem misfit_is_reported_unproblematic (config : Config) (sd : SkuData) :
  fits (findBestArrangement (sd_base sd) config) = false ->
  truthy (squish_factor sd) = false ->
  let a := analyzeSku config sd in
  theoretical a = 0%Z /\ theoreticalUtil a = 0 /\ actualUtil a = 0 /\
  a_rotation a = None /\ squishFactor a = 1 /\
  weight a = nanOrZero (box_weight_lb sd) /\
  isProblematic a = false.
Proof.
  intros Hfit Hsq. cbv zeta. unfold isProblematic, analyzeSku.
  cbn [theoretical theoreticalUtil actualUtil a_rotation squishFactor weight].
  rewrite Hsq.
  destruct (findBestArrangement (sd_base sd) config); [|discriminate].
  repeat split.
Qed.

Lemma misfit_witness :
  isProblematic
    (analyzeSku (sampleConfig {| dimL := 18; dimW := 18; dimH := 18 |} 0.25)
       (mkSkuData (sampleSku 30 4 3 (Some 40)) None None None None None None))
  = false.
Proof.
  apply (misfit_is_reported_unproblematic
           (sampleConfig {| dimL := 18; dimW := 18; dimH := 18 |} 0.25)
           (mkSkuData (sampleSku 30 4 3 (Some 40)) None None None None None
                      None));
    vm_compute; reflexivity.
Defined.

(** X24: for a product that fits and has a non-zero baseline but no squish
    factor of its own, the reported squish factor is baseline / theoretical
    count and [actualUtil] is that factor times [theoreticalUtil]. *)
Theorem actual_utilization_is_scaled (config : Config) (sd : SkuData)
    (f : Fit) (b : Q) :
  findBestArrangement (sd_base sd) config = Fits f ->
  truthy (squish_factor sd) = false ->
  current_baseline (sd_base sd) = Some b -> ~ b == 0 ->
  let a := analyzeSku config sd in
  theoretical a = count (best f) /\
  actual a = b /\
  squishFactor a = b / inject_Z (count (best f)) /\
  actualUtil a = squishFactor a * theoreticalUtil a.
Proof.
  intros Hfit Hsq Hb Hnz. cbv zeta. unfold analyzeSku.
  cbn [theoretical theoreticalUtil actualUtil squishFactor actual].
  rewrite Hsq, Hfit. unfold baselineOrZero, truthy. rewrite Hb.
  assert (E : Qeq_bool b 0 = false).
  { destruct (Qeq_bool b 0) eqn:B; [|reflexivity].
    apply Qeq_bool_iff in B. contradiction. }
  rewrite E. cbn [negb nanOrZero]. repeat split.
Qed.

Lemma actual_utilization_witness :
  exists f,
    findBestArrangement (sampleSku 6 4 3 (Some 30))
      (sampleConfig {| dimL := 18; dimW := 18; dimH := 18 |} 0.25) = Fits f /\
    squishFactor
      (analyzeSku (sampleConfig {| dimL := 18; dimW := 18; dimH := 18 |} 0.25)
         (mkSkuData (sampleSku 6 4 3 (Some 30)) None None None None None None))
    = 30 / inject_Z (count (best f)).
Proof.
  destruct (findBestArrangement (sampleSku 6 4 3 (Some 30))
              (sampleConfig {| dimL := 18; dimW := 18; dimH := 18 |} 0.25))
    as [|f] eqn:E; [vm_compute in E; discriminate|].
  exists f. split; [reflexivity|].
  destruct (actual_utilization_is_scaled
              (sampleConfig {| dimL := 18; dimW := 18; dimH := 18 |} 0.25)
              (mkSkuData (sampleSku 6 4 3 (Some 30)) None None None None None
                         None) f 30) as (_ & _ & H & _);
    [exact E | reflexivity | reflexivity | intros C; discriminate C |].
  exact H.
Defined.

(** X25: in the summary of [analyzeCurrentMasterpack], [totalSkus] is the
    size of the catalog, neither counter exceeds it, and every product
    without recorded box dimensions, or without a baseline, counts as
    underutilized (its box utilization reads as 0). *)
Theorem summary_counters (skus : list SkuData) (config : Config) :
  let '(results, summary) := analyzeCurrentMasterpack skus config in
  List.length results = List.length skus /\
  totalSkus summary = List.length skus /\
  (problematicSkus summary <= totalSkus summary)%nat /\
  (underutilizedSkus summary <= totalSkus summary)%nat /\
  (forall sd, box_dims sd = None \/ current_baseline (sd_base sd) = None ->
              isUnderutilized (analyzeSku config sd) = true) /\
  ((forall sd, In sd skus -> box_dims sd = None) ->
   underutilizedSkus summary = totalSkus summary).
Proof.
  unfold analyzeCurrentMasterpack.
  cbn [totalSkus problematicSkus underutilizedSkus].
  rewrite !length_map.
  assert (U : forall sd,
             box_dims sd = None \/ current_baseline (sd_base sd) = None ->
             isUnderutilized (analyzeSku config sd) = true).
  { intros sd H. unfold isUnderutilized, analyzeSku. cbn [boxUtilization].
    destruct (box_dims sd) as [bd|]; [|reflexivity].
    destruct H as [H|H]; [discriminate|]. rewrite H. reflexivity. }
  repeat split; try exact U.
  - etransitivity; [apply filter_length_le|]. rewrite length_map. lia.
  - etransitivity; [apply filter_length_le|]. rewrite length_map. lia.
  - intros Hall. induction skus as [|sd l IH]; [reflexivity|].
    cbn [map filter]. rewrite (U sd) by (left; apply Hall; now left).
    cbn [List.length]. f_equal. apply IH. intros sd' H'. apply Hall. now right.
Qed.

End CurrentMasterpack.

(** * The kit analysis *)
Section KitSearches.
Import MultiSku KitAnalysis.

Lemma nanDiv_undefined (a : option Q) : nanDiv a None = None.
Proof. destruct a; reflexivity. Qed.

(** An orientation object has the properties [w], [l] and [h], none of the
    three [calculateFitCount] reads. *)
Lemma calculateFitCount_orientation (boxDims : Obj) (w l h : Q)
    (name : string) :
  calculateFitCount boxDims (o_dims (orientationObj w l h name)) = None.
Proof.
  unfold calculateFitCount, orientationObj. cbn [o_dims].
  assert (E : prop [("w"%string, w); ("l"%string, l); ("h"%string, h)]
                   "width" = None) by reflexivity.
  rewrite E, nanDiv_undefined. reflexivity.
Qed.

Lemma findOptimalOrientation_null (boxDims : Obj) (w l h : Q) :
  findOptimalOrientation boxDims w l h = None.
Proof.
  unfold findOptimalOrientation, orientationsOf. cbn [fold_left].
  unfold visitOrientation.
  rewrite !calculateFitCount_orientation. reflexivity.
Qed.

(** X26: [findOptimalOrientation] passes its orientation objects
    [{ w, l, h, name }] to [calculateFitCount], which reads [width],
    [length] and [height]: every count is [NaN], no orientation is ever
    selected and the result is [null] for every box and item, although
    [calculateFitCount] itself counts a box of the proper shape. *)
Theorem findOptimalOrientation_always_null :
  (forall (boxDims : Obj) (w l h : Q),
      findOptimalOrientation boxDims w l h = None) /\
  (forall bw bl bh w l h : Q,
      calculateFitCount (boxObj bw bl bh) (boxObj w l h)
      = Some (Qfloor (bw / w) * Qfloor (bl / l) * Qfloor (bh / h))%Z).
Proof.
  split; [exact findOptimalOrientation_null | reflexivity].
Qed.

Lemma considerBox_null (kit : Kit) (w l h : Q) :
  considerBox kit None w l h = None.
Proof.
  unfold considerBox. rewrite findOptimalOrientation_null. reflexivity.
Qed.

Lemma sweep_total (minDim maxDim step : Q) :
  0 < step -> exists boxes, sweep minDim maxDim step = Some boxes.
Proof.
  intros Hstep. unfold sweep.
  destruct (forValues_enough maxDim step (loopFuel minDim maxDim step) Hstep
              minDim (loopFuel_enough minDim maxDim step Hstep)) as [l El].
  rewrite El. eexists. reflexivity.
Qed.

Lemma fitAll_null (boxDims : Obj) (boxVolume : option Q) (kit : Kit)
    (kits : list Kit) (total : option Q) (results : list KitResult) :
  fitAll boxDims boxVolume (kit :: kits) total results = None.
Proof. cbn [fitAll]. rewrite findOptimalOrientation_null. reflexivity. Qed.

(** X27: as a consequence both box searches of kitAnalysis.js come back
    empty-handed: whenever its sweep terminates (positive step),
    [findBetterBoxSize] returns [null] for every kit, and
    [findOptimalBoxForMultipleSkus] returns [null] for every kit data and
    list of products (also at once, when none of the products is known). *)
Theorem kit_box_searches_return_null :
  (forall (kit : Kit) (minDim maxDim step : Q),
      0 < step -> findBetterBoxSize kit minDim maxDim step = Some None) /\
  (forall (kitData : list Kit) (skuList : list string) (options : Options),
      0 < orDefault 1 (step options) \/ kitsOf kitData skuList = [] ->
      findOptimalBoxForMultipleSkus kitData skuList options = Some None).
Proof.
  split.
  - intros kit minDim maxDim step Hstep. unfold findBetterBoxSize.
    destruct (sweep_total minDim maxDim step Hstep) as [boxes E]. rewrite E.
    f_equal. clear E. induction boxes as [|[[w l] h] boxes IH]; [reflexivity|].
    cbn [fold_left]. rewrite considerBox_null. exact IH.
  - intros kitData skuList options H. unfold findOptimalBoxForMultipleSkus.
    destruct (kitsOf kitData skuList) as [|kit kits] eqn:Ek; [reflexivity|].
    destruct H as [Hstep|H]; [|discriminate].
    destruct (sweep_total (orDefault 14 (minDim options))
                (orDefault 22 (maxDim options)) _ Hstep) as [boxes E].
    rewrite E. f_equal. clear E.
    induction boxes as [|[[w l] h] boxes IH]; [reflexivity|].
    cbn [fold_left]. unfold considerBoxForAll at 2.
    rewrite fitAll_null. exact IH.
Qed.

Lemma kit_box_searches_witness :
  findBetterBoxSize
    {| kit_sku := "KIT"; box_volume := 4000; squished_width := 5;
       squished_length := 4; squished_height := 3; squished_volume := 60;
       original_volume := 90; quantity := 20; calc_squishFactor := 1.5;
       calc_utilizationBox := 0.3 |} 12 20 0.5 = Some None.
Proof.
  apply (proj1 kit_box_searches_return_null). reflexivity.
Defined.

(** X28: in [analyzeSquishEfficiency] the reported [squishBenefit] is the
    utilization of the squished items minus that of the original ones, so
    compression never shows as a gain: for a box of positive volume and a
    non-negative quantity, whenever the squished volume is at most the
    original volume, [volumeSavings] is zero or more while [squishBenefit]
    is zero or less. *)
Theorem squish_benefit_is_never_positive (kit : Kit) :
  0 < box_volume kit -> 0 <= quantity kit ->
  squished_volume kit <= original_volume kit ->
  let e := analyzeSquishEfficiency kit in
  0 <= volumeSavings e /\
  exists x, squishBenefit e = Some x /\ x <= 0.
Proof.
  intros Hv Hq Hs. cbv zeta.
  unfold analyzeSquishEfficiency, calculateUtilization.
  cbn [squishBenefit volumeSavings nanMul nanDiv nanSub].
  split; [nra|].
  eexists. split; [reflexivity|].
  assert (Hle : squished_volume kit * quantity kit
                <= original_volume kit * quantity kit) by nra.
  assert (Hd : squished_volume kit * quantity kit / box_volume kit
               <= original_volume kit * quantity kit / box_volume kit).
  { apply Qmult_le_compat_r; [exact Hle|].
    apply Qlt_le_weak, Qinv_lt_0_compat. exact Hv. }
  lra.
Qed.

Lemma squish_benefit_witness :
  exists x,
    squishBenefit
      (analyzeSquishEfficiency
         {| kit_sku := "KIT"; box_volume := 4000; squished_width := 5;
            squished_length := 4; squished_height := 3; squished_volume := 60;
            original_volume := 90; quantity := 20; calc_squishFactor := 1.5;
            calc_utilizationBox := 0.3 |}) = Some x /\ x <= 0.
Proof.
  apply (squish_benefit_is_never_positive
           {| kit_sku := "KIT"; box_volume := 4000; squished_width := 5;
              squished_length := 4; squished_height := 3; squished_volume := 60;
              original_volume := 90; quantity := 20; calc_squishFactor := 1.5;
              calc_utilizationBox := 0.3 |});
    by_evaluation.
Defined.

End KitSearches.

(** * Unit conversion *)
Section Conversions.
Import UnitConversion PrimFloat.
Local Set Warnings "-inexact-float".

(** X29: converting a value to millimetres (or grams) and back, or the other
    way round, returns the value, for every unit name; an unknown unit is
    passed through unchanged in both directions. *)
Theorem conversions_round_trip (value : Q) (unit : string) :
  convertFromMM (convertToMM value unit) unit == value /\
  convertToMM (convertFromMM value unit) unit == value /\
  convertFromGrams (convertToGrams value unit) unit == value /\
  convertToGrams (convertFromGrams value unit) unit == value /\
  (unit <> "in"%string -> unit <> "mm"%string -> unit <> "cm"%string ->
   convertToMM value unit = value /\ convertFromMM value unit = value) /\
  (unit <> "oz"%string -> unit <> "lb"%string -> unit <> "g"%string ->
   unit <> "kg"%string ->
   convertToGrams value unit = value /\ convertFromGrams value unit = value).
Proof.
  unfold convertFromMM, convertToMM, convertFromGrams, convertToGrams,
    INCH_TO_MM, OZ_TO_G, LB_TO_KG.
  repeat split;
    repeat match goal with
           | |- context [String.eqb unit ?s] =>
               destruct (String.eqb_spec unit s); try congruence
           end;
    try reflexivity; try (field; discriminate); intros; congruence.
Qed.

(** X30: over exact arithmetic the weight constants agree: a pound
    converts to the same number of grams as 16 ounces
    (16 * 28.3495 = 0.453592 * 1000), in unitConversion.js and between the
    two files, and the inch conversion of units.js is the one of
    unitConversion.js.  In double precision one pound and 16 ounces still
    convert to the same 453.592 grams, but 3 pounds (1360.776) and 48
    ounces (1360.7759999999998) do not, and 1.3 inches come back from
    millimetres as 1.2999999999999998. *)
Theorem pound_is_sixteen_ounces :
  (forall value : Q,
      convertToGrams value "lb" == convertToGrams (16 * value) "oz" /\
      convertFromGrams value "oz" == 16 * convertFromGrams value "lb" /\
      ozToG (lbToOz value) == 1000 * lbToKg value /\
      ozToLb (lbToOz value) == value /\
      inToMm value = convertToMM value "in" /\
      mmToIn (inToMm value) == value) /\
  (Doubles.convertToGrams 1 "lb" = 453.592%float /\
   Doubles.convertToGrams 16 "oz" = 453.592%float /\
   Doubles.convertToGrams 3 "lb" = 1360.776%float /\
   Doubles.convertToGrams 48 "oz" = 1360.7759999999998%float /\
   (Doubles.convertToGrams 48 "oz" <? Doubles.convertToGrams 3 "lb")%float
   = true /\
   Doubles.mmToIn (Doubles.inToMm 1.3) = 1.2999999999999998%float /\
   (Doubles.mmToIn (Doubles.inToMm 1.3) <? 1.3)%float = true).
Proof.
  split; [|vm_compute; repeat split; reflexivity].
  intros value.
  unfold convertToGrams, convertFromGrams, convertToMM, ozToG, lbToOz, lbToKg,
    ozToLb, inToMm, mmToIn, INCH_TO_MM, OZ_TO_G, LB_TO_KG.
  cbn [String.eqb Ascii.eqb Bool.eqb].
  repeat split; try reflexivity; field.
Qed.

End Conversions.
